(** * LocalTailwindExtractor: a shallow embedding of [local_tailwind_extractor.py]

    The development follows the layout of the Python file.

    - [Py]: the string primitives the code calls.
    - [MD5]: [hashlib.md5], the digest behind the fingerprints.
    - [Soup]: the tree of the HTML library: [Tag], [NavigableString] and
      [Comment], searching, equality and serialisation.
    - The methods of [LocalTailwindExtractor], one definition each and
      under their own names.  A method that mutates [self] threads a
      [state]; a method that may raise returns in the monad [M], where a
      raise keeps the state reached so far.  The file system, the PHP
      sub-process, the parser and the clock are the fields of a [world],
      and every general theorem holds for every [world].
    - [HtmlParser]: a model of the parser, to run the extractor on concrete
      files.
    - [Dom]: the tree as objects in memory, with [clean_element] written as
      the in-place edits it makes.
    - The properties that settle the claims of the specification.
    - Further properties of the code: the search for files, the counters
      over a whole run, what cleaning leaves, the patterns, the report and
      the [__main__] block.

    A Python [str] is a [string] in which every [ascii] stands for one
    character; case folding and white space are those of the ASCII
    range. *)

From Stdlib Require Import ZArith Lia Ascii.
From stdpp Require Import gmap strings list pretty.

Set Warnings "-register-all".

Open Scope string_scope.
Open Scope list_scope.

(** ** Python string primitives *)

Module Py.

(** [str.isspace] on one ASCII character: TAB..CR, FS..US and the blank. *)
Definition is_space (c : ascii) : bool :=
  let n := nat_of_ascii c in
  (((9 <=? n) && (n <=? 13)) || ((28 <=? n) && (n <=? 32)))%nat.

Definition lower_char (c : ascii) : ascii :=
  let n := nat_of_ascii c in
  if ((65 <=? n) && (n <=? 90))%nat then ascii_of_nat (n + 32) else c.

(** [s.lower()] *)
Fixpoint lower (s : string) : string :=
  match s with
  | EmptyString => EmptyString
  | String c t => String (lower_char c) (lower t)
  end.

(** [s.startswith(p)] *)
Definition startswith (s p : string) : bool := String.prefix p s.

(** [needle in hay] on strings. *)
Fixpoint str_in (needle hay : string) : bool :=
  String.prefix needle hay ||
  match hay with
  | EmptyString => false
  | String _ t => str_in needle t
  end.

(** [x in xs] on a list of strings. *)
Definition in_list (x : string) (xs : list string) : bool :=
  existsb (String.eqb x) xs.

(** [sep.join(xs)] *)
Definition join (sep : string) (xs : list string) : string :=
  String.concat sep xs.

(** [sorted(xs)] on strings: code point order, written as an insertion sort. *)
Fixpoint insert_sorted (x : string) (xs : list string) : list string :=
  match xs with
  | [] => [x]
  | y :: ys => if String.leb x y then x :: y :: ys else y :: insert_sorted x ys
  end.

Definition sorted (xs : list string) : list string :=
  foldr insert_sorted [] xs.

(** [s.lstrip()], [s.rstrip()], [s.strip()] *)
Fixpoint lstrip (s : string) : string :=
  match s with
  | EmptyString => EmptyString
  | String c t => if is_space c then lstrip t else s
  end.

Fixpoint rstrip (s : string) : string :=
  match s with
  | EmptyString => EmptyString
  | String c t =>
      match rstrip t with
      | EmptyString => if is_space c then EmptyString else String c EmptyString
      | t' => String c t'
      end
  end.

Definition strip (s : string) : string := rstrip (lstrip s).

(** [s.split()]: maximal runs of characters that are not white space.
    [cur] is the run being read, in reverse. *)
Fixpoint split_go (cur : list ascii) (s : string) : list string :=
  let flush := match cur with
               | [] => []
               | _ => [String.string_of_list_ascii (rev cur)]
               end in
  match s with
  | EmptyString => flush
  | String c t => if is_space c then flush ++ split_go [] t
                  else split_go (c :: cur) t
  end.

Definition split (s : string) : list string := split_go [] s.

(** [s[:n]] *)
Fixpoint take (n : nat) (s : string) : string :=
  match n, s with
  | S k, String c t => String c (take k t)
  | _, _ => EmptyString
  end.

(** [s[n:]] *)
Fixpoint drop (n : nat) (s : string) : string :=
  match n, s with
  | S k, String _ t => drop k t
  | _, _ => s
  end.

(** [s.upper()] *)
Definition upper_char (c : ascii) : ascii :=
  let n := nat_of_ascii c in
  if ((97 <=? n) && (n <=? 122))%nat then ascii_of_nat (n - 32) else c.

Fixpoint upper (s : string) : string :=
  match s with
  | EmptyString => EmptyString
  | String c t => String (upper_char c) (upper t)
  end.

Definition is_cased (c : ascii) : bool :=
  let n := nat_of_ascii c in
  (((65 <=? n) && (n <=? 90)) || ((97 <=? n) && (n <=? 122)))%nat.

(** [s.title()]: a letter after a letter is lowered, any other letter is
    raised. *)
Fixpoint title_from (after_letter : bool) (s : string) : string :=
  match s with
  | EmptyString => EmptyString
  | String c t =>
      String (if after_letter then lower_char c else upper_char c)
             (title_from (is_cased c) t)
  end.

Definition title (s : string) : string := title_from false s.

(** [s.endswith(suffix)] *)
Definition endswith (s suffix : string) : bool :=
  String.eqb (drop (String.length s - String.length suffix) s) suffix.

(** Truthiness of a string. *)
Definition truthy (s : string) : bool :=
  match s with EmptyString => false | _ => true end.

End Py.

(** ** [hashlib.md5(...).hexdigest()] (RFC 1321), on 32-bit words held in [Z] *)

Module MD5.

Local Open Scope Z_scope.

Definition mask32 : Z := 0xffffffff.
Definition add32 (a b : Z) : Z := Z.land (a + b) mask32.
Definition not32 (a : Z) : Z := Z.lxor a mask32.
Definition rotl32 (x c : Z) : Z :=
  Z.lor (Z.land (Z.shiftl x c) mask32) (Z.shiftr x (32 - c)).

Definition K : list Z :=
  [ 0xd76aa478; 0xe8c7b756; 0x242070db; 0xc1bdceee;
    0xf57c0faf; 0x4787c62a; 0xa8304613; 0xfd469501;
    0x698098d8; 0x8b44f7af; 0xffff5bb1; 0x895cd7be;
    0x6b901122; 0xfd987193; 0xa679438e; 0x49b40821;
    0xf61e2562; 0xc040b340; 0x265e5a51; 0xe9b6c7aa;
    0xd62f105d; 0x02441453; 0xd8a1e681; 0xe7d3fbc8;
    0x21e1cde6; 0xc33707d6; 0xf4d50d87; 0x455a14ed;
    0xa9e3e905; 0xfcefa3f8; 0x676f02d9; 0x8d2a4c8a;
    0xfffa3942; 0x8771f681; 0x6d9d6122; 0xfde5380c;
    0xa4beea44; 0x4bdecfa9; 0xf6bb4b60; 0xbebfbc70;
    0x289b7ec6; 0xeaa127fa; 0xd4ef3085; 0x04881d05;
    0xd9d4d039; 0xe6db99e5; 0x1fa27cf8; 0xc4ac5665;
    0xf4292244; 0x432aff97; 0xab9423a7; 0xfc93a039;
    0x655b59c3; 0x8f0ccc92; 0xffeff47d; 0x85845dd1;
    0x6fa87e4f; 0xfe2ce6e0; 0xa3014314; 0x4e0811a1;
    0xf7537e82; 0xbd3af235; 0x2ad7d2bb; 0xeb86d391 ].

Definition shifts : list Z :=
  [ 7; 12; 17; 22; 7; 12; 17; 22; 7; 12; 17; 22; 7; 12; 17; 22;
    5;  9; 14; 20; 5;  9; 14; 20; 5;  9; 14; 20; 5;  9; 14; 20;
    4; 11; 16; 23; 4; 11; 16; 23; 4; 11; 16; 23; 4; 11; 16; 23;
    6; 10; 15; 21; 6; 10; 15; 21; 6; 10; 15; 21; 6; 10; 15; 21 ].

Record regs := Regs { rA : Z; rB : Z; rC : Z; rD : Z }.

Definition init : regs :=
  Regs 0x67452301 0xefcdab89 0x98badcfe 0x10325476.

(** The message bytes followed by 0x80, zeros up to 56 mod 64, and the bit
    length as 8 little-endian bytes. *)
Definition le_bytes (count : nat) (v : Z) : list Z :=
  map (fun i => Z.land (Z.shiftr v (8 * Z.of_nat i)) 0xff) (seq 0 count).

Definition pad (msg : list Z) : list Z :=
  let len := length msg in
  let zeros := ((119 - len mod 64) mod 64)%nat in
  msg ++ [0x80] ++ repeat 0 zeros ++ le_bytes 8 (8 * Z.of_nat len).

Definition word_of (bs : list Z) : Z :=
  foldr (fun b acc => b + 256 * acc) 0 bs.

Fixpoint words (count : nat) (bs : list Z) : list Z :=
  match count with
  | O => []
  | S k => word_of (firstn 4 bs) :: words k (skipn 4 bs)
  end.

Definition round (M : list Z) (r : regs) (i : nat) : regs :=
  let '(Regs a b c d) := r in
  let '(f, g) :=
    if (i <? 16)%nat then (Z.lor (Z.land b c) (Z.land (not32 b) d), i)
    else if (i <? 32)%nat then
      (Z.lor (Z.land d b) (Z.land (not32 d) c), ((5 * i + 1) mod 16)%nat)
    else if (i <? 48)%nat then
      (Z.lxor (Z.lxor b c) d, ((3 * i + 5) mod 16)%nat)
    else (Z.lxor c (Z.lor b (not32 d)), ((7 * i) mod 16)%nat) in
  let f' := add32 (add32 (add32 f a) (nth i K 0)) (nth g M 0) in
  Regs d (add32 b (rotl32 f' (nth i shifts 0))) b c.

Definition chunk (r : regs) (block : list Z) : regs :=
  let M := words 16 block in
  let '(Regs a b c d) := foldl (round M) r (seq 0 64) in
  Regs (add32 (rA r) a) (add32 (rB r) b) (add32 (rC r) c) (add32 (rD r) d).

Fixpoint chunks (count : nat) (r : regs) (bs : list Z) : regs :=
  match count with
  | O => r
  | S k => chunks k (chunk r (firstn 64 bs)) (skipn 64 bs)
  end.

Definition digest (msg : list Z) : regs :=
  let p := pad msg in chunks (length p / 64) init p.

Definition hex_digit (v : Z) : ascii :=
  nth (Z.to_nat v) (String.list_ascii_of_string "0123456789abcdef") "0"%char.

Definition hex_byte (b : Z) : string :=
  String (hex_digit (Z.shiftr b 4)) (String (hex_digit (Z.land b 0xf)) "").

Definition hex_word (w : Z) : string :=
  hex_byte (Z.land w 0xff) +:+ hex_byte (Z.land (Z.shiftr w 8) 0xff) +:+
  hex_byte (Z.land (Z.shiftr w 16) 0xff) +:+
  hex_byte (Z.land (Z.shiftr w 24) 0xff).

Definition hex_regs (r : regs) : string :=
  hex_word (rA r) +:+ hex_word (rB r) +:+ hex_word (rC r) +:+ hex_word (rD r).

(** [hashlib.md5(s.encode()).hexdigest()] *)
Definition hexdigest (s : string) : string :=
  hex_regs (digest (map (fun c => Z.of_N (N_of_ascii c))
                        (String.list_ascii_of_string s))).

End MD5.

(** ** The markup tree of the HTML library

    [Tag], [NavigableString] and [Comment] are the three node classes the
    extractor meets.  Attributes are kept in insertion order, as the
    dictionary of a [Tag] keeps them; a multi-valued attribute such as
    [class] holds a list of tokens, any other attribute a string. *)

Module Soup.

Inductive attr_value :=
| AttrStr (s : string)
| AttrList (tokens : list string).

Inductive node :=
| Tag (name : string) (attrs : list (string * attr_value)) (contents : list node)
| NavigableString (s : string)
| Comment (s : string).

(** The object returned by the parser is a [Tag] of this name. *)
Definition document_name : string := "[document]".
Definition BeautifulSoupObject (contents : list node) : node :=
  Tag document_name [] contents.

(** [tag.name]: [None] on strings. *)
Definition name_of (n : node) : option string :=
  match n with
  | Tag name _ _ => Some name
  | _ => None
  end.

Definition is_tag (n : node) : bool :=
  match n with Tag _ _ _ => true | _ => false end.

Definition is_comment (n : node) : bool :=
  match n with Comment _ => true | _ => false end.

Definition contents_of (n : node) : list node :=
  match n with
  | Tag _ _ cs => cs
  | _ => []
  end.

(** [attrs.get(key)] *)
Fixpoint get (key : string) (attrs : list (string * attr_value))
  : option attr_value :=
  match attrs with
  | [] => None
  | (k, v) :: rest => if String.eqb k key then Some v else get key rest
  end.

(** [tag.descendants]: every node below [n], in document order. *)
Fixpoint descendants (n : node) : list node :=
  match n with
  | Tag _ _ cs =>
      (fix go (l : list node) : list node :=
         match l with
         | [] => []
         | c :: rest => c :: descendants c ++ go rest
         end) cs
  | _ => []
  end.

(** [tag.find_all(True)], [tag.find_all(names)], [tag.find(names)] *)
Definition find_all_tags (n : node) : list node :=
  filter (fun d => is_tag d) (descendants n).

Definition has_name (names : list string) (n : node) : bool :=
  match n with
  | Tag name _ _ => Py.in_list name names
  | _ => false
  end.

Definition find_all (names : list string) (n : node) : list node :=
  filter (fun d => has_name names d) (descendants n).

Definition find (names : list string) (n : node) : option node :=
  head (find_all names n).

(** [tag.find_all(recursive=False)]: the direct children that are tags. *)
Definition find_all_children (n : node) : list node :=
  filter (fun d => is_tag d) (contents_of n).

(** [tag.string]: the single string below a chain of only children. *)
Fixpoint string_of (n : node) : option string :=
  match n with
  | Tag _ _ [c] =>
      match c with
      | Tag _ _ _ => string_of c
      | NavigableString s | Comment s => Some s
      end
  | _ => None
  end.

(** [==] on attribute values and on attribute dictionaries (order of the
    keys does not matter). *)
Definition attr_value_eqb (a b : attr_value) : bool :=
  match a, b with
  | AttrStr x, AttrStr y => String.eqb x y
  | AttrList x, AttrList y =>
      (length x =? length y)%nat && forallb (fun p => String.eqb p.1 p.2) (zip x y)
  | _, _ => false
  end.

Definition opt_attr_eqb (a b : option attr_value) : bool :=
  match a, b with
  | Some x, Some y => attr_value_eqb x y
  | None, None => true
  | _, _ => false
  end.

Definition attrs_eqb (a b : list (string * attr_value)) : bool :=
  forallb (fun k => opt_attr_eqb (get k a) (get k b)) (map fst a ++ map fst b).

(** [==] on nodes: [Tag.__eq__] compares name, attributes and contents;
    strings compare as [str], whatever their class. *)
Fixpoint node_eqb (a b : node) : bool :=
  match a, b with
  | Tag n1 a1 c1, Tag n2 a2 c2 =>
      String.eqb n1 n2 && attrs_eqb a1 a2 &&
      (fix all2 (l1 l2 : list node) : bool :=
         match l1, l2 with
         | [], [] => true
         | x :: r1, y :: r2 => node_eqb x y && all2 r1 r2
         | _, _ => false
         end) c1 c2
  | (NavigableString s1 | Comment s1), (NavigableString s2 | Comment s2) =>
      String.eqb s1 s2
  | _, _ => false
  end.

(** [x in xs] on a list of nodes. *)
Definition node_in (x : node) (xs : list node) : bool :=
  existsb (node_eqb x) xs.

(** *** Serialisation: [str(node)] *)

(** Tags the builder closes as soon as they are opened. *)
Definition void_tags : list string :=
  [ "area"; "base"; "br"; "col"; "embed"; "hr"; "img"; "input"; "keygen";
    "link"; "menuitem"; "meta"; "param"; "source"; "track"; "wbr";
    "basefont"; "bgsound"; "command"; "frame"; "image"; "isindex";
    "nextid"; "spacer" ].

Definition cdata_tags : list string := [ "script"; "style" ].

(** The minimal formatter: ampersand and angle brackets become entities. *)
Fixpoint escape (s : string) : string :=
  match s with
  | EmptyString => EmptyString
  | String c t =>
      (if Ascii.eqb c "&" then "&amp;"
       else if Ascii.eqb c "<" then "&lt;"
       else if Ascii.eqb c ">" then "&gt;"
       else String c EmptyString) +:+ escape t
  end.

Fixpoint replace_char (c : ascii) (by_ : string) (s : string) : string :=
  match s with
  | EmptyString => EmptyString
  | String d t =>
      (if Ascii.eqb c d then by_ else String d EmptyString) +:+ replace_char c by_ t
  end.

Definition dquote : string := String (ascii_of_nat 34) EmptyString.

Definition quoted_attribute_value (v : string) : string :=
  if Py.str_in dquote v then
    if Py.str_in "'" v
    then dquote +:+ replace_char (ascii_of_nat 34) "&quot;" v +:+ dquote
    else "'" +:+ v +:+ "'"
  else dquote +:+ v +:+ dquote.

Definition attr_text (v : attr_value) : string :=
  match v with
  | AttrStr s => s
  | AttrList l => Py.join " " l
  end.

Definition attrs_str (attrs : list (string * attr_value)) : string :=
  String.concat ""
    (map (fun kv => " " +:+ kv.1 +:+ "=" +:+
                    quoted_attribute_value (escape (attr_text kv.2))) attrs).

(** [parent] is the name of the enclosing tag: text below [script] and
    [style] is written as it is. *)
Fixpoint node_str_in (parent : string) (n : node) : string :=
  match n with
  | NavigableString s =>
      if Py.in_list parent cdata_tags then s else escape s
  | Comment s => "<!--" +:+ s +:+ "-->"
  | Tag name attrs cs =>
      let inner :=
        (fix go (l : list node) : string :=
           match l with
           | [] => EmptyString
           | c :: rest => node_str_in name c +:+ go rest
           end) cs in
      if String.eqb name document_name then inner
      else if Py.in_list name void_tags && (length cs =? 0)%nat
      then "<" +:+ name +:+ attrs_str attrs +:+ "/>"
      else "<" +:+ name +:+ attrs_str attrs +:+ ">" +:+ inner +:+
           "</" +:+ name +:+ ">"
  end.

Definition node_str (n : node) : string := node_str_in "" n.

End Soup.

Export Soup.

(** ** Exceptions, the outside world, and the extractor's state *)

(** Subclasses of Python's [Exception] that the collaborators can raise. *)
Inductive exception :=
| FileNotFoundError (msg : string)
| OSError (msg : string)
| SubprocessError (msg : string)
| ParserRejectedMarkup (msg : string)
| AttributeError (msg : string).

(** What can leave a call: an [Exception], or [SystemExit] from [sys.exit]. *)
Inductive raised :=
| Exc (e : exception)
| SystemExit (code : Z).

Inductive result (E A : Type) :=
| Ok (a : A)
| Err (e : E).
Arguments Ok {E A} a.
Arguments Err {E A} e.

(** [str(e)] *)
Definition exception_str (e : exception) : string :=
  match e with
  | FileNotFoundError m | OSError m | SubprocessError m
  | ParserRejectedMarkup m | AttributeError m => m
  end.

(** [subprocess.CompletedProcess] *)
Record completed := Completed {
  returncode : Z;
  stdout : string;
  stderr : string
}.

(** A directory as [os.walk] finds it: its files, each with the size that
    [os.path.getsize] gives ([None] when it raises [OSError]), and its
    sub-directories. *)
Inductive directory :=
| Directory (files : list (string * option N))
            (dirs : list (string * directory)).

(** The collaborators of the extractor: file system, sub-processes, the
    HTML library, the clock and the environment.  None of them raises
    [SystemExit]. *)
Record world := World {
  path_exists : string -> bool;
  read_text : string -> result exception string;
  write_text : string -> string -> result exception unit;
  subprocess_run : list string -> result exception completed;
  BeautifulSoup : string -> result exception node;
  relpath : string -> string -> string;
  mkdtemp : string -> string;
  listing : string -> directory;
  rmtree : string -> result exception unit;
  abspath : string -> string;
  basename : string -> string;
  utcnow : string;
  environ_user : string;
  elapsed : string
}.

Inductive category :=
| buttons | forms | headers | navbars | tables | cards | containers
| grids | inputs | footers | sections | links | other.

Definition category_name (c : category) : string :=
  match c with
  | buttons => "buttons" | forms => "forms" | headers => "headers"
  | navbars => "navbars" | tables => "tables" | cards => "cards"
  | containers => "containers" | grids => "grids" | inputs => "inputs"
  | footers => "footers" | sections => "sections" | links => "links"
  | other => "other"
  end.

Definition category_eqb (a b : category) : bool :=
  String.eqb (category_name a) (category_name b).

(** [self.stats] *)
Record statistics := Statistics {
  files_scanned : nat;
  php_files_found : nat;
  php_files_executed : nat;
  html_files_found : nat;
  elements_found : nat;
  unique_elements : nat;
  duplicate_elements : nat;
  execution_errors : nat
}.

Definition stats0 : statistics := Statistics 0 0 0 0 0 0 0 0.

(** [self.element_groups]: a dictionary whose keys keep insertion order. *)
Definition groups := list (category * list (node * string)).

(** The mutable part of [self], the lines printed so far, and the files
    written so far, each with its text. *)
Record state := State {
  element_hashes : gset string;
  element_groups : groups;
  stats : statistics;
  printed : list string;
  written : list (string * string)
}.

Definition state0 : state := State ∅ [] stats0 [] [].

(** The attributes of [self] that are fixed once [__init__] has returned. *)
Record extractor := Extractor {
  project_dir : string;
  output_file : string;
  execute_php : bool;
  php_path : string;
  max_threads : nat;
  verbose : bool;
  temp_dir : option string;
  current_date : string;
  current_user : string
}.

(** Field updates of [self.stats] and of the state. *)
Definition with_stats (f : statistics -> statistics) (st : state) : state :=
  State (element_hashes st) (element_groups st) (f (stats st)) (printed st)
        (written st).

Definition incr_files_scanned (s : statistics) : statistics :=
  Statistics (S (files_scanned s)) (php_files_found s) (php_files_executed s)
    (html_files_found s) (elements_found s) (unique_elements s)
    (duplicate_elements s) (execution_errors s).

Definition incr_php_files_found (s : statistics) : statistics :=
  Statistics (files_scanned s) (S (php_files_found s)) (php_files_executed s)
    (html_files_found s) (elements_found s) (unique_elements s)
    (duplicate_elements s) (execution_errors s).

Definition incr_html_files_found (s : statistics) : statistics :=
  Statistics (files_scanned s) (php_files_found s) (php_files_executed s)
    (S (html_files_found s)) (elements_found s) (unique_elements s)
    (duplicate_elements s) (execution_errors s).

Definition incr_php_files_executed (s : statistics) : statistics :=
  Statistics (files_scanned s) (php_files_found s) (S (php_files_executed s))
    (html_files_found s) (elements_found s) (unique_elements s)
    (duplicate_elements s) (execution_errors s).

Definition add_elements_found (k : nat) (s : statistics) : statistics :=
  Statistics (files_scanned s) (php_files_found s) (php_files_executed s)
    (html_files_found s) (elements_found s + k) (unique_elements s)
    (duplicate_elements s) (execution_errors s).

Definition incr_unique_elements (s : statistics) : statistics :=
  Statistics (files_scanned s) (php_files_found s) (php_files_executed s)
    (html_files_found s) (elements_found s) (S (unique_elements s))
    (duplicate_elements s) (execution_errors s).

Definition incr_duplicate_elements (s : statistics) : statistics :=
  Statistics (files_scanned s) (php_files_found s) (php_files_executed s)
    (html_files_found s) (elements_found s) (unique_elements s)
    (S (duplicate_elements s)) (execution_errors s).

Definition incr_execution_errors (s : statistics) : statistics :=
  Statistics (files_scanned s) (php_files_found s) (php_files_executed s)
    (html_files_found s) (elements_found s) (unique_elements s)
    (duplicate_elements s) (S (execution_errors s)).

Definition add_hash (h : string) (st : state) : state :=
  State ({[h]} ∪ element_hashes st) (element_groups st) (stats st) (printed st)
        (written st).

(** [self.element_groups[c].append(x)] on a [defaultdict(list)] *)
Fixpoint groups_append (c : category) (x : node * string) (g : groups) : groups :=
  match g with
  | [] => [(c, [x])]
  | (c', l) :: rest =>
      if category_eqb c c' then (c', l ++ [x]) :: rest
      else (c', l) :: groups_append c x rest
  end.

Definition append_group (c : category) (x : node * string) (st : state) : state :=
  State (element_hashes st) (groups_append c x (element_groups st))
        (stats st) (printed st) (written st).

(** ** The monad of the methods: state, and an exception that may escape.
    A raise keeps the state reached so far. *)

Definition M (A : Type) : Type := state -> result raised A * state.

Definition ret {A} (a : A) : M A := fun st => (Ok a, st).

Definition bind {A B} (m : M A) (k : A -> M B) : M B :=
  fun st =>
    match m st with
    | (Ok a, st') => k a st'
    | (Err e, st') => (Err e, st')
    end.

Definition raise {A} (e : raised) : M A := fun st => (Err e, st).

Definition modify (f : state -> state) : M unit := fun st => (Ok tt, f st).

Definition gets {A} (f : state -> A) : M A := fun st => (Ok (f st), st).

(** A call of a collaborator. *)
Definition call {A} (r : result exception A) : M A :=
  match r with
  | Ok a => ret a
  | Err e => raise (Exc e)
  end.

(** [try: body  except Exception as e: handler(e)] *)
Definition try_except {A} (body : M A) (handler : exception -> M A) : M A :=
  fun st =>
    match body st with
    | (Err (Exc e), st') => handler e st'
    | r => r
    end.

Declare Scope py_scope.
Delimit Scope py_scope with py.
Notation "x <- m ;; k" := (bind m (fun x => k))
  (at level 100, m at next level, right associativity) : py_scope.
Notation "m ;;; k" := (bind m (fun _ => k))
  (at level 100, right associativity) : py_scope.
Open Scope py_scope.

(** [print(line)] *)
Definition print (line : string) : M unit :=
  modify (fun st => State (element_hashes st) (element_groups st) (stats st)
                          (printed st ++ [line]) (written st)).

(** A write that the file system has accepted. *)
Definition record_write (path text : string) : M unit :=
  modify (fun st => State (element_hashes st) (element_groups st) (stats st)
                          (printed st) (written st ++ [(path, text)])).

(** [if self.verbose: print(line)] *)
Definition print_if (b : bool) (line : string) : M unit :=
  if b then print line else ret tt.

(** [for x in xs: body(x)] *)
Fixpoint for_each {A} (xs : list A) (body : A -> M unit) : M unit :=
  match xs with
  | [] => ret tt
  | x :: rest => body x ;;; for_each rest body
  end.

(** A loop that carries the local variables [acc] along. *)
Fixpoint fold_each {A B} (xs : list A) (acc : B) (body : B -> A -> M B) : M B :=
  match xs with
  | [] => ret acc
  | x :: rest => acc' <- body acc x ;; fold_each rest acc' body
  end.

(** ** Methods of [LocalTailwindExtractor] *)

(** *** The two compiled patterns of [__init__] *)

(** [self.php_html_pattern.sub('', content)] for the pattern
    [<\?php.*?\?>|<\?=.*?\?>] with [re.DOTALL]: a block is dropped from its
    opening marker to the first closing marker after it; an opening marker
    with no closing marker behind it is ordinary text. *)
Inductive sub_mode :=
| Copying
| Opening (left : nat)
| Closing.

Fixpoint php_html_sub_from (m : sub_mode) (s : string) : string :=
  match s with
  | EmptyString => EmptyString
  | String c t =>
      match m with
      | Copying =>
          if String.prefix "<?php" s && Py.str_in "?>" (Py.drop 5 s)
          then php_html_sub_from (Opening 4) t
          else if String.prefix "<?=" s && Py.str_in "?>" (Py.drop 3 s)
          then php_html_sub_from (Opening 2) t
          else String c (php_html_sub_from Copying t)
      | Opening (S k) => php_html_sub_from (Opening k) t
      | Opening O =>
          if String.prefix "?>" s then php_html_sub_from Closing t
          else php_html_sub_from (Opening O) t
      | Closing => php_html_sub_from Copying t
      end
  end.

Definition php_html_sub (content : string) : string :=
  php_html_sub_from Copying content.

(** [self.php_echo_pattern.findall(content)] for the pattern
    [echo\s+['"](.+?)['"];] with [re.DOTALL]. *)
Definition is_quote (c : ascii) : bool :=
  Ascii.eqb c "'" || Ascii.eqb c (ascii_of_nat 34).

(** The shortest non-empty text that is followed by a quote and a
    semicolon; [acc] is the text read so far, in reverse. *)
Fixpoint echo_group (acc : list ascii) (s : string) : option string :=
  match s with
  | String q (String semi rest as t) =>
      if negb (Nat.eqb (length acc) 0) && is_quote q && Ascii.eqb semi ";"
      then Some (String.string_of_list_ascii (rev acc))
      else echo_group (q :: acc) t
  | _ => None
  end.

(** A match of the pattern at the head of [s]: its group. *)
Definition echo_match (s : string) : option string :=
  if String.prefix "echo" s then
    let after := Py.drop 4 s in
    let arg := Py.lstrip after in
    if (String.length arg <? String.length after)%nat then
      match arg with
      | String q body => if is_quote q then echo_group [] body else None
      | EmptyString => None
      end
    else None
  else None.

(** The length of the match whose group is [g], given the text after
    [echo]: white space, a quote, the group, a quote and a semicolon. *)
Definition echo_match_length (s g : string) : nat :=
  let after := Py.drop 4 s in
  4 + (String.length after - String.length (Py.lstrip after)) + 1
  + String.length g + 2.

Fixpoint php_echo_findall_from (skip : nat) (s : string) : list string :=
  match s with
  | EmptyString => []
  | String _ t =>
      match skip with
      | S k => php_echo_findall_from k t
      | O =>
          match echo_match s with
          | Some g => g :: php_echo_findall_from (echo_match_length s g - 1) t
          | None => php_echo_findall_from O t
          end
      end
  end.

Definition php_echo_findall (content : string) : list string :=
  php_echo_findall_from 0 content.

(** *** [extract_html_from_php_static] *)
(** What the [try] block makes of the text of the file. *)
Definition combined_html (content : string) : string :=
  let content_without_php := php_html_sub content in
  let echo_html := Py.join " " (php_echo_findall content) in
  content_without_php +:+ " " +:+ echo_html.

Definition extract_html_from_php_static (w : world) (self : extractor)
    (php_file : string) : M string :=
  try_except
    (content <- call (read_text w php_file) ;;
     ret (combined_html content))
    (fun e =>
       print_if (verbose self)
         ("Error analyzing " +:+ php_file +:+ ": " +:+ exception_str e) ;;;
       ret "").

(** *** [execute_php_file] *)
Definition execute_php_file (w : world) (self : extractor)
    (php_file : string) : M string :=
  if negb (execute_php self) then ret ""
  else
    try_except
      (if negb (path_exists w php_file) then
         modify (with_stats incr_execution_errors) ;;;
         print ("Error: PHP file not found: " +:+ php_file) ;;;
         ret ""
       else
         result <- call (subprocess_run w [php_path self; php_file]) ;;
         if (returncode result =? 0)%Z then
           modify (with_stats incr_php_files_executed) ;;;
           ret (stdout result)
         else
           modify (with_stats incr_execution_errors) ;;;
           print_if (verbose self)
             ("Error executing " +:+ php_file +:+ ": " +:+ stderr result) ;;;
           ret "")
      (fun e =>
         modify (with_stats incr_execution_errors) ;;;
         print_if (verbose self)
           ("Failed to execute " +:+ php_file +:+ ": " +:+ exception_str e) ;;;
         ret "").

(** *** [hash_element] *)
Definition structural_tags : list string :=
  [ "div"; "section"; "form"; "nav"; "header"; "footer"; "table" ].

(** [[child.name for child in element.find_all(recursive=False) if child.name]] *)
Definition child_tag_names (element : node) : list string :=
  filter (fun name => Py.truthy name) (omap name_of (find_all_children element)).

(** The string that is hashed. *)
Definition structure_of (element_type : string)
    (attrs : list (string * attr_value)) (element : node) : string :=
  let class_str :=
    match get "class" attrs with
    | None => Py.join " " (Py.sorted [])
    | Some (AttrList classes) => Py.join " " (Py.sorted classes)
    | Some (AttrStr classes) => classes
    end in
  let structure := element_type +:+ ":" +:+ class_str in
  if Py.in_list element_type structural_tags then
    let children := child_tag_names element in
    structure +:+ ":" +:+ Py.join "," (Py.sorted children)
  else structure.

Definition hash_element (element : node) : option string :=
  match element with
  | Tag element_type attrs _ =>
      if negb (Py.truthy element_type) then None
      else Some (MD5.hexdigest (structure_of element_type attrs element))
  | _ => None
  end.

(** *** [clean_element]

    The copy is parsed anew from the serialised element; the four loops
    then edit the copy.  Each loop walks the list that [find_all] returned
    before the first edit, so it is a pass over the tree of the copy. *)

(** [for comment in copy.find_all(text=is_comment): comment.extract()] *)
Fixpoint remove_comments (n : node) : node :=
  match n with
  | Tag name attrs cs =>
      Tag name attrs
        ((fix go (l : list node) : list node :=
            match l with
            | [] => []
            | c :: rest =>
                if is_comment c then go rest else remove_comments c :: go rest
            end) cs)
  | _ => n
  end.

(** [for tag in copy.find_all(['script','style']): if tag.string: tag.string = ""]
    An outer tag is visited before the tags inside it. *)
Fixpoint clear_scripts (n : node) : node :=
  match n with
  | Tag name attrs cs =>
      if Py.in_list name cdata_tags &&
         match string_of n with Some s => Py.truthy s | None => false end
      then Tag name attrs [NavigableString ""]
      else Tag name attrs (map clear_scripts cs)
  | _ => n
  end.

Definition attrs_to_keep : list string :=
  [ "class"; "id"; "type"; "placeholder"; "href"; "src"; "alt" ].

(** [for tag in copy.find_all(True): del tag[attr] for every other attr] *)
Fixpoint keep_attrs (n : node) : node :=
  match n with
  | Tag name attrs cs =>
      Tag name (filter (fun kv => Py.in_list kv.1 attrs_to_keep) attrs)
          (map keep_attrs cs)
  | _ => n
  end.

(** The test and the replacement of the last loop, on one text node whose
    parent is named [parent]. *)
Definition is_long_text (parent s : string) : bool :=
  negb (Py.in_list parent cdata_tags) &&
  (100 <? String.length (Py.strip s))%nat.

Definition shortened (s : string) : string := Py.take 100 s +:+ "...".

(** [for tag in copy.find_all(text=True): ... tag.replace_with(...)] *)
Fixpoint shorten_texts (parent : string) (n : node) : node :=
  match n with
  | Tag name attrs cs => Tag name attrs (map (shorten_texts name) cs)
  | NavigableString s =>
      if is_long_text parent s then NavigableString (shortened s) else n
  | Comment s =>
      if is_long_text parent s then NavigableString (shortened s) else n
  end.

(** The loops over [find_all] start below the root of the copy. *)
Definition below_root (f : node -> node) (root : node) : node :=
  match root with
  | Tag name attrs cs => Tag name attrs (map f cs)
  | _ => root
  end.

Definition clean_copy (element_copy : node) : node :=
  shorten_texts ""
    (below_root keep_attrs
       (below_root clear_scripts (remove_comments element_copy))).

Definition clean_element (w : world) (element : node) : result exception node :=
  match BeautifulSoup w (node_str element) with
  | Ok element_copy => Ok (clean_copy element_copy)
  | Err e => Err e
  end.

(** *** [classify_element] *)

(** [' '.join(classes).lower() if classes else ""] *)
Definition class_text_of (attrs : list (string * attr_value)) : string :=
  let classes :=
    match get "class" attrs with
    | None => []
    | Some (AttrList l) => l
    | Some (AttrStr s) => Py.split s
    end in
  match classes with
  | [] => ""
  | _ => Py.lower (Py.join " " classes)
  end.

(** Truthiness of [element.find(names)] *)
Definition finds (names : list string) (element : node) : bool :=
  match find names element with Some _ => true | None => false end.

Definition classify_element (element : node) : result exception category :=
  match element with
  | Tag element_type attrs _ =>
      let class_text := class_text_of attrs in
      Ok
        (if String.eqb element_type "button" || Py.str_in "btn" class_text
            || Py.str_in "button" class_text then buttons
         else if String.eqb element_type "form" || finds ["form"] element
         then forms
         else if String.eqb element_type "header"
                 || Py.str_in "header" class_text || finds ["h1"] element
         then headers
         else if String.eqb element_type "nav" || Py.str_in "nav" class_text
                 || Py.str_in "navbar" class_text
                 || Py.str_in "menu" class_text then navbars
         else if String.eqb element_type "table" || finds ["table"] element
         then tables
         else if Py.str_in "card" class_text
                 || (String.eqb element_type "div" && finds ["img"] element
                     && (1 <? length (find_all ["div"] element))%nat)
         then cards
         else if Py.str_in "container" class_text
                 || Py.str_in "wrapper" class_text then containers
         else if Py.str_in "grid" class_text || Py.str_in "row" class_text
                 || Py.str_in "flex" class_text then grids
         else if Py.in_list element_type ["input"; "select"; "textarea"]
                 || finds ["input"; "select"; "textarea"] element then inputs
         else if String.eqb element_type "footer"
                 || Py.str_in "footer" class_text then footers
         else if String.eqb element_type "section"
                 || Py.str_in "section" class_text then sections
         else if String.eqb element_type "a" || finds ["a"] element then links
         else other)
  | _ => Err (AttributeError "object has no attribute 'get'")
  end.

(** *** [extract_elements_from_html] *)

(** [' '.join(classes)] when the class value is a list, [str(classes)]
    otherwise; the default of [tag.get('class', [])] is the empty list. *)
Definition class_str_of (tag : node) : string :=
  match tag with
  | Tag _ attrs _ =>
      match get "class" attrs with
      | None => Py.join " " []
      | Some (AttrList classes) => Py.join " " classes
      | Some (AttrStr classes) => classes
      end
  | _ => ""
  end.

Definition tailwind_markers : list string :=
  [ "bg-"; "text-"; "p-"; "m-"; "flex"; "grid"; "rounded"; "shadow";
    "border"; "hover:"; "focus:" ].

Definition starts_with_marker (s : string) : bool :=
  existsb (fun p => String.prefix p s) tailwind_markers.

Fixpoint marker_after_space (s : string) : bool :=
  match s with
  | EmptyString => false
  | String c t => (Py.is_space c && starts_with_marker t) || marker_after_space t
  end.

(** [re.search(r'(^|\s)(bg-|text-|...|focus:)', class_str)] *)
Definition tailwind_search (class_str : string) : bool :=
  starts_with_marker class_str || marker_after_space class_str.

(** [soup.find_all(True, class_=True)]: the tags that carry a class. *)
Definition has_class (n : node) : bool :=
  match n with
  | Tag _ attrs _ => match get "class" attrs with Some _ => true | None => false end
  | _ => false
  end.

Definition find_all_with_class (soup : node) : list node :=
  filter (fun d => has_class d) (find_all_tags soup).

(** The two accumulators of the selection: [significant_elements] and
    [total_found]. *)
Definition selection : Type := list node * nat.

Definition first_pass_step (acc : selection) (tag : node) : selection :=
  if tailwind_search (class_str_of tag) then (acc.1 ++ [tag], S acc.2) else acc.

Definition component_types : list string :=
  [ "button"; "card"; "nav"; "header"; "footer"; "form" ].

Definition second_pass_step (component_type : string) (acc : selection)
    (tag : node) : selection :=
  if node_in tag acc.1 then acc
  else if Py.str_in component_type (Py.lower (class_str_of tag))
  then (acc.1 ++ [tag], S acc.2)
  else acc.

Definition first_pass (soup : node) : selection :=
  foldl first_pass_step ([], 0) (find_all_with_class soup).

Definition second_pass (soup : node) (acc : selection) : selection :=
  foldl (fun acc component_type =>
           foldl (second_pass_step component_type) acc
                 (find_all [component_type; "div"; "section"] soup))
        acc component_types.

Definition select_elements (soup : node) : selection :=
  second_pass soup (first_pass soup).

(** The body of the loop over [significant_elements]; the part under
    [self.hash_lock] is one step. *)
Definition process_element (w : world) (element : node) (source_file : string)
  : M unit :=
  match hash_element element with
  | None => ret tt
  | Some element_hash =>
      if negb (Py.truthy element_hash) then ret tt
      else
        seen <- gets (fun st => bool_decide (element_hash ∈ element_hashes st)) ;;
        if negb seen then
          modify (add_hash element_hash) ;;;
          cleaned_element <- call (clean_element w element) ;;
          category <- call (classify_element element) ;;
          modify (append_group category (cleaned_element, source_file)) ;;;
          modify (with_stats incr_unique_elements)
        else modify (with_stats incr_duplicate_elements)
  end.

(** The body of the [try] block of [extract_elements_from_html]. *)
Definition scan_document (w : world) (html_content source_file : string)
  : M nat :=
  soup <- call (BeautifulSoup w html_content) ;;
  let '(significant_elements, total_found) := select_elements soup in
  for_each significant_elements
    (fun element => process_element w element source_file) ;;;
  modify (with_stats (add_elements_found total_found)) ;;;
  ret total_found.

Definition extract_elements_from_html (w : world) (self : extractor)
    (html_content source_file : string) : M nat :=
  if negb (Py.truthy html_content) || String.eqb (Py.strip html_content) ""
  then ret 0
  else
    try_except
      (scan_document w html_content source_file)
      (fun e =>
         print_if (verbose self)
           ("Error extracting elements from " +:+ source_file +:+ ": "
            +:+ exception_str e) ;;;
         ret 0).

(** *** [process_file] *)
Definition report_found (w : world) (self : extractor) (count : nat)
    (how file_path : string) : M unit :=
  if (0 <? count)%nat then
    print_if (verbose self)
      ("Found " +:+ pretty count +:+ " elements " +:+ how +:+
       relpath w file_path (project_dir self))
  else ret tt.

Definition process_file (w : world) (self : extractor) (file_path : string)
  : M unit :=
  try_except
    (if Py.endswith file_path ".php" then
       html_from_static <- extract_html_from_php_static w self file_path ;;
       elements_from_static <-
         extract_elements_from_html w self html_from_static file_path ;;
       (if execute_php self then
          html_from_execution <- execute_php_file w self file_path ;;
          elements_from_execution <-
            extract_elements_from_html w self html_from_execution file_path ;;
          report_found w self elements_from_execution "from executing " file_path
        else ret tt) ;;;
       report_found w self elements_from_static "from analyzing " file_path
     else
       try_except
         (html_content <- call (read_text w file_path) ;;
          elements_found <-
            extract_elements_from_html w self html_content file_path ;;
          report_found w self elements_found "from " file_path)
         (fun e =>
            print_if (verbose self)
              ("Error processing " +:+ file_path +:+ ": " +:+ exception_str e)))
    (fun e =>
       print_if (verbose self)
         ("Error processing file " +:+ file_path +:+ ": " +:+ exception_str e)).

(** *** [__init__]

    [project_dir] is taken as already absolute.  The probe of the PHP
    executable is guarded by
    [except (subprocess.SubprocessError, FileNotFoundError)]. *)
Definition probe_is_caught (e : exception) : bool :=
  match e with
  | SubprocessError _ | FileNotFoundError _ => true
  | _ => false
  end.

Definition __init__ (w : world) (project_dir output_file : string)
    (execute_php : bool) (php_path : string) (max_threads : nat)
    (verbose : bool) : M extractor :=
  if negb (path_exists w project_dir) then
    print ("Error: Project directory " +:+ project_dir +:+ " does not exist!") ;;;
    raise (SystemExit 1)
  else
    modify (fun st => State ∅ [] stats0 (printed st) (written st)) ;;;
    let temp_dir :=
      if execute_php then Some (mkdtemp w "tailwind_extract_") else None in
    let self (enabled : bool) :=
      Extractor project_dir output_file enabled php_path max_threads verbose
                temp_dir (utcnow w) (environ_user w) in
    if execute_php then
      match subprocess_run w [php_path; "--version"] with
      | Ok _ => ret (self true)
      | Err e =>
          if probe_is_caught e then
            print ("Warning: PHP executable not found at '" +:+ php_path +:+
                   "'. PHP execution will be disabled.") ;;;
            ret (self false)
          else raise (Exc e)
      end
    else ret (self false).

(** *** [cleanup] *)
Definition cleanup (w : world) (self : extractor) : M unit :=
  match temp_dir self with
  | Some d =>
      if Py.truthy d && path_exists w d then
        try_except
          (call (rmtree w d) ;;;
           print_if (verbose self) ("Cleaned up temporary directory: " +:+ d))
          (fun e =>
             print ("Warning: Failed to clean up temporary directory: "
                    +:+ exception_str e))
      else ret tt
  | None => ret tt
  end.

(** *** [find_php_files] *)
Definition skip_folders : list string :=
  [ "node_modules"; "vendor"; "uploads"; "cache"; ".git"; "log"; "logs" ].

(** [os.path.join(root, name)] *)
Definition path_join (root name : string) : string :=
  if Py.endswith root "/" then root +:+ name else root +:+ "/" +:+ name.

(** [os.walk(root)], from the top down, with the pruning
    [dirs[:] = [d for d in dirs if ...]] of the loop body: the pairs of a
    directory path and its files. *)
Fixpoint walk (root : string) (d : directory)
  : list (string * list (string * option N)) :=
  match d with
  | Directory files dirs =>
      (root, files) ::
      (fix go (l : list (string * directory)) :=
         match l with
         | [] => []
         | (name, sub) :: rest =>
             (if negb (Py.in_list name skip_folders)
                 && negb (Py.startswith name ".")
              then walk (path_join root name) sub else []) ++ go rest
         end) dirs
  end.

Definition size_limit : N := 5 * 1024 * 1024.

(** The body of the loop over the files of one directory; [found] holds
    [php_files] and [html_files]. *)
Definition visit_file (root : string) (found : list string * list string)
    (file : string * option N) : M (list string * list string) :=
  let file_path := path_join root file.1 in
  match file.2 with
  | None => ret found
  | Some size =>
      if (size_limit <? size)%N || Py.startswith file.1 "." then ret found
      else
        found' <-
          (if Py.endswith file.1 ".php" then
             modify (with_stats incr_php_files_found) ;;;
             ret (found.1 ++ [file_path], found.2)
           else if Py.endswith file.1 ".html" || Py.endswith file.1 ".htm"
                   || Py.endswith file.1 ".tpl" then
             modify (with_stats incr_html_files_found) ;;;
             ret (found.1, found.2 ++ [file_path])
           else ret found) ;;
        modify (with_stats incr_files_scanned) ;;;
        ret found'
  end.

Definition find_php_files (w : world) (self : extractor)
  : M (list string * list string) :=
  print_if (verbose self) ("Scanning directory: " +:+ project_dir self) ;;;
  found <-
    fold_each (walk (project_dir self) (listing w (project_dir self))) ([], [])
      (fun found entry => fold_each entry.2 found (visit_file entry.1)) ;;
  print_if (verbose self)
    ("Found " +:+ pretty (length found.1) +:+ " PHP files and " +:+
     pretty (length found.2) +:+ " HTML files") ;;;
  ret found.

(** *** [save_unique_elements]: the text of the report, then the write *)
Definition nl : string := String (ascii_of_nat 10) EmptyString.

Definition rule (c : string) : string := String.concat "" (replicate 60 c).

Definition lines (ls : list string) : string :=
  String.concat "" (map (fun l => l +:+ nl) ls).

(** [category.replace('_', ' ').title()] *)
Definition display_name (c : category) : string :=
  Py.title (replace_char "_" " " (category_name c)).

Definition element_block (w : world) (self : extractor) (i : nat)
    (entry : node * string) : string :=
  lines [ "Element #" +:+ pretty (S i) +:+ " from " +:+
            relpath w entry.2 (project_dir self);
          "```html"; node_str entry.1; "```"; "" ].

Definition category_block (w : world) (self : extractor)
    (group : category * list (node * string)) : string :=
  match group.2 with
  | [] => ""
  | elements =>
      lines [ "";
              Py.upper (display_name group.1) +:+ " (" +:+
                pretty (length elements) +:+ " elements)";
              rule "-"; "" ]
      +:+ String.concat "" (imap (element_block w self) elements)
  end.

Definition report (w : world) (self : extractor) (st : state) : string :=
  let s := stats st in
  lines [ "TAILWIND COMPONENTS FROM " +:+ basename w (project_dir self);
          rule "="; "";
          "Extraction Date: " +:+ current_date self;
          "Generated by: " +:+ current_user self; "";
          "Files scanned: " +:+ pretty (files_scanned s);
          "PHP files found: " +:+ pretty (php_files_found s);
          "PHP files executed: " +:+ pretty (php_files_executed s);
          "HTML files found: " +:+ pretty (html_files_found s);
          "Total elements found: " +:+ pretty (elements_found s);
          "Unique elements: " +:+ pretty (unique_elements s);
          "Duplicate elements: " +:+ pretty (duplicate_elements s); "" ]
  +:+ (if (0 <? execution_errors s)%nat then
         lines [ "Note: " +:+ pretty (execution_errors s) +:+
                 " PHP execution errors occurred during processing."; "" ]
       else "")
  +:+ String.concat "" (map (category_block w self) (element_groups st)).

Definition save_unique_elements (w : world) (self : extractor) : M bool :=
  try_except
    (text <- gets (report w self) ;;
     call (write_text w (output_file self) text) ;;;
     record_write (output_file self) text ;;;
     ret true)
    (fun e =>
       print ("Error saving output file: " +:+ exception_str e) ;;;
       ret false).

(** *** [extract]

    The units of work are run one after the other, in the order in which
    they are submitted to the pool. *)
Definition try_finally {A} (body : M A) (final : M unit) : M A :=
  fun st =>
    match body st with
    | (r, st') =>
        match final st' with
        | (Ok _, st'') => (r, st'')
        | (Err e, st'') => (Err e, st'')
        end
    end.

(** The lines printed before the files are looked for. *)
Definition announce (self : extractor) : M unit :=
  print ("Starting Tailwind component extraction from: " +:+ project_dir self) ;;;
  print ("Output will be saved to: " +:+ output_file self) ;;;
  print ("PHP execution is " +:+
         (if execute_php self then "enabled" else "disabled")).

(** The lines printed after the report is saved. *)
Definition summary (w : world) (self : extractor) : M unit :=
  s <- gets stats ;;
  print (nl +:+ "Extraction complete!") ;;;
  print ("Processed " +:+ pretty (files_scanned s) +:+ " files in " +:+
         elapsed w +:+ " seconds") ;;;
  print ("Found " +:+ pretty (elements_found s) +:+ " total elements") ;;;
  print ("Saved " +:+ pretty (unique_elements s) +:+
         " unique elements, ignored " +:+ pretty (duplicate_elements s) +:+
         " duplicates") ;;;
  (if (0 <? execution_errors s)%nat
   then print ("Note: " +:+ pretty (execution_errors s) +:+
               " PHP execution errors occurred.")
   else ret tt) ;;;
  print (nl +:+ "Elements by category:") ;;;
  g <- gets element_groups ;;
  for_each g
    (fun entry =>
       match entry.2 with
       | [] => ret tt
       | elements =>
           print ("  - " +:+ display_name entry.1 +:+ ": " +:+
                  pretty (length elements))
       end) ;;;
  print (nl +:+ "Components saved to: " +:+ abspath w (output_file self)).

Definition extract (w : world) (self : extractor) : M unit :=
  try_finally
    (announce self ;;;
     found <- find_php_files w self ;;
     for_each (found.1 ++ found.2) (process_file w self) ;;;
     saved <- save_unique_elements w self ;;
     (if saved
      then print ("Successfully saved extracted components to " +:+
                  abspath w (output_file self))
      else ret tt) ;;;
     summary w self)
    (cleanup w self).

(** *** The [__main__] block *)

(** The [__main__] block, after [argparse] has read the command line into
    [args].  [__init__] makes the project directory absolute before
    anything else; its embedding receives the absolute path. *)
Module Main.

Record args := Args {
  project_dir : string;
  output : string;
  execute_php : bool;
  php_path : string;
  threads : nat;
  quiet : bool
}.

Definition main (w : world) (a : args) : M unit :=
  extractor <- __init__ w (abspath w (project_dir a)) (output a)
                 (execute_php a) (php_path a) (threads a) (negb (quiet a)) ;;
  extract w extractor.

End Main.

(** ** The tree builder [BeautifulSoup(markup, 'html.parser')]

    A model of the HTML library on plain markup: text, start tags with
    quoted, bare or absent attribute values, end tags, comments, void
    elements, raw text below [script] and [style], and the entities of the
    minimal formatter.  Declarations, processing instructions and other
    character references are outside this model.  It is used to run the
    extractor on concrete files; the general theorems are stated for every
    [world] and do not depend on it. *)

Module HtmlParser.

Inductive token :=
| TStart (name : string) (attrs : list (string * string)) (closed : bool)
| TEnd (name : string)
| TText (s : string)
| TComment (s : string).

Definition is_letter (c : ascii) : bool :=
  let n := nat_of_ascii c in
  (((65 <=? n) && (n <=? 90)) || ((97 <=? n) && (n <=? 122)))%nat.

(** The longest prefix whose characters satisfy [p], and the rest. *)
Fixpoint span (p : ascii -> bool) (s : string) : string * string :=
  match s with
  | String c t =>
      if p c then let '(a, b) := span p t in (String c a, b)
      else (EmptyString, s)
  | EmptyString => (EmptyString, EmptyString)
  end.

(** The text before the first [sep] and the text after it. *)
Fixpoint cut (sep : string) (s : string) {struct s} : option (string * string) :=
  if String.prefix sep s then Some (EmptyString, Py.drop (String.length sep) s)
  else match s with
       | EmptyString => None
       | String c t =>
           match cut sep t with
           | Some (a, b) => Some (String c a, b)
           | None => None
           end
       end.

(** The four entities the serialiser writes. *)
Fixpoint unescape_from (skip : nat) (s : string) : string :=
  match s with
  | EmptyString => EmptyString
  | String c t =>
      match skip with
      | S k => unescape_from k t
      | O =>
          if String.prefix "&amp;" s then String "&" (unescape_from 4 t)
          else if String.prefix "&lt;" s then String "<" (unescape_from 3 t)
          else if String.prefix "&gt;" s then String ">" (unescape_from 3 t)
          else if String.prefix "&quot;" s
          then String (ascii_of_nat 34) (unescape_from 5 t)
          else String c (unescape_from O t)
      end
  end.

Definition unescape (s : string) : string := unescape_from 0 s.

Definition name_char (c : ascii) : bool :=
  negb (Py.is_space c || Ascii.eqb c "/" || Ascii.eqb c ">").

Definition attr_name_char (c : ascii) : bool :=
  name_char c && negb (Ascii.eqb c "=").

Definition bare_value_char (c : ascii) : bool :=
  negb (Py.is_space c || Ascii.eqb c ">").

(** The attributes of a start tag, whether it ends in [/>], and the text
    behind the tag. *)
Fixpoint parse_attrs (fuel : nat) (acc : list (string * string)) (s : string)
  : option (list (string * string) * bool * string) :=
  match fuel with
  | O => None
  | S fuel' =>
      let s := Py.lstrip s in
      match s with
      | EmptyString => None
      | String c t =>
          if Ascii.eqb c ">" then Some (rev acc, false, t)
          else if String.prefix "/>" s then Some (rev acc, true, Py.drop 1 t)
          else if Ascii.eqb c "/" then parse_attrs fuel' acc t
          else
            let '(name_rest, after_name) := span attr_name_char t in
            let name := Py.lower (String c name_rest) in
            let after_ws := Py.lstrip after_name in
            match after_ws with
            | String "=" _ =>
                let after_eq :=
                  Py.lstrip (span (fun c => Ascii.eqb c "=") after_ws).2 in
                match after_eq with
                | String q body =>
                    if Ascii.eqb q "'" || Ascii.eqb q (ascii_of_nat 34) then
                      match cut (String q EmptyString) body with
                      | Some (v, rest) =>
                          parse_attrs fuel' ((name, unescape v) :: acc) rest
                      | None => None
                      end
                    else
                      let '(v, rest) := span bare_value_char after_eq in
                      parse_attrs fuel' ((name, unescape v) :: acc) rest
                | EmptyString => None
                end
            | _ => parse_attrs fuel' ((name, EmptyString) :: acc) after_name
            end
      end
  end.

(** Raw text up to the end tag of [name] (compared in lower case). *)
Definition raw_text (name s : string) : string * string :=
  match cut ("</" +:+ name) (Py.lower s) with
  | Some (before, _) =>
      (Py.take (String.length before) s, Py.drop (String.length before) s)
  | None => (s, EmptyString)
  end.

Fixpoint tokenize (fuel : nat) (s : string) : list token :=
  match fuel with
  | O => []
  | S fuel' =>
      match s with
      | EmptyString => []
      | String "<" rest =>
          if String.prefix "!--" rest then
            match cut "-->" (Py.drop 3 rest) with
            | Some (body, after) => TComment body :: tokenize fuel' after
            | None => [TComment (Py.drop 3 rest)]
            end
          else
            match rest with
            | String "/" (String c _ as tail) =>
                if is_letter c then
                  match cut ">" tail with
                  | Some (name, after) =>
                      TEnd (Py.lower (Py.strip name)) :: tokenize fuel' after
                  | None => []
                  end
                else TText "<" :: tokenize fuel' rest
            | String c _ =>
                if is_letter c then
                  let '(name, after_name) := span name_char rest in
                  let name := Py.lower name in
                  match parse_attrs (S (String.length after_name)) [] after_name with
                  | Some (attrs, closed, after) =>
                      if Py.in_list name cdata_tags && negb closed then
                        let '(raw, after_raw) := raw_text name after in
                        TStart name attrs closed ::
                        (if Py.truthy raw then [TText raw] else []) ++
                        tokenize fuel' after_raw
                      else TStart name attrs closed :: tokenize fuel' after
                  | None => TText "<" :: tokenize fuel' rest
                  end
                else TText "<" :: tokenize fuel' rest
            | EmptyString => [TText "<"]
            end
      | _ =>
          let '(text, rest) := span (fun c => negb (Ascii.eqb c "<")) s in
          TText (unescape text) :: tokenize fuel' rest
      end
  end.

(** Attributes whose value is a list of tokens. *)
Definition multi_valued (tag key : string) : bool :=
  Py.in_list key ["class"; "accesskey"; "dropzone"] ||
  (Py.in_list tag ["a"; "link"] && Py.in_list key ["rel"; "rev"]) ||
  (Py.in_list tag ["td"; "th"] && String.eqb key "headers") ||
  (String.eqb tag "form" && String.eqb key "accept-charset") ||
  (String.eqb tag "object" && String.eqb key "archive") ||
  (String.eqb tag "area" && String.eqb key "rel") ||
  (String.eqb tag "icon" && String.eqb key "sizes") ||
  (String.eqb tag "iframe" && String.eqb key "sandbox") ||
  (String.eqb tag "output" && String.eqb key "for").

(** [attr_dict[key] = value]: a repeated key keeps its place and takes the
    later value. *)
Fixpoint dict_set (key : string) (v : attr_value)
    (d : list (string * attr_value)) : list (string * attr_value) :=
  match d with
  | [] => [(key, v)]
  | (k, old) :: rest =>
      if String.eqb k key then (k, v) :: rest else (k, old) :: dict_set key v rest
  end.

Definition attr_dict (tag : string) (attrs : list (string * string))
  : list (string * attr_value) :=
  foldl (fun d kv =>
           dict_set kv.1
             (if multi_valued tag kv.1 then AttrList (Py.split kv.2)
              else AttrStr kv.2) d)
        [] attrs.

(** An open tag: its name, attributes and the children read so far, last
    first. *)
Record frame := Frame {
  fname : string;
  fattrs : list (string * attr_value);
  fkids : list node
}.

Definition add_pending (pending : option node) (f : frame) : frame :=
  match pending with
  | Some n => Frame (fname f) (fattrs f) (n :: fkids f)
  | None => f
  end.

Definition close_frame (f : frame) : node :=
  Tag (fname f) (fattrs f) (rev (fkids f)).

Definition add_child (n : node) (stack : list frame) : list frame :=
  match stack with
  | f :: rest => add_pending (Some n) f :: rest
  | [] => []
  end.

(** Is [name] open above the root? *)
Fixpoint is_open (name : string) (stack : list frame) : bool :=
  match stack with
  | f :: (_ :: _) as rest => String.eqb (fname f) name || is_open name rest
  | _ => false
  end.

(** Close the open tags down to the most recent one called [name]. *)
Fixpoint pop_to (name : string) (pending : option node) (stack : list frame)
  : list frame :=
  match stack with
  | [] => []
  | f :: rest =>
      let f' := add_pending pending f in
      if String.eqb (fname f') name then add_child (close_frame f') rest
      else pop_to name (Some (close_frame f')) rest
  end.

Fixpoint close_all (pending : option node) (stack : list frame) : option node :=
  match stack with
  | [] => pending
  | f :: rest => close_all (Some (close_frame (add_pending pending f))) rest
  end.

Definition ascii_space (c : ascii) : bool :=
  Py.in_list (String c EmptyString)
    [ " "; String (ascii_of_nat 10) ""; String (ascii_of_nat 9) "";
      String (ascii_of_nat 12) ""; String (ascii_of_nat 13) "" ].

Fixpoint all_chars (p : ascii -> bool) (s : string) : bool :=
  match s with
  | EmptyString => true
  | String c t => p c && all_chars p t
  end.

(** Text made of blanks only shrinks to one blank or one line feed, except
    below [pre] and [textarea]. *)
Definition end_data (stack : list frame) (s : string) : string :=
  if all_chars ascii_space s &&
     negb (existsb (fun f => Py.in_list (fname f) ["pre"; "textarea"]) stack)
  then if Py.str_in (String (ascii_of_nat 10) "") s
       then String (ascii_of_nat 10) "" else " "
  else s.

Definition feed (stack : list frame) (t : token) : list frame :=
  match t with
  | TText s => add_child (NavigableString (end_data stack s)) stack
  | TComment s => add_child (Comment s) stack
  | TStart name attrs closed =>
      let d := attr_dict name attrs in
      if closed || Py.in_list name void_tags
      then add_child (Tag name d []) stack
      else Frame name d [] :: stack
  | TEnd name =>
      if is_open name stack then pop_to name None stack else stack
  end.

Definition html_parser (markup : string) : node :=
  let tokens := tokenize (S (String.length markup)) markup in
  match close_all None (foldl feed [Frame document_name [] []] tokens) with
  | Some root => root
  | None => BeautifulSoupObject []
  end.

End HtmlParser.

(** ** The tree as objects in memory

    [clean_element] edits a tree in place.  To see what it can reach, the
    nodes are laid out here as objects at addresses, each with a pointer to
    its parent and, for a tag, the addresses of its contents.  The loops of
    [clean_element] are written as the mutations they are. *)

Module Dom.

Inductive payload :=
| PTag (name : string) (attrs : list (string * attr_value)) (contents : list nat)
| PString (s : string)
| PComment (s : string).

Record object := Object {
  payload_of : payload;
  parent : option nat
}.

(** Use [gmap nat object] for the memory. *)
Abbreviation memory := (gmap nat object).

Definition contents_at (m : memory) (a : nat) : list nat :=
  match m !! a with
  | Some (Object (PTag _ _ cs) _) => cs
  | _ => []
  end.

Definition name_at (m : memory) (a : nat) : option string :=
  match m !! a with
  | Some (Object (PTag name _ _) _) => Some name
  | _ => None
  end.

(** The text of a string or of a comment. *)
Definition text_at (m : memory) (a : nat) : option string :=
  match m !! a with
  | Some (Object (PString s) _) | Some (Object (PComment s) _) => Some s
  | _ => None
  end.

Definition is_comment_at (m : memory) (a : nat) : bool :=
  match m !! a with
  | Some (Object (PComment _) _) => true
  | _ => false
  end.

Definition is_tag_at (m : memory) (a : nat) : bool :=
  match name_at m a with Some _ => true | None => false end.

Definition is_text_at (m : memory) (a : nat) : bool :=
  match text_at m a with Some _ => true | None => false end.

Definition is_cdata_tag_at (m : memory) (a : nat) : bool :=
  match name_at m a with
  | Some name => Py.in_list name cdata_tags
  | None => false
  end.

Definition parent_at (m : memory) (a : nat) : option nat :=
  match m !! a with
  | Some o => parent o
  | None => None
  end.

(** [tag.descendants], in document order; [fuel] bounds the depth. *)
Fixpoint descendants_at (fuel : nat) (m : memory) (a : nat) : list nat :=
  match fuel with
  | O => []
  | S fuel' =>
      concat (map (fun c => c :: descendants_at fuel' m c) (contents_at m a))
  end.

Definition descendants (m : memory) (a : nat) : list nat :=
  descendants_at (size m) m a.

(** The tree that hangs at an address. *)
Fixpoint load_at (fuel : nat) (m : memory) (a : nat) : option node :=
  match fuel with
  | O => None
  | S fuel' =>
      match m !! a with
      | Some (Object (PTag name attrs cs) _) =>
          match mapM (load_at fuel' m) cs with
          | Some contents => Some (Tag name attrs contents)
          | None => None
          end
      | Some (Object (PString s) _) => Some (NavigableString s)
      | Some (Object (PComment s) _) => Some (Comment s)
      | None => None
      end
  end.

Definition load (m : memory) (a : nat) : option node :=
  load_at (S (size m)) m a.

(** [tag.string] *)
Fixpoint string_at (fuel : nat) (m : memory) (a : nat) : option string :=
  match fuel with
  | O => None
  | S fuel' =>
      match contents_at m a with
      | [c] =>
          match m !! c with
          | Some (Object (PTag _ _ _) _) => string_at fuel' m c
          | Some (Object (PString s) _) | Some (Object (PComment s) _) => Some s
          | None => None
          end
      | _ => None
      end
  end.

(** What the parser does with its result: new objects for every node. *)
Fixpoint store_tree (up : option nat) (t : node) (m : memory) : nat * memory :=
  let a := fresh (dom m) in
  match t with
  | NavigableString s => (a, <[a := Object (PString s) up]> m)
  | Comment s => (a, <[a := Object (PComment s) up]> m)
  | Tag name attrs cs =>
      let '(kids, m') :=
        (fix go (l : list node) (m : memory) : list nat * memory :=
           match l with
           | [] => ([], m)
           | c :: rest =>
               let '(k, m1) := store_tree (Some a) c m in
               let '(ks, m2) := go rest m1 in
               (k :: ks, m2)
           end) cs (<[a := Object (PTag name attrs []) up]> m) in
      (a, <[a := Object (PTag name attrs kids) up]> m')
  end.

Definition set_parent (up : option nat) (o : object) : object :=
  Object (payload_of o) up.

Definition map_contents (f : list nat -> list nat) (o : object) : object :=
  match payload_of o with
  | PTag name attrs cs => Object (PTag name attrs (f cs)) (parent o)
  | _ => o
  end.

Definition map_attrs
    (f : list (string * attr_value) -> list (string * attr_value))
    (o : object) : object :=
  match payload_of o with
  | PTag name attrs cs => Object (PTag name (f attrs) cs) (parent o)
  | _ => o
  end.

(** [node.extract()]: out of the contents of its parent. *)
Definition extract (a : nat) (m : memory) : memory :=
  match m !! a with
  | Some o =>
      let m1 :=
        match parent o with
        | Some p =>
            alter (map_contents (filter (fun k => bool_decide (k ≠ a)))) p m
        | None => m
        end in
      alter (set_parent None) a m1
  | None => m
  end.

(** [tag.string = s]: the contents are cleared and a new string appended. *)
Definition set_string (a : nat) (s : string) (m : memory) : memory :=
  let m1 := foldl (fun m k => alter (set_parent None) k m) m (contents_at m a) in
  let n := fresh (dom m1) in
  <[n := Object (PString s) (Some a)]> (alter (map_contents (fun _ => [n])) a m1).

(** [del tag[attr]] for every attribute that is not kept. *)
Definition del_other_attrs (a : nat) (m : memory) : memory :=
  alter (map_attrs (filter (fun kv => Py.in_list kv.1 attrs_to_keep))) a m.

(** [node.replace_with(s)]: a new string takes the place of the node.  A
    node that is found below the root of a tree has a parent. *)
Definition replace_with (a : nat) (s : string) (m : memory) : memory :=
  match parent_at m a with
  | Some p =>
      let n := fresh (dom m) in
      <[n := Object (PString s) (Some p)]>
        (alter (set_parent None) a
           (alter (map_contents
                     (map (fun k => if bool_decide (k = a) then n else k))) p m))
  | None => m
  end.

(** The four loops of [clean_element], each over the list that
    [find_all] has returned when the loop starts. *)
Definition remove_comments (root : nat) (m : memory) : memory :=
  foldl (fun m comment => extract comment m) m
        (filter (fun a => is_comment_at m a) (descendants m root)).

Definition clear_scripts (root : nat) (m : memory) : memory :=
  foldl (fun m tag =>
           match string_at (size m) m tag with
           | Some s => if Py.truthy s then set_string tag "" m else m
           | None => m
           end) m
        (filter (fun a => is_cdata_tag_at m a) (descendants m root)).

Definition keep_attrs (root : nat) (m : memory) : memory :=
  foldl (fun m tag => del_other_attrs tag m) m
        (filter (fun a => is_tag_at m a) (descendants m root)).

Definition parent_name_at (m : memory) (a : nat) : string :=
  match parent_at m a with
  | Some p => match name_at m p with Some name => name | None => "" end
  | None => ""
  end.

Definition shorten_texts (root : nat) (m : memory) : memory :=
  foldl (fun m text =>
           match text_at m text with
           | Some s =>
               if is_long_text (parent_name_at m text) s
               then replace_with text (shortened s) m else m
           | None => m
           end) m
        (filter (fun a => is_text_at m a) (descendants m root)).

(** [clean_element(element)], with [element] an address: the address of
    the copy, and the memory after the edits. *)
Definition clean_element (w : world) (element : nat) (m : memory)
  : result exception nat * memory :=
  match load m element with
  | None => (Err (AttributeError "no such object"), m)
  | Some tree =>
      match BeautifulSoup w (node_str tree) with
      | Err e => (Err e, m)
      | Ok parsed =>
          let '(element_copy, m1) := store_tree None parsed m in
          let m2 := remove_comments element_copy m1 in
          let m3 := clear_scripts element_copy m2 in
          let m4 := keep_attrs element_copy m3 in
          let m5 := shorten_texts element_copy m4 in
          (Ok element_copy, m5)
      end
  end.

(** An object is new with respect to [m0] when [m0] has nothing at its
    address. *)
Definition refs (o : object) : list nat :=
  match parent o with Some p => [p] | None => [] end ++
  match payload_of o with PTag _ _ cs => cs | _ => [] end.

Definition is_new (m0 : memory) (a : nat) : Prop := m0 !! a = None.

(** Every object of [m0] is in [m] as it was, and the new objects of [m]
    point to new objects only. *)
Definition new_objects_closed (m0 m : memory) : Prop :=
  m0 ⊆ m ∧
  ∀ a o, is_new m0 a → m !! a = Some o → Forall (is_new m0) (refs o).

End Dom.

(** ** Notions used in the statements *)

(** The class value as [hash_element] reads it: a list is sorted, anything
    else is taken as it is. *)
Definition sorted_classes (attrs : list (string * attr_value)) : attr_value :=
  match get "class" attrs with
  | None => AttrList (Py.sorted [])
  | Some (AttrList classes) => AttrList (Py.sorted classes)
  | Some (AttrStr classes) => AttrStr classes
  end.

(** Every interleaving of the workers is a sequence of the steps taken
    under [self.hash_lock]; a step that raises ends the scan of its
    document but keeps what it has written. *)
Definition run_steps (w : world) (steps : list (node * string)) (st : state)
  : state :=
  foldl (fun st step => (process_element w step.1 step.2 st).2) st steps.

(** What the dedup index says about a candidate. *)
Inductive verdict := Skipped | Accepted | Duplicate.

Definition dedup_verdict (st : state) (element : node) : verdict :=
  match hash_element element with
  | Some h =>
      if Py.truthy h
      then if bool_decide (h ∈ element_hashes st) then Duplicate else Accepted
      else Skipped
  | None => Skipped
  end.

(** The index after the step of a candidate depends on its hash alone. *)
Definition hashes_after (st : state) (e : node) : gset string :=
  match hash_element e with
  | Some h => if Py.truthy h then {[h]} ∪ element_hashes st else element_hashes st
  | None => element_hashes st
  end.

(** Two nodes that differ only in text (strings and comments changed,
    added or removed) and in attributes other than [class], at any
    depth: the tags among their contents correspond one to one. *)
Inductive same_structure : node -> node -> Prop :=
| same_tag name attrs attrs' cs cs' :
    get "class" attrs = get "class" attrs' ->
    Forall2 same_structure (filter (fun d => is_tag d) cs)
                           (filter (fun d => is_tag d) cs') ->
    same_structure (Tag name attrs cs) (Tag name attrs' cs')
| same_string s s' :
    same_structure (NavigableString s) (NavigableString s')
| same_comment s s' :
    same_structure (Comment s) (Comment s').

(** The rules of the classifier as the specification lists them: a test
    on the tag name, the lower-cased class string and the subtree, and the
    category it gives. *)
Definition subtree_contains (element : node) (names : list string) : bool :=
  existsb (has_name names) (descendants element).

Definition count_in_subtree (element : node) (name : string) : nat :=
  length (filter (fun d => has_name [name] d) (descendants element)).

Definition listed_rule : Type := (string -> string -> node -> bool) * category.

Definition listed_rules : list listed_rule :=
  [ (fun tag cls _ => String.eqb tag "button" || Py.str_in "btn" cls
                      || Py.str_in "button" cls, buttons);
    (fun tag _ e => String.eqb tag "form" || subtree_contains e ["form"], forms);
    (fun tag cls e => String.eqb tag "header" || Py.str_in "header" cls
                      || subtree_contains e ["h1"], headers);
    (fun tag cls _ => String.eqb tag "nav" || Py.str_in "nav" cls
                      || Py.str_in "navbar" cls || Py.str_in "menu" cls, navbars);
    (fun tag _ e => String.eqb tag "table" || subtree_contains e ["table"], tables);
    (fun tag cls e => Py.str_in "card" cls
                      || (String.eqb tag "div" && subtree_contains e ["img"]
                          && (1 <? count_in_subtree e "div")%nat), cards);
    (fun _ cls _ => Py.str_in "container" cls || Py.str_in "wrapper" cls,
     containers);
    (fun _ cls _ => Py.str_in "grid" cls || Py.str_in "row" cls
                    || Py.str_in "flex" cls, grids);
    (fun tag _ e => Py.in_list tag ["input"; "select"; "textarea"]
                    || subtree_contains e ["input"; "select"; "textarea"], inputs);
    (fun tag cls _ => String.eqb tag "footer" || Py.str_in "footer" cls, footers);
    (fun tag cls _ => String.eqb tag "section" || Py.str_in "section" cls,
     sections);
    (fun tag _ e => String.eqb tag "a" || subtree_contains e ["a"], links);
    (fun _ _ _ => true, other) ].

Fixpoint first_match (rules : list listed_rule) (tag cls : string) (e : node)
  : option category :=
  match rules with
  | [] => None
  | (test, c) :: rest =>
      if test tag cls e then Some c else first_match rest tag cls e
  end.

(** The text nodes of a tree, in document order, each with the name of
    its parent. *)
Fixpoint texts_in (up : string) (n : node) : list (string * string) :=
  match n with
  | Tag name _ cs => concat (map (texts_in name) cs)
  | NavigableString s | Comment s => [(up, s)]
  end.

(** The state apart from the printed lines. *)
Definition same_data (a b : state) : Prop :=
  element_hashes a = element_hashes b ∧
  element_groups a = element_groups b ∧
  stats a = stats b.

(** [m] always returns: whatever the state, no exception leaves it. *)
Definition always_returns {A} (m : M A) : Prop :=
  forall st, exists a st', m st = (Ok a, st').

(** [m] may raise an [Exception], but it never exits the interpreter. *)
Definition never_exits {A} (m : M A) : Prop :=
  forall st c st', m st <> (Err (SystemExit c), st').



(** The file of the echo scenario: the markup literal, the statement
    alone, and the statement between the markers of a PHP block. *)
Definition card_literal : string :=
  "<div class=" +:+ dquote +:+ "card p-4" +:+ dquote +:+ "><img src=" +:+
  dquote +:+ "a.png" +:+ dquote +:+ "><div></div></div>".

Definition card_node : node :=
  Tag "div" [("class", AttrList ["card"; "p-4"])]
      [Tag "img" [("src", AttrStr "a.png")] []; Tag "div" [] []].

Definition echo_statement : string := "echo '" +:+ card_literal +:+ "';".

Definition echo_block : string := "<?php " +:+ echo_statement +:+ " ?>".

Definition static_extractor : extractor :=
  Extractor "/site" "out.txt" false "php" 4 true None "2026-01-01 00:00:00"
            "user".

(** What [clean_element] does to one text node below a parent called
    [up], spelled out. *)
Definition shorten_rule (t : string * string) : string * string :=
  (t.1,
   if negb (Py.in_list t.1 ["script"; "style"])
      && (100 <? String.length (Py.strip t.2))%nat
   then Py.take 100 t.2 +:+ "..."
   else t.2).

(** Two states that differ in the printed lines at most. *)
Definition quiet (a b : state) : Prop :=
  element_hashes a = element_hashes b /\
  element_groups a = element_groups b /\
  stats a = stats b /\
  written a = written b.

(** [m] returns, and all it does to the state is print. *)
Definition only_prints {A} (m : M A) : Prop :=
  forall st, exists a st', m st = (Ok a, st') /\ quiet st st'.

(** A world in which no file can be read, no markup parsed and no process
    run to its end. *)
Definition failing_world : world :=
  {| path_exists := fun _ => true;
     read_text := fun _ => Err (OSError "unreadable");
     write_text := fun _ _ => Ok tt;
     subprocess_run := fun _ => Err (SubprocessError "timeout");
     BeautifulSoup := fun _ => Err (ParserRejectedMarkup "rejected");
     relpath := fun path _ => path;
     mkdtemp := fun prefix => prefix;
     listing := fun _ => Directory [] [];
     rmtree := fun _ => Ok tt;
     abspath := fun path => path;
     basename := fun path => path;
     utcnow := "2026-01-01 00:00:00";
     environ_user := "user";
     elapsed := "0.0" |}.

(** A world whose parser returns [tree] for every markup: a way to run
    [clean_element] on copies of any shape. *)
Definition fixed_parse_world (tree : node) : world :=
  {| path_exists := fun _ => true;
     read_text := fun _ => Ok "";
     write_text := fun _ _ => Ok tt;
     subprocess_run := fun _ => Err (FileNotFoundError "php");
     BeautifulSoup := fun _ => Ok tree;
     relpath := fun path _ => path;
     mkdtemp := fun prefix => prefix;
     listing := fun _ => Directory [] [];
     rmtree := fun _ => Ok tt;
     abspath := fun path => path;
     basename := fun path => path;
     utcnow := "2026-01-01 00:00:00";
     environ_user := "user";
     elapsed := "0.0" |}.

(** Do the loops in memory and the passes over the tree clean a copy
    [tree] to the same result? *)
Definition cleaned_alike (tree : node) : bool :=
  let w := fixed_parse_world tree in
  let element := Tag "p" [] [] in
  let m := (Dom.store_tree None element ∅).2 in
  match Dom.clean_element w 0 m, clean_element w element with
  | (Ok element_copy, m'), Ok cleaned =>
      match Dom.load m' element_copy with
      | Some loaded => String.eqb (node_str loaded) (node_str cleaned)
                       && node_eqb loaded cleaned
      | None => false
      end
  | _, _ => false
  end.




(** A world for running the extractor on one file: [content] is the text
    of every file, no process can be started, and markup is parsed by
    [HtmlParser.html_parser]. *)
Definition one_file_world (content : string) : world :=
  {| path_exists := fun _ => true;
     read_text := fun _ => Ok content;
     write_text := fun _ _ => Ok tt;
     subprocess_run := fun _ => Err (FileNotFoundError "php");
     BeautifulSoup := fun markup => Ok (HtmlParser.html_parser markup);
     relpath := fun path _ => path;
     mkdtemp := fun prefix => prefix;
     listing := fun _ => Directory [("page.php", Some 100%N)] [];
     rmtree := fun _ => Ok tt;
     abspath := fun path => path;
     basename := fun path => path;
     utcnow := "2026-01-01 00:00:00";
     environ_user := "user";
     elapsed := "0.0" |}.

(** ** Notions used in the further properties *)

(** The files that the loop of [find_php_files] does not skip: the size
    is known, it is at most 5 MB, and the name does not start with a dot. *)
Definition is_scanned (file : string * option N) : bool :=
  match file.2 with
  | Some size => negb (size_limit <? size)%N && negb (Py.startswith file.1 ".")
  | None => false
  end.

(** A name that ends in [.php]. *)
Definition is_php (file : string * option N) : bool :=
  Py.endswith file.1 ".php".

(** A name that ends in [.html], [.htm] or [.tpl] and not in [.php]: the
    [elif] of the loop. *)
Definition is_markup (file : string * option N) : bool :=
  negb (Py.endswith file.1 ".php") &&
  (Py.endswith file.1 ".html" || Py.endswith file.1 ".htm"
   || Py.endswith file.1 ".tpl").

(** The files below [root] in the order of the walk, each with its path. *)
Definition files_under (root : string) (d : directory)
  : list (string * (string * option N)) :=
  concat (map (fun entry => map (fun file => (path_join entry.1 file.1, file))
                                entry.2)
              (walk root d)).

(** What one file adds to the counters of the search. *)
Definition count_file (file : string * option N) (s : statistics) : statistics :=
  if is_scanned file then
    incr_files_scanned
      (if is_php file then incr_php_files_found s
       else if is_markup file then incr_html_files_found s
       else s)
  else s.

(** [php_files] and [html_files] after one file of the directory [root]. *)
Definition found_after (root : string) (found : list string * list string)
    (file : string * option N) : list string * list string :=
  let file_path := path_join root file.1 in
  if is_scanned file then
    if is_php file then (found.1 ++ [file_path], found.2)
    else if is_markup file then (found.1, found.2 ++ [file_path])
    else found
  else found.

(** What the files of one directory add to the counters. *)
Definition count_files (files : list (string * option N)) (s : statistics)
  : statistics :=
  foldl (fun s file => count_file file s) s files.

(** The files of the directory [root], each with its path. *)
Definition with_paths (root : string) (files : list (string * option N))
  : list (string * (string * option N)) :=
  map (fun file => (path_join root file.1, file)) files.

(** The paths that go to [php_files]. *)
Definition php_of (l : list (string * (string * option N))) : list string :=
  map fst (filter (fun pf => is_php pf.2) (filter (fun pf => is_scanned pf.2) l)).

(** The paths that go to [html_files]. *)
Definition markup_of (l : list (string * (string * option N))) : list string :=
  map fst (filter (fun pf => is_markup pf.2)
                  (filter (fun pf => is_scanned pf.2) l)).

(** The files that are not skipped. *)
Definition scanned_of (l : list (string * (string * option N)))
  : list (string * (string * option N)) :=
  filter (fun pf => is_scanned pf.2) l.

(** What the counters become. *)
Definition counted (s : statistics) (scanned php markup : nat) : statistics :=
  Statistics (files_scanned s + scanned) (php_files_found s + php)
    (php_files_executed s) (html_files_found s + markup) (elements_found s)
    (unique_elements s) (duplicate_elements s) (execution_errors s).

(** The directories that the walk enters: the top, and below a directory
    that it enters every folder that is not in [skip_folders] and whose
    name does not start with a dot. *)
Inductive entered (top : string) : string -> Prop :=
| entered_top : entered top top
| entered_sub root name :
    entered top root ->
    Py.in_list name skip_folders = false ->
    Py.startswith name "." = false ->
    entered top (path_join root name).

(** The part of the walk below one sub-directory. *)
Definition walk_into (root : string) (entry : string * directory)
  : list (string * list (string * option N)) :=
  if negb (Py.in_list entry.1 skip_folders) && negb (Py.startswith entry.1 ".")
  then walk (path_join root entry.1) entry.2 else [].

(** [m] takes every state to a state related to it by [R], whether it
    returns or raises. *)
Definition steps_in {A} (R : state -> state -> Prop) (m : M A) : Prop :=
  forall st, R st (m st).2.

(** The PHP files that have been run, with or without success. *)
Definition attempted (st : state) : nat :=
  php_files_executed (stats st) + execution_errors (stats st).





(** No category is listed twice, and none is listed without elements. *)
Definition groups_well_formed (g : groups) : Prop :=
  NoDup (map fst g) /\ Forall (fun entry => entry.2 <> []) g.

(** [self.element_groups[c]], read without adding the key. *)
Fixpoint group_of (c : category) (g : groups) : list (node * string) :=
  match g with
  | [] => []
  | (c', l) :: rest => if category_eqb c c' then l else group_of c rest
  end.

(** The index, the groups and [unique_elements]. *)
Definition same_collection (a b : state) : Prop :=
  element_hashes a = element_hashes b /\
  element_groups a = element_groups b /\
  unique_elements (stats a) = unique_elements (stats b).

(** No counter is lower in [b] than in [a]. *)
Definition stats_le (a b : statistics) : Prop :=
  files_scanned a <= files_scanned b /\
  php_files_found a <= php_files_found b /\
  php_files_executed a <= php_files_executed b /\
  html_files_found a <= html_files_found b /\
  elements_found a <= elements_found b /\
  unique_elements a <= unique_elements b /\
  duplicate_elements a <= duplicate_elements b /\
  execution_errors a <= execution_errors b.

(** Everything that [a] holds is still in [b], where it was: the hashes,
    the categories in their order, the elements of each category in their
    order, the printed lines and the written files; and no counter is
    lower. *)
Definition grows (a b : state) : Prop :=
  element_hashes a ⊆ element_hashes b /\
  map fst (element_groups a) `prefix_of` map fst (element_groups b) /\
  (forall c, group_of c (element_groups a) `prefix_of`
             group_of c (element_groups b)) /\
  stats_le (stats a) (stats b) /\
  printed a `prefix_of` printed b /\
  written a `prefix_of` written b.

(** [m] returns, and prints the lines [lines], in this order. *)
Definition says {A} (lines : list string) (m : M A) : Prop :=
  forall st, exists a st', m st = (Ok a, st') /\ printed st' = printed st ++ lines.

(** The one line that a unit of work prints whatever [verbose] is: the
    line of [execute_php_file] for a file that does not exist. *)
Definition loud_lines (w : world) (self : extractor) (file_path : string)
  : list string :=
  if execute_php self && Py.endswith file_path ".php"
     && negb (path_exists w file_path)
  then [ "Error: PHP file not found: " +:+ file_path ]
  else [].

(** A world without the project directory. *)
Definition missing_world : world :=
  {| path_exists := fun _ => false;
     read_text := fun _ => Err (FileNotFoundError "missing");
     write_text := fun _ _ => Ok tt;
     subprocess_run := fun _ => Err (FileNotFoundError "php");
     BeautifulSoup := fun markup => Ok (HtmlParser.html_parser markup);
     relpath := fun path _ => path;
     mkdtemp := fun prefix => prefix;
     listing := fun _ => Directory [] [];
     rmtree := fun _ => Ok tt;
     abspath := fun path => path;
     basename := fun path => path;
     utcnow := "2026-01-01 00:00:00";
     environ_user := "user";
     elapsed := "0.0" |}.

(** An extractor in execution mode that prints no progress. *)
Definition quiet_extractor : extractor :=
  Extractor "/site" "out.txt" true "php" 4 false None "2026-01-01 00:00:00"
            "user".

(** The line that tells where the components are, at the end of the
    summary. *)
Definition saved_line (w : world) (self : extractor) : string :=
  nl +:+ "Components saved to: " +:+ abspath w (output_file self).

(** [m] returns, all it does is print, and the last line is [line]. *)
Definition ends_with (line : string) (m : M unit) : Prop :=
  forall st, exists st', m st = (Ok tt, st') /\ quiet st st' /\
                         last (printed st') = Some line.

(** The units of work of [files], one after the other. *)
Definition run_units (w : world) (self : extractor) (files : list string)
    (st : state) : state :=
  foldl (fun st f => (process_file w self f st).2) st files.



(** The lines that [cleanup] prints. *)
Definition cleanup_lines (w : world) (self : extractor) : list string :=
  match temp_dir self with
  | Some d =>
      if Py.truthy d && path_exists w d then
        match rmtree w d with
        | Ok _ =>
            if verbose self
            then [ "Cleaned up temporary directory: " +:+ d ] else []
        | Err e =>
            [ "Warning: Failed to clean up temporary directory: " +:+
              exception_str e ]
        end
      else []
  | None => []
  end.

(** [p] holds of every node below [n]. *)
Fixpoint all_below (p : node -> bool) (n : node) : bool :=
  match n with
  | Tag _ _ cs => forallb (fun c => p c && all_below p c) cs
  | _ => true
  end.

(** The attributes of a tag are among [attrs_to_keep]. *)
Definition only_kept_attrs (n : node) : bool :=
  match n with
  | Tag _ attrs _ => forallb (fun kv => Py.in_list kv.1 attrs_to_keep) attrs
  | _ => true
  end.

(** [p] holds of [n] and of every node below it. *)
Definition all_in (p : node -> bool) (n : node) : bool := p n && all_below p n.

(** Not a [Comment]. *)
Definition no_comment (n : node) : bool := negb (is_comment n).

(** *** Cleaning a cleaned copy changes nothing *)

(** Truthiness of [tag.string]. *)
Definition has_string (n : node) : bool :=
  match string_of n with Some s => Py.truthy s | None => false end.

(** A [script] or [style] tag that the second loop would leave alone. *)
Definition is_settled (n : node) : bool :=
  match n with
  | Tag name _ _ => negb (Py.in_list name cdata_tags && has_string n)
  | _ => true
  end.

(** A class token as the parser makes them: no white space inside. *)
Fixpoint no_space (s : string) : bool :=
  match s with
  | EmptyString => true
  | String c t => negb (Py.is_space c) && no_space t
  end.

(** A world in which the document [<p class='p-1'></p>] is parsed and no
    other markup is: the copy that [clean_element] asks for is refused. *)
Definition unclean_world : world :=
  {| path_exists := fun _ => true;
     read_text := fun _ => Ok "<p class='p-1'></p>";
     write_text := fun _ _ => Ok tt;
     subprocess_run := fun _ => Err (FileNotFoundError "php");
     BeautifulSoup := fun markup =>
       if String.eqb markup "<p class='p-1'></p>"
       then Ok (HtmlParser.html_parser markup)
       else Err (ParserRejectedMarkup "rejected");
     relpath := fun path _ => path;
     mkdtemp := fun prefix => prefix;
     listing := fun _ => Directory [("page.html", Some 100%N)] [];
     rmtree := fun _ => Ok tt;
     abspath := fun path => path;
     basename := fun path => path;
     utcnow := "2026-01-01 00:00:00";
     environ_user := "user";
     elapsed := "0.0" |}.

(** ** The literals of [echo] statements *)

(** White space only. *)
Fixpoint all_space (s : string) : bool :=
  match s with
  | EmptyString => true
  | String c t => Py.is_space c && all_space t
  end.

(** No quote in [s] is followed by a semicolon. *)
Fixpoint no_quote_semicolon (s : string) : bool :=
  match s with
  | String q (String semi _ as t) =>
      negb (is_quote q && Ascii.eqb semi ";") && no_quote_semicolon t
  | _ => true
  end.

(** * Properties *)

(** ** Test vectors of the digest *)

Example md5_empty : MD5.hexdigest "" = "d41d8cd98f00b204e9800998ecf8427e".
Proof. vm_compute. reflexivity. Qed.

Example md5_abc : MD5.hexdigest "abc" = "900150983cd24fb0d6963f7d28e17f72".
Proof. vm_compute. reflexivity. Qed.

Example md5_two_blocks :
  MD5.hexdigest "aaaaaaaaaaaaaaaaaaaaaaaaaaaaaaaaaaaaaaaaaaaaaaaaaaaaaaaaaaaa"
  = "cc7ed669cf88f201c3297c6a91e1d18d".
Proof. vm_compute. reflexivity. Qed.

(** A digest is 32 characters long, so it is never the empty string. *)
Lemma hexdigest_truthy s : Py.truthy (MD5.hexdigest s) = true.
Proof.
  unfold MD5.hexdigest.
  destruct (MD5.digest _) as [a b c d]. reflexivity.
Qed.

(** ** Induction over trees *)

Lemma node_rect_forall (P : node -> Prop) :
  (forall name attrs cs, Forall P cs -> P (Tag name attrs cs)) ->
  (forall s, P (NavigableString s)) ->
  (forall s, P (Comment s)) ->
  forall n, P n.
Proof.
  intros Htag Hstr Hcom. fix IH 1.
  intros [name attrs cs | s | s]; [ | apply Hstr | apply Hcom ].
  apply Htag. induction cs as [ | c cs IHcs ]; constructor.
  - apply IH.
  - exact IHcs.
Qed.

(** ** The step under the lock *)

Ltac run_monad :=
  unfold bind, ret, raise, modify, gets, call, try_except, print_if, print in *;
  simpl in *.

Ltac step_monad :=
  cbv beta iota delta
    [ bind ret raise modify gets call try_except try_finally print print_if
      record_write fst snd ].

Lemma process_element_skipped w e f st :
  dedup_verdict st e = Skipped -> process_element w e f st = (Ok tt, st).
Proof.
  unfold dedup_verdict, process_element.
  destruct (hash_element e) as [h|]; [ | reflexivity ].
  destruct (Py.truthy h); [ | reflexivity ].
  case_bool_decide; discriminate.
Qed.

Lemma process_element_duplicate w e f st :
  dedup_verdict st e = Duplicate ->
  process_element w e f st = (Ok tt, with_stats incr_duplicate_elements st).
Proof.
  unfold dedup_verdict, process_element.
  destruct (hash_element e) as [h|]; [ | discriminate ].
  destruct (Py.truthy h); [ | discriminate ]. simpl.
  run_monad. case_bool_decide; [ reflexivity | discriminate ].
Qed.

(** An accepted candidate: its hash is added first; the element is stored
    and counted when cleaning and classification return. *)
Lemma process_element_accepted w e f st :
  dedup_verdict st e = Accepted ->
  exists h, hash_element e = Some h /\
    process_element w e f st =
      match clean_element w e, classify_element e with
      | Ok cleaned, Ok c =>
          (Ok tt, with_stats incr_unique_elements
                    (append_group c (cleaned, f) (add_hash h st)))
      | Err x, _ => (Err (Exc x), add_hash h st)
      | Ok _, Err x => (Err (Exc x), add_hash h st)
      end.
Proof.
  unfold dedup_verdict, process_element.
  destruct (hash_element e) as [h|]; [ | discriminate ].
  destruct (Py.truthy h); [ | discriminate ]. simpl.
  intros Hv. exists h. split; [ reflexivity | ].
  run_monad. case_bool_decide; [ discriminate | ]. simpl.
  destruct (clean_element w e); simpl; [ | reflexivity ].
  destruct (classify_element e); reflexivity.
Qed.

Lemma verdict_cases st e :
  dedup_verdict st e = Skipped \/ dedup_verdict st e = Accepted \/
  dedup_verdict st e = Duplicate.
Proof. destruct (dedup_verdict st e); auto. Qed.






Lemma structure_of_eq name attrs1 attrs2 cs1 cs2 :
  sorted_classes attrs1 = sorted_classes attrs2 ->
  (Py.in_list name structural_tags = true ->
   Py.sorted (child_tag_names (Tag name attrs1 cs1))
   = Py.sorted (child_tag_names (Tag name attrs2 cs2))) ->
  structure_of name attrs1 (Tag name attrs1 cs1)
  = structure_of name attrs2 (Tag name attrs2 cs2).
Proof.
  intros Hc Hk. unfold structure_of.
  assert (match get "class" attrs1 with
          | None => Py.join " " (Py.sorted [])
          | Some (AttrList classes) => Py.join " " (Py.sorted classes)
          | Some (AttrStr classes) => classes
          end
          = match get "class" attrs2 with
            | None => Py.join " " (Py.sorted [])
            | Some (AttrList classes) => Py.join " " (Py.sorted classes)
            | Some (AttrStr classes) => classes
            end) as ->.
  { unfold sorted_classes in Hc.
    destruct (get "class" attrs1) as [[?|?]|], (get "class" attrs2) as [[?|?]|];
      inversion Hc; congruence. }
  destruct (Py.in_list name structural_tags); [ | reflexivity ].
  by rewrite Hk.
Qed.



(** The loop of a document over its candidates is such a run of steps:
    of all of them when it returns, of those up to the step that raises
    otherwise. *)
Lemma document_loop_is_a_run (w : world) (f : string) (l : list node)
    (st : state) :
  exists k,
    (for_each l (fun e => process_element w e f) st).2
    = run_steps w (map (fun e => (e, f)) (take k l)) st.
Proof.
  revert st. induction l as [ | e l IH ]; intros st.
  - exists 0. reflexivity.
  - simpl. unfold bind.
    destruct (process_element w e f st) as [[[] | x] st1] eqn:Hstep.
    + destruct (IH st1) as [k Hk]. exists (S k). simpl.
      by rewrite Hstep.
    + exists 1. simpl. by rewrite Hstep.
Qed.

(** The sorted lists keep repeated entries: one more child of the same
    name, or a class written twice, gives another fingerprint. *)
Example repeated_names_change_the_fingerprint :
  hash_element (Tag "div" [] [Tag "p" [] []])
  <> hash_element (Tag "div" [] [Tag "p" [] []; Tag "p" [] []]) /\
  hash_element (Tag "a" [("class", AttrList ["x"])] [])
  <> hash_element (Tag "a" [("class", AttrList ["x"; "x"])] []).
Proof. split; vm_compute; discriminate. Qed.

(** ** The classifier *)

Lemma finds_subtree_contains names e :
  finds names e = subtree_contains e names.
Proof.
  unfold finds, Soup.find, Soup.find_all, subtree_contains.
  induction (descendants e) as [ | d ds IH ]; [ reflexivity | ].
  rewrite filter_cons. simpl.
  destruct (has_name names d); simpl; [ reflexivity | exact IH ].
Qed.

Lemma first_match_index rules tag cls e c :
  first_match rules tag cls e = Some c ->
  exists i test,
    rules !! i = Some (test, c) /\ test tag cls e = true /\
    forallb (fun r => negb (r.1 tag cls e)) (take i rules) = true.
Proof.
  induction rules as [ | [test c'] rules IH ]; simpl; [ discriminate | ].
  destruct (test tag cls e) eqn:Ht.
  - intros [= <-]. exists 0, test. auto.
  - intros H. destruct (IH H) as (i & test' & Hi & Ht' & Hall).
    exists (S i), test'. simpl. rewrite Ht. auto.
Qed.

(** C3.  The classifier is total on element nodes: it returns one of the
    thirteen categories, the one of the first rule, in the order of the
    list, whose test holds of the tag name, the lower-cased joined class
    string and the subtree; the last rule always holds and gives
    [other]. *)
Theorem classify_is_first_listed_rule
    (name : string) (attrs : list (string * attr_value)) (cs : list node) :
  let e := Tag name attrs cs in
  let cls := class_text_of attrs in
  length listed_rules = 13 /\
  map snd listed_rules
  = [ buttons; forms; headers; navbars; tables; cards; containers; grids;
      inputs; footers; sections; links; other ] /\
  exists c,
    classify_element e = Ok c /\
    first_match listed_rules name cls e = Some c /\
    exists i test,
      listed_rules !! i = Some (test, c) /\ test name cls e = true /\
      forallb (fun r => negb (r.1 name cls e)) (take i listed_rules) = true.
Proof.
  intros e cls. split; [ reflexivity | split; [ reflexivity | ] ].
  assert (exists c, classify_element e = Ok c /\
                    first_match listed_rules name cls e = Some c)
    as (c & Hc & Hf).
  { unfold classify_element, e. fold cls. fold e.
    rewrite !finds_subtree_contains.
    change (length (find_all ["div"] e)) with (count_in_subtree e "div").
    unfold listed_rules, first_match.
    repeat match goal with
           | |- context [ if ?b then _ else _ ] =>
               destruct b; [ eexists; split; reflexivity | ]
           end.
    eexists; split; reflexivity. }
  exists c. split; [ exact Hc | split; [ exact Hf | ] ].
  by apply first_match_index.
Qed.

(** ** The fingerprint looks at the tag, the classes and the child tags *)

Lemma same_structure_child_names (cs cs' : list node) :
  Forall2 same_structure cs cs' -> omap name_of cs = omap name_of cs'.
Proof.
  induction 1 as [ | c c' cs cs' Hc _ IH ]; [ reflexivity | ].
  inversion Hc; subst; simpl; [ f_equal; exact IH | exact IH | exact IH ].
Qed.

Lemma same_structure_hash e e' :
  same_structure e e' -> hash_element e = hash_element e'.
Proof.
  intros H. inversion H as [ name attrs attrs' cs cs' Hc Hk | | ]; subst;
    [ | reflexivity | reflexivity ].
  unfold hash_element, structure_of, child_tag_names, find_all_children.
  simpl contents_of. rewrite Hc.
  by rewrite (same_structure_child_names _ _ Hk).
Qed.

Lemma process_element_hashes_after w e f st :
  element_hashes (process_element w e f st).2 = hashes_after st e.
Proof.
  unfold hashes_after.
  destruct (verdict_cases st e) as [H | [H | H]].
  - rewrite (process_element_skipped _ _ _ _ H).
    unfold dedup_verdict in H.
    destruct (hash_element e) as [h|]; [ | reflexivity ].
    destruct (Py.truthy h); [ case_bool_decide; discriminate | reflexivity ].
  - destruct (process_element_accepted w e f st H) as (h & He & ->).
    unfold dedup_verdict in H. rewrite He in *.
    destruct (Py.truthy h); [ | discriminate ].
    destruct (clean_element w e); [ destruct (classify_element e) | ];
      reflexivity.
  - rewrite (process_element_duplicate _ _ _ _ H). simpl.
    unfold dedup_verdict in H.
    destruct (hash_element e) as [h|]; [ | discriminate ].
    destruct (Py.truthy h); [ | discriminate ].
    case_bool_decide as Hin; [ | discriminate ].
    symmetry. apply subseteq_union_1_L. by apply singleton_subseteq_l.
Qed.

Lemma process_element_duplicates_after w e f st :
  duplicate_elements (stats (process_element w e f st).2)
  = match dedup_verdict st e with
    | Duplicate => S (duplicate_elements (stats st))
    | _ => duplicate_elements (stats st)
    end.
Proof.
  destruct (verdict_cases st e) as [H | [H | H]]; rewrite H.
  - by rewrite (process_element_skipped _ _ _ _ H).
  - destruct (process_element_accepted w e f st H) as (h & _ & ->).
    destruct (clean_element w e); [ destruct (classify_element e) | ];
      reflexivity.
  - by rewrite (process_element_duplicate _ _ _ _ H).
Qed.

(** C4.  A node that differs from another only in text content and in
    attributes other than [class] has the same fingerprint, gets the same
    verdict from the dedup index, and leaves the same index and the same
    duplicate count behind. *)
Theorem fingerprint_ignores_text_and_other_attrs (e e' : node) :
  same_structure e e' ->
  hash_element e = hash_element e' /\
  forall (w : world) (f f' : string) (st : state),
    dedup_verdict st e = dedup_verdict st e' /\
    element_hashes (process_element w e f st).2
    = element_hashes (process_element w e' f' st).2 /\
    duplicate_elements (stats (process_element w e f st).2)
    = duplicate_elements (stats (process_element w e' f' st).2).
Proof.
  intros H. pose proof (same_structure_hash e e' H) as Hh.
  split; [ exact Hh | ]. intros w f f' st.
  assert (dedup_verdict st e = dedup_verdict st e') as Hv
    by (unfold dedup_verdict; by rewrite Hh).
  split; [ exact Hv | split ].
  - rewrite !process_element_hashes_after. unfold hashes_after. by rewrite Hh.
  - rewrite !process_element_duplicates_after. by rewrite Hv.
Qed.

Lemma fingerprint_ignores_text_and_other_attrs_witness :
  let e := Tag "div" [("class", AttrList ["card"]); ("id", AttrStr "a")]
               [NavigableString "one"; Tag "p" [] [NavigableString "x"]] in
  let e' := Tag "div" [("title", AttrStr "t"); ("class", AttrList ["card"])]
                [Tag "p" [] [NavigableString "y"; Comment "z"]] in
  same_structure e e' /\ hash_element e = hash_element e'.
Proof.
  intros e e'.
  assert (same_structure e e') as H.
  { unfold e, e'. constructor; [ reflexivity | ].
    change (Forall2 same_structure [Tag "p" [] [NavigableString "x"]]
                    [Tag "p" [] [NavigableString "y"; Comment "z"]]).
    repeat constructor. }
  split; [ exact H | ].
  exact (proj1 (fingerprint_ignores_text_and_other_attrs e e' H)).
Defined.

(** ** The selection of candidates *)




Lemma foldl_invariant {A B} (P : A -> Prop) (f : A -> B -> A) l a :
  P a -> (forall acc x, x ∈ l -> P acc -> P (f acc x)) -> P (foldl f a l).
Proof.
  revert a. induction l as [ | y l IH ]; simpl; intros a Ha Hf; [ exact Ha | ].
  apply IH.
  - apply Hf; [ left | exact Ha ].
  - intros acc x Hx. apply Hf. by right.
Qed.



Lemma second_pass_step_cases ct acc tag :
  second_pass_step ct acc tag = acc \/
  (second_pass_step ct acc tag = (acc.1 ++ [tag], S acc.2) /\
   Py.str_in ct (Py.lower (class_str_of tag)) = true).
Proof.
  unfold second_pass_step. destruct (node_in tag acc.1); [ by left | ].
  destruct (Py.str_in _ _); auto.
Qed.












(** ** The counters *)





Lemma for_each_cons {A} (x : A) rest body st :
  for_each (x :: rest) body st
  = match body x st with
    | (Ok _, st1) => for_each rest body st1
    | (Err e, st1) => (Err e, st1)
    end.
Proof. reflexivity. Qed.





(** ** Exceptions stay inside the unit of work *)

Lemma always_returns_never_exits {A} (m : M A) :
  always_returns m -> never_exits m.
Proof. intros H st c st' Heq. destruct (H st) as (a & st1 & H1). congruence. Qed.

Lemma ret_returns {A} (a : A) : always_returns (ret a).
Proof. intros st. by exists a, st. Qed.

Lemma modify_returns f : always_returns (modify f).
Proof. intros st. by exists tt, (f st). Qed.

Lemma gets_returns {A} (f : state -> A) : always_returns (gets f).
Proof. intros st. by exists (f st), st. Qed.

Lemma print_returns line : always_returns (print line).
Proof. apply modify_returns. Qed.

Lemma print_if_returns b line : always_returns (print_if b line).
Proof. destruct b; [ apply print_returns | apply ret_returns ]. Qed.

Lemma bind_returns {A B} (m : M A) (k : A -> M B) :
  always_returns m -> (forall a, always_returns (k a)) ->
  always_returns (bind m k).
Proof.
  intros Hm Hk st. destruct (Hm st) as (a & st1 & H1).
  destruct (Hk a st1) as (b & st2 & H2).
  exists b, st2. unfold bind. by rewrite H1.
Qed.

Lemma call_never_exits {A} (r : result exception A) : never_exits (call r).
Proof. intros st c st'. destruct r; discriminate. Qed.

Lemma bind_never_exits {A B} (m : M A) (k : A -> M B) :
  never_exits m -> (forall a, never_exits (k a)) -> never_exits (bind m k).
Proof.
  intros Hm Hk st c st'. unfold bind.
  destruct (m st) as [[a | x] st1] eqn:H1; [ apply Hk | ].
  intros [= -> ->]. by apply (Hm st c st').
Qed.

Lemma for_each_never_exits {A} (l : list A) body :
  (forall x, never_exits (body x)) -> never_exits (for_each l body).
Proof.
  intros Hb. induction l as [ | x l IH ]; simpl.
  - apply always_returns_never_exits, ret_returns.
  - apply bind_never_exits; [ apply Hb | intros _; exact IH ].
Qed.

Lemma for_each_returns {A} (l : list A) body :
  (forall x, always_returns (body x)) -> always_returns (for_each l body).
Proof.
  intros Hb. induction l as [ | x l IH ]; simpl.
  - apply ret_returns.
  - apply bind_returns; [ apply Hb | intros _; exact IH ].
Qed.

(** [try ... except Exception] around a body that never exits, with a
    handler that returns, solve_returns. *)
Lemma try_except_returns {A} (body : M A) handler :
  never_exits body -> (forall e, always_returns (handler e)) ->
  always_returns (try_except body handler).
Proof.
  intros Hb Hh st. unfold try_except.
  destruct (body st) as [[a | [e | c]] st1] eqn:H1.
  - by exists a, st1.
  - apply Hh.
  - by destruct (Hb st c st1).
Qed.

Ltac solve_returns :=
  repeat first
    [ apply ret_returns | apply print_if_returns | apply print_returns
    | apply modify_returns | apply gets_returns
    | apply bind_returns; [ | intros ? ] ].

Ltac solve_never_exits :=
  repeat first
    [ apply call_never_exits
    | apply always_returns_never_exits; solve_returns; fail
    | apply bind_never_exits; [ | intros ? ] ].

Lemma process_element_never_exits w e f : never_exits (process_element w e f).
Proof.
  unfold process_element.
  destruct (hash_element e) as [h|];
    [ | apply always_returns_never_exits, ret_returns ].
  destruct (Py.truthy h); simpl;
    [ | apply always_returns_never_exits, ret_returns ].
  apply bind_never_exits; [ apply always_returns_never_exits, gets_returns | ].
  intros seen. destruct seen; simpl; solve_never_exits.
Qed.

Lemma scan_document_never_exits w html f : never_exits (scan_document w html f).
Proof.
  unfold scan_document. apply bind_never_exits; [ apply call_never_exits | ].
  intros soup. destruct (select_elements soup) as [significant total].
  apply bind_never_exits.
  - apply for_each_never_exits. intros e. apply process_element_never_exits.
  - intros _. solve_never_exits.
Qed.

Lemma extract_elements_from_html_returns w self html f :
  always_returns (extract_elements_from_html w self html f).
Proof.
  unfold extract_elements_from_html.
  destruct (_ || _); [ apply ret_returns | ].
  apply try_except_returns; [ apply scan_document_never_exits | ].
  intros e. solve_returns.
Qed.

Lemma extract_html_from_php_static_returns w self f :
  always_returns (extract_html_from_php_static w self f).
Proof.
  unfold extract_html_from_php_static. apply try_except_returns.
  - solve_never_exits.
  - intros e. solve_returns.
Qed.

Lemma execute_php_file_returns w self f :
  always_returns (execute_php_file w self f).
Proof.
  unfold execute_php_file. destruct (execute_php self); simpl;
    [ | apply ret_returns ].
  apply try_except_returns.
  - destruct (path_exists w f); simpl; [ | solve_never_exits ].
    apply bind_never_exits; [ apply call_never_exits | ].
    intros r. destruct (_ =? _)%Z; solve_never_exits.
  - intros e. solve_returns.
Qed.

Lemma report_found_returns w self n how f :
  always_returns (report_found w self n how f).
Proof. unfold report_found. destruct (_ <? _)%nat; solve_returns. Qed.

Lemma process_file_returns w self f : always_returns (process_file w self f).
Proof.
  unfold process_file. apply try_except_returns; [ | intros e; solve_returns ].
  apply always_returns_never_exits.
  destruct (Py.endswith f ".php").
  - apply bind_returns; [ apply extract_html_from_php_static_returns | ].
    intros html. apply bind_returns;
      [ apply extract_elements_from_html_returns | ].
    intros n. apply bind_returns; [ | intros _; apply report_found_returns ].
    destruct (execute_php self); [ | apply ret_returns ].
    apply bind_returns; [ apply execute_php_file_returns | ].
    intros html'. apply bind_returns;
      [ apply extract_elements_from_html_returns | ].
    intros n'. apply report_found_returns.
  - apply try_except_returns; [ | intros e; solve_returns ].
    apply bind_never_exits; [ apply call_never_exits | ].
    intros html. apply always_returns_never_exits.
    apply bind_returns; [ apply extract_elements_from_html_returns | ].
    intros n. apply report_found_returns.
Qed.

Lemma process_file_ok w self f st :
  process_file w self f st = (Ok tt, (process_file w self f st).2).
Proof.
  destruct (process_file_returns w self f st) as ([] & st' & ->). reflexivity.
Qed.

(** The units of work run one after the other, each on the state the
    one before has left. *)
Lemma for_each_process_file w self files st :
  for_each files (process_file w self) st
  = (Ok tt, foldl (fun st f => (process_file w self f st).2) st files).
Proof.
  revert st. induction files as [ | f files IH ]; intros st; [ reflexivity | ].
  rewrite for_each_cons, process_file_ok. simpl. apply IH.
Qed.

Lemma quiet_refl st : quiet st st.
Proof. repeat split. Qed.

Lemma quiet_trans a b c : quiet a b -> quiet b c -> quiet a c.
Proof.
  intros (H1 & H2 & H3 & H4) (H1' & H2' & H3' & H4').
  repeat split; congruence.
Qed.

Lemma only_prints_ret {A} (a : A) : only_prints (ret a).
Proof. intros st. exists a, st. split; [ reflexivity | apply quiet_refl ]. Qed.

Lemma only_prints_gets {A} (f : state -> A) : only_prints (gets f).
Proof. intros st. exists (f st), st. split; [ reflexivity | apply quiet_refl ]. Qed.

Lemma only_prints_print line : only_prints (print line).
Proof. intros st. eexists. eexists. split; [ reflexivity | repeat split ]. Qed.

Lemma only_prints_print_if b line : only_prints (print_if b line).
Proof. destruct b; [ apply only_prints_print | apply only_prints_ret ]. Qed.

Lemma only_prints_bind {A B} (m : M A) (k : A -> M B) :
  only_prints m -> (forall a, only_prints (k a)) -> only_prints (bind m k).
Proof.
  intros Hm Hk st. destruct (Hm st) as (a & st1 & H1 & Hq1).
  destruct (Hk a st1) as (b & st2 & H2 & Hq2).
  exists b, st2. unfold bind. rewrite H1.
  split; [ exact H2 | by apply (quiet_trans st st1 st2) ].
Qed.

Lemma only_prints_for_each {A} (l : list A) body :
  (forall x, only_prints (body x)) -> only_prints (for_each l body).
Proof.
  intros Hb. induction l as [ | x l IH ]; simpl; [ apply only_prints_ret | ].
  apply only_prints_bind; [ apply Hb | intros _; exact IH ].
Qed.

Ltac solve_only_prints :=
  repeat first
    [ apply only_prints_ret | apply only_prints_print_if
    | apply only_prints_print | apply only_prints_gets
    | apply only_prints_bind; [ | intros ? ] ].

Lemma announce_only_prints self : only_prints (announce self).
Proof. unfold announce. solve_only_prints. Qed.


Lemma cleanup_only_prints w self : only_prints (cleanup w self).
Proof.
  unfold cleanup. destruct (temp_dir self) as [d | ]; [ | apply only_prints_ret ].
  destruct (_ && _); [ | apply only_prints_ret ].
  intros st. step_monad.
  destruct (rmtree w d) as [[] | x]; cbv beta iota;
    [ destruct (verbose self); cbv beta iota | ];
    eexists; eexists; (split; [ reflexivity | repeat split ]).
Qed.

Lemma fold_each_returns {A B} (l : list A) (acc : B) body :
  (forall acc x, always_returns (body acc x)) ->
  always_returns (fold_each l acc body).
Proof.
  intros Hb. revert acc. induction l as [ | x l IH ]; intros acc; simpl.
  - apply ret_returns.
  - apply bind_returns; [ apply Hb | intros acc'; apply IH ].
Qed.

Lemma find_php_files_returns w self : always_returns (find_php_files w self).
Proof.
  unfold find_php_files.
  apply bind_returns; [ apply print_if_returns | intros _ ].
  apply bind_returns; [ | intros found; solve_returns ].
  apply fold_each_returns. intros found [root files].
  apply fold_each_returns. intros found' [name size]. unfold visit_file. simpl.
  destruct size as [size | ]; [ | apply ret_returns ].
  destruct (_ || _); [ apply ret_returns | ].
  apply bind_returns; [ | intros ?; solve_returns ].
  destruct (Py.endswith name ".php"); [ solve_returns | ].
  destruct (_ || _); solve_returns.
Qed.

Lemma bind_ok {A B} (m : M A) (k : A -> M B) st a st1 :
  m st = (Ok a, st1) -> bind m k st = k a st1.
Proof. intros H. unfold bind. by rewrite H. Qed.




Lemma static_read_succeeds w self file content st :
  read_text w file = Ok content ->
  extract_html_from_php_static w self file st = (Ok (combined_html content), st).
Proof.
  intros Hread. unfold extract_html_from_php_static.
  step_monad. by rewrite Hread.
Qed.




Lemma same_data_trans a b c : same_data a b -> same_data b c -> same_data a c.
Proof.
  intros (H1 & H2 & H3) (H1' & H2' & H3'). repeat split; congruence.
Qed.





(** ** Execution mode that is switched off stays off *)
















(** The guard of the probe catches nothing else: another [OSError], such
    as a refused permission, leaves [__init__]; and a probe that runs and
    ends with an error code raises nothing, so execution mode stays on. *)
Lemma other_probe_outcomes
    (w : world) (dir out php : string) (threads : nat) (loud : bool)
    (st : state) :
  path_exists w dir = true ->
  (forall msg,
     subprocess_run w [php; "--version"] = Err (OSError msg) ->
     (__init__ w dir out true php threads loud st).1 = Err (Exc (OSError msg))) /\
  (forall r,
     subprocess_run w [php; "--version"] = Ok r ->
     exists self st',
       __init__ w dir out true php threads loud st = (Ok self, st') /\
       execute_php self = true).
Proof.
  intros Hdir. unfold __init__. rewrite Hdir. simpl. step_monad.
  split.
  - intros msg ->. reflexivity.
  - intros r ->. eexists. eexists. split; reflexivity.
Qed.

(** ** The echo scenario *)

(** C6 as specified does not hold.  The file holds the statement alone,
    so no block is stripped: the statement stays in the text and its
    literal is added once more.  The markup is scanned twice, and the
    scanner selects two candidates, not one. *)
Lemma echo_statement_selects_two :
  let w := one_file_world echo_statement in
  php_html_sub echo_statement = echo_statement /\
  php_echo_findall echo_statement = [card_literal] /\
  extract_html_from_php_static w static_extractor "page.php" state0
  = (Ok (echo_statement +:+ " " +:+ card_literal), state0) /\
  select_elements
    (HtmlParser.html_parser (echo_statement +:+ " " +:+ card_literal))
  = ([card_node; card_node], 2).
Proof. vm_compute. repeat split. Qed.

(** C6, as the code has it.  With the statement alone in the file, the
    literal is recovered, two candidates are selected (the outer [div],
    twice), one is accepted into [cards] and one is a duplicate.  With the
    statement inside a PHP block, the block is stripped and exactly one
    candidate is selected, accepted and put into [cards].  In both cases
    nothing is executed. *)
Theorem echoed_card_is_extracted :
  (let run := process_file (one_file_world echo_statement) static_extractor
                           "page.php" state0 in
   php_echo_findall echo_statement = [card_literal] /\
   run.1 = Ok tt /\
   element_groups run.2 = [(cards, [(BeautifulSoupObject [card_node], "page.php")])] /\
   elements_found (stats run.2) = 2 /\
   unique_elements (stats run.2) = 1 /\
   duplicate_elements (stats run.2) = 1 /\
   php_files_executed (stats run.2) = 0) /\
  (let run := process_file (one_file_world echo_block) static_extractor
                           "page.php" state0 in
   php_html_sub echo_block = "" /\
   php_echo_findall echo_block = [card_literal] /\
   select_elements (HtmlParser.html_parser (" " +:+ card_literal))
   = ([card_node], 1) /\
   run.1 = Ok tt /\
   element_groups run.2 = [(cards, [(BeautifulSoupObject [card_node], "page.php")])] /\
   elements_found (stats run.2) = 1 /\
   unique_elements (stats run.2) = 1 /\
   duplicate_elements (stats run.2) = 0 /\
   php_files_executed (stats run.2) = 0).
Proof. vm_compute. repeat split. Qed.

(** ** Long texts *)

Lemma texts_in_shorten_texts n up :
  texts_in up (shorten_texts up n) = map shorten_rule (texts_in up n).
Proof.
  revert up.
  induction n as [ name attrs cs IH | s | s ] using node_rect_forall;
    intros up; simpl.
  - induction IH as [ | c cs Hc _ IHcs ]; simpl; [ reflexivity | ].
    rewrite map_app, Hc. f_equal. exact IHcs.
  - unfold shorten_rule, is_long_text, shortened, cdata_tags. simpl.
    by destruct (_ && _).
  - unfold shorten_rule, is_long_text, shortened, cdata_tags. simpl.
    by destruct (_ && _).
Qed.

Lemma lstrip_length s : String.length (Py.lstrip s) <= String.length s.
Proof.
  induction s as [ | c s IH ]; simpl; [ lia | ].
  destruct (Py.is_space c); simpl; lia.
Qed.

Lemma rstrip_length s : String.length (Py.rstrip s) <= String.length s.
Proof.
  induction s as [ | c s IH ]; simpl; [ lia | ].
  destruct (Py.rstrip s); simpl in *; [ destruct (Py.is_space c); simpl | ]; lia.
Qed.

Lemma strip_length s : String.length (Py.strip s) <= String.length s.
Proof.
  unfold Py.strip. etrans; [ apply rstrip_length | apply lstrip_length ].
Qed.

Lemma shorten_rule_short t :
  String.length t.2 <= 100 -> shorten_rule t = t.
Proof.
  intros H. destruct t as [up s]. unfold shorten_rule. simpl in *.
  pose proof (strip_length s).
  destruct (100 <? String.length (Py.strip s))%nat eqn:Hlong.
  - apply Nat.ltb_lt in Hlong. lia.
  - by rewrite andb_false_r.
Qed.

(** C7, as the code has it.  The last loop of [clean_element] goes over
    the text nodes of the copy, as the earlier loops have left them, and
    replaces a text node by its first 100 characters and three dots
    exactly when its parent is neither [script] nor [style] and its
    text, stripped of leading and trailing white space, is longer than 100
    characters.  Every other text node stays; among them all of 100
    characters or less. *)
Theorem long_text_is_shortened (w : world) (element cleaned : node) :
  clean_element w element = Ok cleaned ->
  exists element_copy,
    BeautifulSoup w (node_str element) = Ok element_copy /\
    let before :=
      below_root keep_attrs
        (below_root clear_scripts (remove_comments element_copy)) in
    texts_in "" cleaned = map shorten_rule (texts_in "" before) /\
    length (texts_in "" cleaned) = length (texts_in "" before) /\
    forall i up s,
      texts_in "" before !! i = Some (up, s) -> String.length s <= 100 ->
      texts_in "" cleaned !! i = Some (up, s).
Proof.
  unfold clean_element.
  destruct (BeautifulSoup w (node_str element)) as [copy | x]; [ | discriminate ].
  intros [= <-]. exists copy. split; [ reflexivity | ].
  unfold clean_copy. rewrite texts_in_shorten_texts.
  split; [ reflexivity | split; [ by rewrite length_map | ] ].
  intros i up s Hi Hs. rewrite list_lookup_fmap, Hi. simpl.
  by rewrite shorten_rule_short.
Qed.

Lemma long_text_is_shortened_witness :
  let w := one_file_world "" in
  let long := String.concat "" (replicate 120 "a") in
  let element := Tag "p" [("class", AttrList ["p-4"])] [NavigableString long] in
  exists cleaned,
    clean_element w element = Ok cleaned /\
    texts_in "" cleaned = [("p", Py.take 100 long +:+ "...")].
Proof.
  intros w long element.
  exists (BeautifulSoupObject
            [Tag "p" [("class", AttrList ["p-4"])]
                 [NavigableString (Py.take 100 long +:+ "...")]]).
  assert (clean_element w element
          = Ok (BeautifulSoupObject
                  [Tag "p" [("class", AttrList ["p-4"])]
                       [NavigableString (Py.take 100 long +:+ "...")]])) as H
    by (vm_compute; reflexivity).
  split; [ exact H | ].
  destruct (long_text_is_shortened w element _ H) as (copy & Hcopy & Ht & _).
  vm_compute in Hcopy. injection Hcopy as <-.
  rewrite Ht. vm_compute. reflexivity.
Defined.

(** C7 as specified does not hold, twice over: a text of 105 characters of
    which the last five are blanks is not shortened, and a text of 101
    characters below [style] is emptied, not shortened. *)
Lemma long_text_kept_or_cleared :
  let w := one_file_world "" in
  let padded := String.concat "" (replicate 100 "a") +:+ "     " in
  let css := String.concat "" (replicate 101 "a") in
  let element (text style : string) :=
    Tag "div" [("class", AttrList ["p-4"])]
        [Tag "p" [] [NavigableString text];
         Tag "style" [] [NavigableString style]] in
  String.length padded = 105 /\
  String.length css = 101 /\
  HtmlParser.html_parser (node_str (element padded css))
  = BeautifulSoupObject [element padded css] /\
  clean_element w (element padded css)
  = Ok (BeautifulSoupObject [element padded ""]).
Proof. vm_compute. repeat split. Qed.

(** ** Cleaning edits the copy alone *)

Section Frame.

(** The memory before [clean_element] is called. *)
Variable m0 : Dom.memory.

Local Abbreviation is_new := (Dom.is_new m0).
Local Abbreviation closed := (Dom.new_objects_closed m0).

Lemma closed_start : closed m0.
Proof. split; [ done | ]. intros a o Hn Hs. congruence. Qed.

Lemma closed_lookup_new m a o :
  closed m -> is_new a -> m !! a = Some o -> Forall is_new (Dom.refs o).
Proof. intros [_ H] Ha Ho. by apply (H a o). Qed.

Lemma closed_alter m f a :
  closed m -> is_new a ->
  (forall o, Forall is_new (Dom.refs o) -> Forall is_new (Dom.refs (f o))) ->
  closed (alter f a m).
Proof.
  intros [Hsub Hcl] Ha Hf. split.
  - apply map_subseteq_spec. intros i x Hi.
    rewrite lookup_alter_ne by (intros ->; unfold Dom.is_new in Ha; congruence).
    by apply (lookup_weaken m0 m).
  - intros b o Hb Hlook. destruct (decide (a = b)) as [<- | Hne].
    + rewrite lookup_alter_eq in Hlook.
      destruct (m !! a) as [o' | ] eqn:Hm; [ | discriminate ].
      injection Hlook as <-. apply Hf. by apply (Hcl a o').
    + rewrite lookup_alter_ne in Hlook by done. by apply (Hcl b o).
Qed.

Lemma closed_insert m n o :
  closed m -> is_new n -> Forall is_new (Dom.refs o) -> closed (<[n := o]> m).
Proof.
  intros [Hsub Hcl] Hn Ho. split.
  - by apply insert_subseteq_r.
  - intros b o' Hb Hlook. destruct (decide (n = b)) as [<- | Hne].
    + rewrite lookup_insert_eq in Hlook. by injection Hlook as <-.
    + rewrite lookup_insert_ne in Hlook by done. by apply (Hcl b o').
Qed.

Lemma fresh_is_new m : closed m -> is_new (fresh (dom m)).
Proof.
  intros [Hsub _]. unfold Dom.is_new. apply not_elem_of_dom.
  intros Hin. apply (is_fresh (dom m)). by apply (subseteq_dom m0 m).
Qed.

Lemma closed_contents_new m a :
  closed m -> is_new a -> Forall is_new (Dom.contents_at m a).
Proof.
  intros Hc Ha. unfold Dom.contents_at.
  destruct (m !! a) as [[[name attrs cs | s | s] up] | ] eqn:Hm;
    try constructor.
  pose proof (closed_lookup_new m a _ Hc Ha Hm) as H.
  unfold Dom.refs in H. simpl in H. apply Forall_app in H. tauto.
Qed.

Lemma closed_parent_new m a p :
  closed m -> is_new a -> Dom.parent_at m a = Some p -> is_new p.
Proof.
  intros Hc Ha. unfold Dom.parent_at.
  destruct (m !! a) as [o | ] eqn:Hm; [ | discriminate ].
  intros Hp. pose proof (closed_lookup_new m a o Hc Ha Hm) as H.
  unfold Dom.refs in H. rewrite Hp in H. by inversion H.
Qed.

Lemma descendants_at_new m fuel a :
  closed m -> is_new a -> Forall is_new (Dom.descendants_at fuel m a).
Proof.
  intros Hc. revert a. induction fuel as [ | fuel IH ]; intros a Ha; simpl;
    [ constructor | ].
  apply Forall_concat. apply Forall_fmap.
  eapply Forall_impl; [ by apply closed_contents_new | ].
  intros c Hnew. simpl. constructor; [ exact Hnew | by apply IH ].
Qed.

Lemma filter_new (P : nat -> Prop) `{forall a, Decision (P a)} l :
  Forall is_new l -> Forall is_new (filter P l).
Proof.
  rewrite !Forall_forall. intros Hl a Ha.
  apply list_elem_of_filter in Ha. apply Hl. tauto.
Qed.

Lemma foldl_closed {B} (step : Dom.memory -> B -> Dom.memory)
    (P : B -> Prop) l m :
  closed m -> Forall P l ->
  (forall m x, P x -> closed m -> closed (step m x)) ->
  closed (foldl step m l).
Proof.
  intros Hm Hl Hstep. revert m Hm.
  induction Hl as [ | x l Hx _ IH ]; intros m Hm; simpl; [ exact Hm | ].
  apply IH. by apply Hstep.
Qed.

Lemma refs_set_parent_none o :
  Forall is_new (Dom.refs o) -> Forall is_new (Dom.refs (Dom.set_parent None o)).
Proof.
  unfold Dom.refs, Dom.set_parent. simpl. intros H.
  apply Forall_app in H. tauto.
Qed.

Lemma refs_map_contents f o :
  (forall cs, Forall is_new cs -> Forall is_new (f cs)) ->
  Forall is_new (Dom.refs o) -> Forall is_new (Dom.refs (Dom.map_contents f o)).
Proof.
  intros Hf. unfold Dom.refs, Dom.map_contents.
  destruct o as [[name attrs cs | s | s] up]; simpl; try done.
  intros H. apply Forall_app in H as [H1 H2]. apply Forall_app. auto.
Qed.

Lemma refs_map_attrs f o :
  Forall is_new (Dom.refs o) -> Forall is_new (Dom.refs (Dom.map_attrs f o)).
Proof.
  unfold Dom.refs, Dom.map_attrs.
  by destruct o as [[name attrs cs | s | s] up].
Qed.

Lemma extract_closed m a : closed m -> is_new a -> closed (Dom.extract a m).
Proof.
  intros Hc Ha. unfold Dom.extract.
  destruct (m !! a) as [o | ] eqn:Hm; [ | exact Hc ].
  apply closed_alter; [ | exact Ha | apply refs_set_parent_none ].
  destruct (Dom.parent o) as [p | ] eqn:Hp; [ | exact Hc ].
  apply closed_alter; [ exact Hc | | ].
  - apply (closed_parent_new m a p Hc Ha). unfold Dom.parent_at. by rewrite Hm.
  - intros o'. apply refs_map_contents. intros cs. by apply filter_new.
Qed.

Lemma set_string_closed m a s :
  closed m -> is_new a -> closed (Dom.set_string a s m).
Proof.
  intros Hc Ha. unfold Dom.set_string.
  set (m1 := foldl _ m _).
  assert (closed m1) as Hc1.
  { unfold m1. apply (foldl_closed _ is_new); [ exact Hc | | ].
    - by apply closed_contents_new.
    - intros m' k Hk Hm'. apply closed_alter; [ done | done | ].
      apply refs_set_parent_none. }
  pose proof (fresh_is_new m1 Hc1) as Hn.
  apply closed_insert; [ | exact Hn | ].
  - apply closed_alter; [ exact Hc1 | exact Ha | ].
    intros o. apply refs_map_contents. intros _ _. by constructor.
  - unfold Dom.refs. simpl. by constructor.
Qed.

Lemma del_other_attrs_closed m a :
  closed m -> is_new a -> closed (Dom.del_other_attrs a m).
Proof.
  intros Hc Ha. unfold Dom.del_other_attrs.
  apply closed_alter; [ exact Hc | exact Ha | apply refs_map_attrs ].
Qed.

Lemma replace_with_closed m a s :
  closed m -> is_new a -> closed (Dom.replace_with a s m).
Proof.
  intros Hc Ha. unfold Dom.replace_with.
  destruct (Dom.parent_at m a) as [p | ] eqn:Hp; [ | exact Hc ].
  pose proof (closed_parent_new m a p Hc Ha Hp) as Hpn.
  pose proof (fresh_is_new m Hc) as Hn.
  apply closed_insert.
  - apply closed_alter; [ | exact Ha | apply refs_set_parent_none ].
    apply closed_alter; [ exact Hc | exact Hpn | ].
    intros o. apply refs_map_contents. intros cs Hcs.
    apply Forall_fmap. eapply Forall_impl; [ exact Hcs | ].
    intros k Hk. simpl. by case_bool_decide.
  - exact Hn.
  - unfold Dom.refs. simpl. by constructor.
Qed.

Lemma up_refs_new (up : option nat) :
  match up with Some p => is_new p | None => True end ->
  Forall is_new (match up with Some p => [p] | None => [] end).
Proof. destruct up; [ by constructor | constructor ]. Qed.

(** Storing a tree makes new objects only, and returns a new address. *)
Lemma store_tree_closed t up m :
  closed m -> match up with Some p => is_new p | None => True end ->
  closed (Dom.store_tree up t m).2 /\ is_new (Dom.store_tree up t m).1.
Proof.
  revert up m.
  induction t as [ name attrs cs IH | s | s ] using node_rect_forall;
    intros up m Hc Hup; pose proof (fresh_is_new m Hc) as Hn; simpl.
  - set (a := fresh (dom m)) in *.
    set (go := fix go (l : list node) (m : Dom.memory) :=
                 match l with
                 | [] => ([], m)
                 | c :: rest =>
                     let '(k, m1) := Dom.store_tree (Some a) c m in
                     let '(ks, m2) := go rest m1 in (k :: ks, m2)
                 end).
    assert (forall m', closed m' ->
              closed (go cs m').2 /\ Forall is_new (go cs m').1) as Hgo.
    { induction IH as [ | c cs Hc1 _ IHcs ]; intros m' Hm'; simpl;
        [ split; [ exact Hm' | constructor ] | ].
      destruct (Hc1 (Some a) m' Hm' Hn) as [H1 H2].
      destruct (Dom.store_tree (Some a) c m') as [k m1]. simpl in *.
      destruct (IHcs m1 H1) as [H3 H4].
      destruct (go cs m1) as [ks m2]. simpl in *.
      split; [ exact H3 | by constructor ]. }
    destruct (Hgo (<[a := Dom.Object (Dom.PTag name attrs []) up]> m)) as [H1 H2].
    { apply closed_insert; [ exact Hc | exact Hn | ].
      unfold Dom.refs. simpl. rewrite app_nil_r. by apply up_refs_new. }
    destruct (go cs _) as [kids m']. simpl in *.
    split; [ | exact Hn ].
    apply closed_insert; [ exact H1 | exact Hn | ].
    unfold Dom.refs. simpl. apply Forall_app. split; [ by apply up_refs_new | done ].
  - split; [ | exact Hn ]. apply closed_insert; [ exact Hc | exact Hn | ].
    unfold Dom.refs. simpl. rewrite app_nil_r. by apply up_refs_new.
  - split; [ | exact Hn ]. apply closed_insert; [ exact Hc | exact Hn | ].
    unfold Dom.refs. simpl. rewrite app_nil_r. by apply up_refs_new.
Qed.

Lemma found_below_new (P : nat -> Prop) `{forall a, Decision (P a)} m root :
  closed m -> is_new root -> Forall is_new (filter P (Dom.descendants m root)).
Proof. intros Hc Hr. apply filter_new. by apply descendants_at_new. Qed.

Lemma remove_comments_closed m root :
  closed m -> is_new root -> closed (Dom.remove_comments root m).
Proof.
  intros Hc Hr. unfold Dom.remove_comments.
  apply (foldl_closed _ is_new); [ exact Hc | by apply found_below_new | ].
  intros m' a Ha Hm'. by apply extract_closed.
Qed.

Lemma clear_scripts_closed m root :
  closed m -> is_new root -> closed (Dom.clear_scripts root m).
Proof.
  intros Hc Hr. unfold Dom.clear_scripts.
  apply (foldl_closed _ is_new); [ exact Hc | by apply found_below_new | ].
  intros m' a Ha Hm'. destruct (Dom.string_at _ _ _) as [s | ]; [ | exact Hm' ].
  destruct (Py.truthy s); [ by apply set_string_closed | exact Hm' ].
Qed.

Lemma keep_attrs_closed m root :
  closed m -> is_new root -> closed (Dom.keep_attrs root m).
Proof.
  intros Hc Hr. unfold Dom.keep_attrs.
  apply (foldl_closed _ is_new); [ exact Hc | by apply found_below_new | ].
  intros m' a Ha Hm'. by apply del_other_attrs_closed.
Qed.

Lemma shorten_texts_closed m root :
  closed m -> is_new root -> closed (Dom.shorten_texts root m).
Proof.
  intros Hc Hr. unfold Dom.shorten_texts.
  apply (foldl_closed _ is_new); [ exact Hc | by apply found_below_new | ].
  intros m' a Ha Hm'. destruct (Dom.text_at m' a) as [s | ]; [ | exact Hm' ].
  destruct (is_long_text _ s); [ by apply replace_with_closed | exact Hm' ].
Qed.

(** The memory after [clean_element]: the old objects as they were, and a
    copy that is made of new objects. *)
Lemma clean_element_closed w element r m' :
  Dom.clean_element w element m0 = (r, m') ->
  closed m' /\ forall element_copy, r = Ok element_copy -> is_new element_copy.
Proof.
  unfold Dom.clean_element.
  destruct (Dom.load m0 element) as [tree | ];
    [ | intros [= <- <-]; split; [ apply closed_start | discriminate ] ].
  destruct (BeautifulSoup w (node_str tree)) as [parsed | x];
    [ | intros [= <- <-]; split; [ apply closed_start | discriminate ] ].
  destruct (store_tree_closed parsed None m0 closed_start I) as [H1 H2].
  destruct (Dom.store_tree None parsed m0) as [element_copy m1]. simpl in *.
  intros [= <- <-]. split; [ | by intros ? [= <-] ].
  apply shorten_texts_closed; [ | exact H2 ].
  apply keep_attrs_closed; [ | exact H2 ].
  apply clear_scripts_closed; [ | exact H2 ].
  by apply remove_comments_closed.
Qed.

End Frame.

(** A tree that can be read from a memory can be read from a larger one,
    and with more fuel. *)
Lemma load_at_weaken fuel fuel' (m m' : Dom.memory) a t :
  m ⊆ m' -> fuel <= fuel' ->
  Dom.load_at fuel m a = Some t -> Dom.load_at fuel' m' a = Some t.
Proof.
  intros Hsub. revert fuel' a t.
  induction fuel as [ | fuel IH ]; intros fuel' a t Hle; [ discriminate | ].
  destruct fuel' as [ | fuel' ]; [ lia | ]. simpl.
  destruct (m !! a) as [[[name attrs cs | s | s] up] | ] eqn:Hm;
    [ | | | discriminate ];
    rewrite (lookup_weaken m m' a _ Hm Hsub); try done.
  destruct (mapM (Dom.load_at fuel m) cs) as [contents | ] eqn:Hcs;
    [ | discriminate ].
  intros [= <-].
  assert (mapM (Dom.load_at fuel' m') cs = Some contents) as ->; [ | done ].
  apply mapM_Some. apply mapM_Some in Hcs.
  eapply Forall2_impl; [ exact Hcs | ].
  intros c tc Hc. simpl in Hc. apply IH; [ lia | exact Hc ].
Qed.

Lemma load_weaken (m m' : Dom.memory) a t :
  m ⊆ m' -> Dom.load m a = Some t -> Dom.load m' a = Some t.
Proof.
  intros Hsub. unfold Dom.load. apply load_at_weaken; [ exact Hsub | ].
  pose proof (map_subseteq_size m m' Hsub). lia.
Qed.

(** C10.  [clean_element] edits a copy.  Every object that was in memory
    before the call (the element, the document around it and any other
    tree) is in memory after the call as it was; the copy that is
    returned is a new object, and so is everything below it.  So the tree
    read at any address is the same before and after, and with it the
    fingerprint and the category that are computed from it. *)
Theorem cleaning_leaves_the_document
    (w : world) (element : nat) (m m' : Dom.memory)
    (r : result exception nat) :
  Dom.clean_element w element m = (r, m') ->
  (forall a o, m !! a = Some o -> m' !! a = Some o) /\
  (forall element_copy, r = Ok element_copy ->
     m !! element_copy = None /\
     Forall (fun d => m !! d = None) (Dom.descendants m' element_copy)) /\
  (forall a tree, Dom.load m a = Some tree ->
     Dom.load m' a = Some tree /\
     hash_element <$> Dom.load m' a = Some (hash_element tree) /\
     classify_element <$> Dom.load m' a = Some (classify_element tree)).
Proof.
  intros Hclean.
  destruct (clean_element_closed m w element r m' Hclean) as [Hc Hcopy].
  pose proof Hc as [Hsub _].
  split; [ | split ].
  - intros a o Ha. by apply (lookup_weaken m m').
  - intros c ->. pose proof (Hcopy c eq_refl) as Hnew.
    split; [ exact Hnew | ]. by apply descendants_at_new.
  - intros a tree Hload. rewrite (load_weaken m m' a tree Hsub Hload). done.
Qed.

Lemma cleaning_leaves_the_document_witness :
  let w := one_file_world "" in
  let document :=
    HtmlParser.html_parser
      "<div class='p-4' onclick='x()'><!-- c --><b title='t'>hi</b></div><p class='m-2'>x</p>" in
  let m := (Dom.store_tree None document ∅).2 in
  Dom.load (Dom.clean_element w 1 m).2 0 = Some document.
Proof.
  intros w document m.
  destruct (cleaning_leaves_the_document w 1 m
              (Dom.clean_element w 1 m).2 (Dom.clean_element w 1 m).1)
    as (_ & _ & H).
  - destruct (Dom.clean_element w 1 m). reflexivity.
  - apply (H 0 document). vm_compute. reflexivity.
Defined.

(** The loops in memory and the passes over the tree give the same
    cleaned element: a document with a comment, attributes to drop, a
    script, a style sheet and a long text, cleaned at its first tag. *)
Example in_place_agrees_with_passes :
  let w := one_file_world "" in
  let long := String.concat "" (replicate 120 "a") in
  let document :=
    HtmlParser.html_parser
      ("<div class='p-4' onclick='x()' id='i'><!-- c --><p>" +:+ long +:+
       "</p><script>var x;</script><style></style>  <b title='t'>hi</b></div>") in
  let m := (Dom.store_tree None document ∅).2 in
  match Dom.load m 1 with
  | Some element =>
      match Dom.clean_element w 1 m with
      | (Ok element_copy, m') => Dom.load m' element_copy
      | _ => None
      end
      = match clean_element w element with
        | Ok cleaned => Some cleaned
        | Err _ => None
        end /\
      Dom.load (Dom.clean_element w 1 m).2 1 = Some element
  | None => False
  end.
Proof. vm_compute. split; reflexivity. Qed.

(** The same on copies that no parser builds: tags and comments below
    [script] and [style], only children in a chain, long comments. *)
Example in_place_agrees_on_other_shapes :
  let long := String.concat "" (replicate 120 "a") in
  forallb cleaned_alike
    [ BeautifulSoupObject
        [ Tag "script" [("x", AttrStr "1")] [Tag "style" [] [NavigableString "css"]];
          Comment long; NavigableString long ];
      BeautifulSoupObject
        [ Tag "script" []
            [ Tag "b" [("onclick", AttrStr "1"); ("id", AttrStr "k")]
                  [Tag "style" [] [Comment "c"]];
              NavigableString long ];
          Tag "div" [] [Comment "a"; Comment "b"; NavigableString "x"; Comment long] ];
      BeautifulSoupObject
        [ Tag "style" [] [Tag "script" [] [NavigableString long; Comment "z"]];
          Tag "style" [] [Tag "b" [] [NavigableString long]];
          Tag "script" [] [Comment "only"] ];
      BeautifulSoupObject
        [ Tag "div" []
            [ Tag "script" [] [NavigableString long; Tag "i" [] [NavigableString long]];
              NavigableString ("  " +:+ long +:+ "  ") ] ] ]
  = true.
Proof. vm_compute. reflexivity. Qed.

(** * Further properties of the code *)

(** ** The search for files *)

Lemma with_stats_id st : with_stats (fun s => s) st = st.
Proof. by destruct st. Qed.

Lemma with_stats_compose f g st :
  with_stats f (with_stats g st) = with_stats (fun s => f (g s)) st.
Proof. reflexivity. Qed.

Lemma visit_file_spec root found file st :
  visit_file root found file st
  = (Ok (found_after root found file), with_stats (count_file file) st).
Proof.
  unfold visit_file, found_after, count_file, is_scanned, is_php, is_markup.
  destruct file as [name [size | ]]; simpl; [ | by rewrite with_stats_id ].
  destruct (size_limit <? size)%N; simpl; [ by rewrite with_stats_id | ].
  destruct (Py.startswith name "."); simpl; [ by rewrite with_stats_id | ].
  destruct (Py.endswith name ".php"); simpl; [ reflexivity | ].
  destruct (_ || _); simpl; [ reflexivity | ].
  destruct found; reflexivity.
Qed.

Lemma fold_visit_file root files found st :
  fold_each files found (visit_file root) st
  = (Ok (foldl (found_after root) found files),
     with_stats (count_files files) st).
Proof.
  revert found st. induction files as [ | file files IH ]; intros found st; simpl.
  - unfold ret. by rewrite with_stats_id.
  - unfold bind. rewrite visit_file_spec, IH. reflexivity.
Qed.

Lemma fold_walk (entries : list (string * list (string * option N))) found st :
  fold_each entries found
    (fun found entry => fold_each entry.2 found (visit_file entry.1)) st
  = (Ok (foldl (fun found entry => foldl (found_after entry.1) found entry.2)
               found entries),
     with_stats (fun s => foldl (fun s entry => count_files entry.2 s) s entries)
                st).
Proof.
  revert found st. induction entries as [ | entry entries IH ]; intros found st; simpl.
  - unfold ret. by rewrite with_stats_id.
  - unfold bind. rewrite fold_visit_file, IH. reflexivity.
Qed.

Lemma is_php_not_markup file : is_php file = true -> is_markup file = false.
Proof. unfold is_php, is_markup. by intros ->. Qed.

Lemma found_after_files root files found :
  foldl (found_after root) found files
  = (found.1 ++ php_of (with_paths root files),
     found.2 ++ markup_of (with_paths root files)).
Proof.
  revert found. induction files as [ | file files IH ]; intros found; simpl.
  - unfold php_of, markup_of. simpl. rewrite !app_nil_r. by destruct found.
  - rewrite IH. unfold found_after, php_of, markup_of, with_paths. simpl.
    rewrite !filter_cons. simpl.
    destruct (is_scanned file) eqn:Hs; simpl; [ | reflexivity ].
    rewrite !filter_cons. simpl.
    destruct (is_php file) eqn:Hp; simpl.
    + rewrite (is_php_not_markup _ Hp). simpl. by rewrite <- app_assoc.
    + destruct (is_markup file); simpl; [ by rewrite <- app_assoc | reflexivity ].
Qed.

Lemma php_of_app l1 l2 : php_of (l1 ++ l2) = php_of l1 ++ php_of l2.
Proof. unfold php_of. by rewrite !filter_app, map_app. Qed.

Lemma markup_of_app l1 l2 : markup_of (l1 ++ l2) = markup_of l1 ++ markup_of l2.
Proof. unfold markup_of. by rewrite !filter_app, map_app. Qed.

Lemma found_after_walk (entries : list (string * list (string * option N))) found :
  foldl (fun found entry => foldl (found_after entry.1) found entry.2)
        found entries
  = (found.1 ++ php_of (concat (map (fun entry => with_paths entry.1 entry.2) entries)),
     found.2 ++ markup_of (concat (map (fun entry => with_paths entry.1 entry.2) entries))).
Proof.
  revert found. induction entries as [ | entry entries IH ]; intros found; simpl.
  - unfold php_of, markup_of. simpl. rewrite !app_nil_r. by destruct found.
  - rewrite IH, found_after_files. simpl.
    by rewrite php_of_app, markup_of_app, !app_assoc.
Qed.

Lemma counted_zero s : counted s 0 0 0 = s.
Proof. destruct s. unfold counted. simpl. by rewrite !Nat.add_0_r. Qed.

Lemma count_files_counted root files s :
  count_files files s
  = counted s (length (scanned_of (with_paths root files)))
              (length (php_of (with_paths root files)))
              (length (markup_of (with_paths root files))).
Proof.
  revert s. induction files as [ | file files IH ]; intros s.
  - simpl. by rewrite counted_zero.
  - unfold count_files in *. simpl. rewrite IH.
    unfold count_file, scanned_of, php_of, markup_of, with_paths. simpl.
    rewrite !filter_cons. simpl.
    destruct (is_scanned file) eqn:Hs; simpl; [ | reflexivity ].
    rewrite !filter_cons. simpl.
    destruct (is_php file) eqn:Hp; simpl.
    + rewrite (is_php_not_markup _ Hp). unfold counted. simpl.
      f_equal; lia.
    + destruct (is_markup file); unfold counted; simpl; f_equal; lia.
Qed.

Lemma scanned_of_app l1 l2 : scanned_of (l1 ++ l2) = scanned_of l1 ++ scanned_of l2.
Proof. unfold scanned_of. by rewrite filter_app. Qed.

Lemma counted_counted s a b c a' b' c' :
  counted (counted s a b c) a' b' c' = counted s (a + a') (b + b') (c + c').
Proof. unfold counted. simpl. f_equal; lia. Qed.

Lemma count_walk_counted (entries : list (string * list (string * option N))) s :
  let all := concat (map (fun entry => with_paths entry.1 entry.2) entries) in
  foldl (fun s entry => count_files entry.2 s) s entries
  = counted s (length (scanned_of all)) (length (php_of all))
              (length (markup_of all)).
Proof.
  revert s. induction entries as [ | entry entries IH ]; intros s; simpl.
  - by rewrite counted_zero.
  - simpl in IH. rewrite IH, (count_files_counted entry.1), counted_counted.
    by rewrite scanned_of_app, php_of_app, markup_of_app, !length_app.
Qed.

Lemma files_under_walk root d :
  files_under root d
  = concat (map (fun entry => with_paths entry.1 entry.2) (walk root d)).
Proof. reflexivity. Qed.

(** What the search returns and counts. *)
Lemma find_php_files_spec (w : world) (self : extractor) (st : state) :
  let files := files_under (project_dir self) (listing w (project_dir self)) in
  exists st',
    find_php_files w self st = (Ok (php_of files, markup_of files), st') /\
    stats st' = counted (stats st) (length (scanned_of files))
                        (length (php_of files)) (length (markup_of files)) /\
    element_hashes st' = element_hashes st /\
    element_groups st' = element_groups st /\
    written st' = written st.
Proof.
  intros files. unfold find_php_files.
  destruct (print_if_returns (verbose self)
              ("Scanning directory: " +:+ project_dir self) st) as ([] & st1 & H1).
  assert (quiet st st1) as Hq1.
  { destruct (only_prints_print_if (verbose self)
                ("Scanning directory: " +:+ project_dir self) st)
      as (? & ? & H & Hq). rewrite H1 in H. by injection H as _ <-. }
  rewrite (bind_ok _ _ _ _ _ H1), (bind_ok _ _ _ _ _ (fold_walk _ _ _)).
  rewrite found_after_walk, <- files_under_walk. fold files. simpl.
  set (st2 := with_stats _ st1).
  destruct (only_prints_print_if (verbose self)
              ("Found " +:+ pretty (length (php_of files)) +:+
               " PHP files and " +:+ pretty (length (markup_of files)) +:+
               " HTML files") st2) as ([] & st3 & H3 & Hq3).
  exists st3. rewrite (bind_ok _ _ _ _ _ H3).
  split; [ reflexivity | ].
  destruct Hq1 as (A1 & A2 & A3 & A4), Hq3 as (B1 & B2 & B3 & B4).
  rewrite <- B1, <- B2, <- B3, <- B4. subst st2. simpl.
  rewrite <- A3, A1, A2, A4.
  split; [ | done ].
  rewrite count_walk_counted, <- files_under_walk. reflexivity.
Qed.

Lemma directory_ind_forall (P : directory -> Prop) :
  (forall files dirs, Forall (fun nd => P nd.2) dirs -> P (Directory files dirs)) ->
  forall d, P d.
Proof.
  intros H. fix IH 1. intros [files dirs]. apply H.
  induction dirs as [ | [name sub] dirs IHdirs ]; constructor.
  - apply IH.
  - exact IHdirs.
Qed.

Lemma walk_eq root files dirs :
  walk root (Directory files dirs)
  = (root, files) :: concat (map (walk_into root) dirs).
Proof.
  cbn [walk]. f_equal.
  induction dirs as [ | [name sub] dirs IH ]; [ reflexivity | ].
  cbn [map concat]. rewrite <- IH. reflexivity.
Qed.

Lemma walk_entered top d :
  forall root, entered top root ->
  Forall (fun entry => entered top entry.1) (walk root d).
Proof.
  induction d as [files dirs IH] using directory_ind_forall.
  intros root Hroot. rewrite walk_eq. constructor; [ exact Hroot | ].
  induction IH as [ | [name sub] dirs Hsub _ IHdirs ]; [ constructor | ].
  cbn [map concat]. apply Forall_app. split; [ | exact IHdirs ].
  unfold walk_into. cbn [fst snd] in *.
  destruct (Py.in_list name skip_folders) eqn:Hskip; [ constructor | ].
  destruct (Py.startswith name ".") eqn:Hdot; [ constructor | ].
  apply Hsub. by constructor.
Qed.

Lemma files_under_entered top d :
  Forall (fun pf => exists root files,
            (root, files) ∈ walk top d /\ pf.2 ∈ files /\
            pf.1 = path_join root pf.2.1 /\ entered top root)
         (files_under top d).
Proof.
  unfold files_under.
  pose proof (walk_entered top d top (entered_top top)) as Hw.
  revert Hw. generalize (walk top d). intros entries Hw.
  induction Hw as [ | [root files] entries He _ IH ]; simpl; [ constructor | ].
  apply Forall_app. split.
  - apply Forall_forall. intros pf Hin.
    apply list_elem_of_fmap in Hin as (file & -> & Hfile). simpl in *.
    exists root, files. repeat split; try done. apply list_elem_of_here.
  - eapply Forall_impl; [ exact IH | ].
    intros pf (root' & files' & H1 & H2 & H3 & H4).
    exists root', files'. repeat split; try done. by apply list_elem_of_further.
Qed.

Lemma is_scanned_not_hidden file :
  is_scanned file = true -> Py.startswith file.1 "." = false.
Proof.
  unfold is_scanned. destruct file.2; [ | discriminate ].
  intros H. apply andb_true_iff in H as [_ H]. by apply negb_true_iff.
Qed.



(** ** The steps of a run, by the updates they are made of *)

Section Steps.

Variable R : state -> state -> Prop.
Hypothesis R_refl : forall st, R st st.
Hypothesis R_trans : forall a b c, R a b -> R b c -> R a c.

Lemma steps_ret {A} (a : A) : steps_in R (ret a).
Proof. intros st. apply R_refl. Qed.

Lemma steps_raise {A} e : steps_in R (raise (A:=A) e).
Proof. intros st. apply R_refl. Qed.

Lemma steps_call {A} (r : result exception A) : steps_in R (call r).
Proof. intros st. destruct r; apply R_refl. Qed.

Lemma steps_gets {A} (f : state -> A) : steps_in R (gets f).
Proof. intros st. apply R_refl. Qed.

Lemma steps_bind {A B} (m : M A) (k : A -> M B) :
  steps_in R m -> (forall a, steps_in R (k a)) -> steps_in R (bind m k).
Proof.
  intros Hm Hk st. unfold bind. specialize (Hm st).
  destruct (m st) as [[a | x] st1]; simpl in *; [ | exact Hm ].
  eapply R_trans; [ exact Hm | apply Hk ].
Qed.

Lemma steps_try_except {A} (body : M A) handler :
  steps_in R body -> (forall e, steps_in R (handler e)) ->
  steps_in R (try_except body handler).
Proof.
  intros Hb Hh st. unfold try_except. specialize (Hb st).
  destruct (body st) as [[a | [e | c]] st1]; simpl in *; try exact Hb.
  eapply R_trans; [ exact Hb | apply Hh ].
Qed.

Lemma steps_try_finally {A} (body : M A) final :
  steps_in R body -> steps_in R final -> steps_in R (try_finally body final).
Proof.
  intros Hb Hf st. unfold try_finally. specialize (Hb st).
  destruct (body st) as [r st1]. specialize (Hf st1).
  destruct (final st1) as [[[] | x] st2]; simpl in *;
    eapply R_trans; eassumption.
Qed.

Lemma steps_for_each {A} (l : list A) body :
  (forall x, steps_in R (body x)) -> steps_in R (for_each l body).
Proof.
  intros Hb. induction l as [ | x l IH ]; simpl; [ apply steps_ret | ].
  apply steps_bind; [ apply Hb | intros _; exact IH ].
Qed.

Lemma steps_fold_each {A B} (l : list A) (acc : B) body :
  (forall acc x, steps_in R (body acc x)) -> steps_in R (fold_each l acc body).
Proof.
  intros Hb. revert acc. induction l as [ | x l IH ]; intros acc; simpl;
    [ apply steps_ret | ].
  apply steps_bind; [ apply Hb | intros acc'; apply IH ].
Qed.

(** The step under the lock, from the updates it is made of. *)
Section Element.

Hypothesis R_hash : forall h st, R st (add_hash h st).
Hypothesis R_group : forall c x st, R st (append_group c x st).
Hypothesis R_unique : forall st, R st (with_stats incr_unique_elements st).
Hypothesis R_duplicate : forall st, R st (with_stats incr_duplicate_elements st).

Lemma process_element_steps w e f : steps_in R (process_element w e f).
Proof.
  unfold process_element.
  destruct (hash_element e) as [h | ]; [ | apply steps_ret ].
  destruct (Py.truthy h); simpl; [ | apply steps_ret ].
  apply steps_bind; [ apply steps_gets | ].
  intros seen. destruct seen; simpl.
  - intros st. apply R_duplicate.
  - apply steps_bind; [ intros st; apply R_hash | intros _ ].
    apply steps_bind; [ apply steps_call | intros cleaned ].
    apply steps_bind; [ apply steps_call | intros c ].
    apply steps_bind; [ intros st; apply R_group | intros _ ].
    intros st. apply R_unique.
Qed.

End Element.

(** The unit of work of a file, from the steps it is made of. *)
Section Unit.

Variable w : world.
Variable self : extractor.
Hypothesis R_say : forall line, steps_in R (print_if (verbose self) line).
Hypothesis R_element : forall e f, steps_in R (process_element w e f).
Hypothesis R_found :
  forall k st, R st (with_stats (add_elements_found k) st).
Hypothesis R_execute : forall f, steps_in R (execute_php_file w self f).

Lemma scan_document_steps html f : steps_in R (scan_document w html f).
Proof.
  unfold scan_document. apply steps_bind; [ apply steps_call | ].
  intros soup. destruct (select_elements soup) as [significant total].
  apply steps_bind; [ apply steps_for_each; intros e; apply R_element | ].
  intros _. apply steps_bind; [ intros st; apply R_found | ].
  intros _. apply steps_ret.
Qed.

Lemma extract_elements_from_html_steps html f :
  steps_in R (extract_elements_from_html w self html f).
Proof.
  unfold extract_elements_from_html.
  destruct (_ || _); [ apply steps_ret | ].
  apply steps_try_except; [ apply scan_document_steps | ].
  intros e. apply steps_bind; [ apply R_say | intros _; apply steps_ret ].
Qed.

Lemma extract_html_from_php_static_steps f :
  steps_in R (extract_html_from_php_static w self f).
Proof.
  unfold extract_html_from_php_static. apply steps_try_except.
  - apply steps_bind; [ apply steps_call | intros c; apply steps_ret ].
  - intros e. apply steps_bind; [ apply R_say | intros _; apply steps_ret ].
Qed.

Lemma report_found_steps n how f : steps_in R (report_found w self n how f).
Proof.
  unfold report_found. destruct (_ <? _)%nat; [ apply R_say | apply steps_ret ].
Qed.

Lemma process_file_steps f : steps_in R (process_file w self f).
Proof.
  unfold process_file. apply steps_try_except; [ | intros e; apply R_say ].
  destruct (Py.endswith f ".php").
  - apply steps_bind; [ apply extract_html_from_php_static_steps | ].
    intros html. apply steps_bind; [ apply extract_elements_from_html_steps | ].
    intros n. apply steps_bind; [ | intros _; apply report_found_steps ].
    destruct (execute_php self); [ | apply steps_ret ].
    apply steps_bind; [ apply R_execute | ].
    intros html'. apply steps_bind; [ apply extract_elements_from_html_steps | ].
    intros n'. apply report_found_steps.
  - apply steps_try_except; [ | intros e; apply R_say ].
    apply steps_bind; [ apply steps_call | ].
    intros html. apply steps_bind; [ apply extract_elements_from_html_steps | ].
    intros n. apply report_found_steps.
Qed.

End Unit.

End Steps.

(** ** The PHP files that are run *)












(** One call of [execute_php_file] in execution mode: what it returns and
    what it counts. *)
Lemma execute_php_file_cases w self file st :
  execute_php self = true ->
  exists html st',
    execute_php_file w self file st = (Ok html, st') /\
    element_hashes st' = element_hashes st /\
    element_groups st' = element_groups st /\
    written st' = written st /\
    ((exists r, path_exists w file = true /\
                subprocess_run w [php_path self; file] = Ok r /\
                returncode r = 0%Z /\ html = stdout r /\
                stats st' = incr_php_files_executed (stats st) /\
                printed st' = printed st) \/
     (html = "" /\ stats st' = incr_execution_errors (stats st) /\
      (path_exists w file = false \/
       (exists e, subprocess_run w [php_path self; file] = Err e) \/
       (exists r, subprocess_run w [php_path self; file] = Ok r /\
                  returncode r <> 0%Z)))).
Proof.
  intros Hon. unfold execute_php_file. rewrite Hon. simpl. step_monad.
  destruct (path_exists w file) eqn:Hpath; simpl.
  - destruct (subprocess_run w [php_path self; file]) as [r | x] eqn:Hrun;
      cbv beta iota.
    + destruct (returncode r =? 0)%Z eqn:Hz; cbv beta iota.
      * eexists. eexists. split; [ reflexivity | ]. simpl.
        do 3 (split; [ reflexivity | ]). left. exists r.
        apply Z.eqb_eq in Hz. done.
      * apply Z.eqb_neq in Hz.
        destruct (verbose self); cbv beta iota; eexists; eexists;
          (split; [ reflexivity | ]); simpl;
          do 3 (split; [ reflexivity | ]); right;
          (split; [ reflexivity | ]); (split; [ reflexivity | ]);
          right; right; by exists r.
    + destruct (verbose self); cbv beta iota; eexists; eexists;
        (split; [ reflexivity | ]); simpl;
        do 3 (split; [ reflexivity | ]); right;
        (split; [ reflexivity | ]); (split; [ reflexivity | ]);
        right; left; by exists x.
  - eexists. eexists. split; [ reflexivity | ]. simpl.
    do 3 (split; [ reflexivity | ]). right. auto.
Qed.

(** X2.  One call of [execute_php_file] never raises and counts exactly
    once.  With execution mode off it returns no markup and leaves the
    state as it is.  With execution mode on, either the file exists, PHP
    ran and ended with code 0: the output is returned, [php_files_executed]
    grows by one and nothing is printed; or no markup is returned and
    [execution_errors] grows by one: the file does not exist, the process
    could not be run or timed out, or it ended with another code.  The
    index, the groups and the written files stay as they are. *)
Theorem execution_is_counted_once
    (w : world) (self : extractor) (file : string) (st : state) :
  exists html st',
    execute_php_file w self file st = (Ok html, st') /\
    element_hashes st' = element_hashes st /\
    element_groups st' = element_groups st /\
    written st' = written st /\
    if execute_php self then
      (exists r, path_exists w file = true /\
                 subprocess_run w [php_path self; file] = Ok r /\
                 returncode r = 0%Z /\ html = stdout r /\
                 stats st' = incr_php_files_executed (stats st) /\
                 printed st' = printed st) \/
      (html = "" /\ stats st' = incr_execution_errors (stats st) /\
       (path_exists w file = false \/
        (exists e, subprocess_run w [php_path self; file] = Err e) \/
        (exists r, subprocess_run w [php_path self; file] = Ok r /\
                   returncode r <> 0%Z)))
    else html = "" /\ st' = st.
Proof.
  destruct (execute_php self) eqn:Hon.
  - destruct (execute_php_file_cases w self file st Hon)
      as (html & st' & H1 & H2 & H3 & H4 & H5).
    exists html, st'. repeat (split; [ assumption | ]). exact H5.
  - exists "", st. unfold execute_php_file. rewrite Hon. by repeat split.
Qed.





(** ** Suffixes of paths *)

Lemma string_length_append (s t : string) :
  String.length (s +:+ t) = String.length s + String.length t.
Proof. induction s as [ | c s IH ]; simpl; [ reflexivity | by rewrite IH ]. Qed.

Lemma string_drop_append (s t : string) (k : nat) :
  Py.drop (String.length s + k) (s +:+ t) = Py.drop k t.
Proof. induction s as [ | c s IH ]; simpl; [ reflexivity | exact IH ]. Qed.

Lemma string_length_drop (k : nat) (s : string) :
  String.length (Py.drop k s) = String.length s - k.
Proof.
  revert s. induction k as [ | k IH ]; intros s; simpl; [ lia | ].
  destruct s as [ | c s ]; simpl; [ reflexivity | apply IH ].
Qed.

Lemma endswith_length s suffix :
  Py.endswith s suffix = true -> String.length suffix <= String.length s.
Proof.
  unfold Py.endswith. intros H. apply String.eqb_eq in H.
  apply (f_equal String.length) in H. rewrite string_length_drop in H. lia.
Qed.

(** The suffix of a path is that of its last component, when the
    component is long enough. *)
Lemma endswith_append p s suffix :
  String.length suffix <= String.length s ->
  Py.endswith (p +:+ s) suffix = Py.endswith s suffix.
Proof.
  intros Hlen. unfold Py.endswith. rewrite string_length_append.
  replace (String.length p + String.length s - String.length suffix)
    with (String.length p + (String.length s - String.length suffix)) by lia.
  by rewrite string_drop_append.
Qed.

Lemma string_append_assoc (a b c : string) : (a +:+ b) +:+ c = a +:+ (b +:+ c).
Proof.
  induction a as [ | x a IH ]; [ reflexivity | ].
  change (String x ((a +:+ b) +:+ c) = String x (a +:+ (b +:+ c))).
  by rewrite IH.
Qed.

Lemma path_join_append root name : exists p, path_join root name = p +:+ name.
Proof.
  unfold path_join. destruct (Py.endswith root "/").
  - by exists root.
  - exists (root +:+ "/"). symmetry. apply string_append_assoc.
Qed.

Lemma endswith_path_join root name suffix :
  String.length suffix <= String.length name ->
  Py.endswith (path_join root name) suffix = Py.endswith name suffix.
Proof.
  intros Hlen. destruct (path_join_append root name) as [p ->].
  by apply endswith_append.
Qed.

Lemma is_php_path root file :
  is_php file = true -> Py.endswith (path_join root file.1) ".php" = true.
Proof.
  unfold is_php. intros H. rewrite endswith_path_join; [ exact H | ].
  by apply endswith_length.
Qed.

Lemma is_markup_path root file :
  is_markup file = true -> Py.endswith (path_join root file.1) ".php" = false.
Proof.
  unfold is_markup. intros H. apply andb_true_iff in H as [Hphp Hext].
  apply negb_true_iff in Hphp.
  rewrite endswith_path_join; [ exact Hphp | ].
  apply orb_true_iff in Hext as [Hext | Hext];
    [ apply orb_true_iff in Hext as [Hext | Hext] | ];
    apply endswith_length in Hext; simpl in *; lia.
Qed.

Lemma files_under_paths top d :
  Forall (fun pf => exists root, pf.1 = path_join root pf.2.1) (files_under top d).
Proof.
  eapply Forall_impl; [ apply files_under_entered | ].
  intros pf (root & _ & _ & _ & H & _). by exists root.
Qed.

Lemma php_of_paths top d :
  Forall (fun path => Py.endswith path ".php" = true) (php_of (files_under top d)).
Proof.
  pose proof (files_under_paths top d) as Hall. rewrite Forall_forall in Hall.
  apply Forall_forall. intros path Hin.
  apply list_elem_of_fmap in Hin as ([p file] & -> & Hin).
  apply list_elem_of_filter in Hin as [Hphp Hin].
  apply list_elem_of_filter in Hin as [_ Hin].
  destruct (Hall _ Hin) as (root & Hp). simpl in *. subst p.
  apply is_php_path. by apply Is_true_eq_true.
Qed.

Lemma markup_of_paths top d :
  Forall (fun path => Py.endswith path ".php" = false)
         (markup_of (files_under top d)).
Proof.
  pose proof (files_under_paths top d) as Hall. rewrite Forall_forall in Hall.
  apply Forall_forall. intros path Hin.
  apply list_elem_of_fmap in Hin as ([p file] & -> & Hin).
  apply list_elem_of_filter in Hin as [Hm Hin].
  apply list_elem_of_filter in Hin as [_ Hin].
  destruct (Hall _ Hin) as (root & Hp). simpl in *. subst p.
  apply is_markup_path. by apply Is_true_eq_true.
Qed.

Lemma php_markup_scanned (l : list (string * (string * option N))) :
  length (php_of l) + length (markup_of l) <= length (scanned_of l).
Proof.
  unfold php_of, markup_of, scanned_of. rewrite !length_map.
  induction (filter (fun pf => is_scanned pf.2) l) as [ | pf l' IH ];
    [ simpl; lia | ].
  rewrite !filter_cons.
  destruct (is_php pf.2) eqn:Hp; simpl.
  - rewrite (is_php_not_markup _ Hp). simpl. lia.
  - destruct (is_markup pf.2); simpl; lia.
Qed.

(** X3.  The search returns, in the order of the walk, the paths of the
    files that are not skipped and whose name ends in [.php], and those
    whose name ends in [.html], [.htm] or [.tpl] and not in [.php];
    [files_scanned] grows by the number of files not skipped, whatever
    their name, and [php_files_found] and [html_files_found] by the
    lengths of the two lists, which together are no longer than the list
    of the files scanned.  The paths of the first list end in [.php] and
    those of the second do not.  Nothing else of the state changes but
    the printed lines. *)
Theorem search_returns_the_scanned_files
    (w : world) (self : extractor) (st : state) :
  let files := files_under (project_dir self) (listing w (project_dir self)) in
  exists st',
    find_php_files w self st = (Ok (php_of files, markup_of files), st') /\
    stats st' = counted (stats st) (length (scanned_of files))
                        (length (php_of files)) (length (markup_of files)) /\
    element_hashes st' = element_hashes st /\
    element_groups st' = element_groups st /\
    written st' = written st /\
    Forall (fun path => Py.endswith path ".php" = true) (php_of files) /\
    Forall (fun path => Py.endswith path ".php" = false) (markup_of files) /\
    length (php_of files) + length (markup_of files) <= length (scanned_of files).
Proof.
  intros files.
  destruct (find_php_files_spec w self st) as (st' & H1 & H2 & H3 & H4 & H5).
  exists st'. do 5 (split; [ assumption | ]).
  split; [ apply php_of_paths | ].
  split; [ apply markup_of_paths | apply php_markup_scanned ].
Qed.










Lemma quiet_attempted a b : quiet a b -> attempted a = attempted b.
Proof. intros (_ & _ & H & _). unfold attempted. by rewrite H. Qed.



(** ** The collection, whatever fails *)

Lemma category_eqb_eq a b : category_eqb a b = true <-> a = b.
Proof.
  split; [ | intros ->; apply String.eqb_refl ].
  destruct a, b; (reflexivity || discriminate).
Qed.


Lemma category_eqb_neq a b : category_eqb a b = false <-> a <> b.
Proof.
  rewrite <- category_eqb_eq. destruct (category_eqb a b); split; congruence.
Qed.

(** Appending to a group and reading it back. *)
Lemma group_of_groups_append c c' x g :
  group_of c (groups_append c' x g)
  = if category_eqb c c' then group_of c g ++ [x] else group_of c g.
Proof.
  induction g as [ | [k l] g IH ]; simpl.
  - destruct (category_eqb c c'); reflexivity.
  - destruct (category_eqb c' k) eqn:Hk; simpl.
    + apply category_eqb_eq in Hk as ->.
      destruct (category_eqb c k); reflexivity.
    + destruct (category_eqb c k) eqn:Hck; [ | exact IH ].
      apply category_eqb_eq in Hck as ->.
      apply category_eqb_neq in Hk.
      destruct (category_eqb k c') eqn:Hkc; [ | reflexivity ].
      apply category_eqb_eq in Hkc. congruence.
Qed.





Lemma same_collection_trans a b c :
  same_collection a b -> same_collection b c -> same_collection a c.
Proof. intros (A1 & A2 & A3) (B1 & B2 & B3). repeat split; congruence. Qed.



(** Outside the step under the lock, a unit of work leaves the index,
    the groups and [unique_elements] alone. *)
Section Kept.

Variable P : state -> Prop.
Hypothesis P_same : forall a b, same_collection a b -> P a -> P b.
Hypothesis P_element : forall w e f st, P st -> P (process_element w e f st).2.

Let R (a b : state) : Prop := P a -> P b.



Lemma kept_same a b : same_collection a b -> R a b.
Proof. intros H HP. exact (P_same a b H HP). Qed.


Lemma print_kept line : steps_in R (print line).
Proof. intros st; apply kept_same; repeat split. Qed.




End Kept.






(** The whole run, from the updates it is made of. *)
Section Run.

Variable R : state -> state -> Prop.
Hypothesis R_refl : forall st, R st st.
Hypothesis R_trans : forall a b c, R a b -> R b c -> R a c.
Variable w : world.
Variable self : extractor.
Hypothesis R_print : forall line, steps_in R (print line).
Hypothesis R_write : forall path text, steps_in R (record_write path text).
Hypothesis R_scanned : forall st, R st (with_stats incr_files_scanned st).
Hypothesis R_php_found : forall st, R st (with_stats incr_php_files_found st).
Hypothesis R_html_found : forall st, R st (with_stats incr_html_files_found st).
Hypothesis R_unit : forall f, steps_in R (process_file w self f).

Lemma print_if_steps b line : steps_in R (print_if b line).
Proof. destruct b; [ apply R_print | apply (steps_ret R R_refl) ]. Qed.

Lemma visit_file_steps root found file : steps_in R (visit_file root found file).
Proof.
  unfold visit_file. destruct file.2 as [size | ]; [ | apply (steps_ret R R_refl) ].
  destruct (_ || _); [ apply (steps_ret R R_refl) | ].
  apply (steps_bind R R_trans).
  - destruct (Py.endswith file.1 ".php").
    + apply (steps_bind R R_trans).
      * intros st. apply R_php_found.
      * intros _. apply (steps_ret R R_refl).
    + destruct (_ || _); [ | apply (steps_ret R R_refl) ].
      apply (steps_bind R R_trans).
      * intros st. apply R_html_found.
      * intros _. apply (steps_ret R R_refl).
  - intros found'. apply (steps_bind R R_trans).
    + intros st. apply R_scanned.
    + intros _. apply (steps_ret R R_refl).
Qed.

Lemma find_php_files_steps : steps_in R (find_php_files w self).
Proof.
  unfold find_php_files.
  apply (steps_bind R R_trans); [ apply print_if_steps | intros _ ].
  apply (steps_bind R R_trans).
  - apply (steps_fold_each R R_refl R_trans). intros found entry.
    apply (steps_fold_each R R_refl R_trans). intros found' file.
    apply visit_file_steps.
  - intros found. apply (steps_bind R R_trans); [ apply print_if_steps | ].
    intros _. apply (steps_ret R R_refl).
Qed.

Lemma save_unique_elements_steps : steps_in R (save_unique_elements w self).
Proof.
  unfold save_unique_elements. apply (steps_try_except R R_trans).
  - apply (steps_bind R R_trans); [ apply (steps_gets R R_refl) | intros text ].
    apply (steps_bind R R_trans); [ apply (steps_call R R_refl) | intros _ ].
    apply (steps_bind R R_trans); [ apply R_write | intros _ ].
    apply (steps_ret R R_refl).
  - intros e. apply (steps_bind R R_trans); [ apply R_print | intros _ ].
    apply (steps_ret R R_refl).
Qed.

Lemma announce_steps : steps_in R (announce self).
Proof.
  unfold announce. repeat (apply (steps_bind R R_trans); [ apply R_print | intros _ ]).
  apply R_print.
Qed.

Lemma summary_steps : steps_in R (summary w self).
Proof.
  unfold summary. apply (steps_bind R R_trans); [ apply (steps_gets R R_refl) | intros s ].
  do 4 (apply (steps_bind R R_trans); [ apply R_print | intros _ ]).
  apply (steps_bind R R_trans).
  { destruct (_ <? _)%nat; [ apply R_print | apply (steps_ret R R_refl) ]. }
  intros _. apply (steps_bind R R_trans); [ apply R_print | intros _ ].
  apply (steps_bind R R_trans); [ apply (steps_gets R R_refl) | intros g ].
  apply (steps_bind R R_trans); [ | intros _; apply R_print ].
  apply (steps_for_each R R_refl R_trans).
  intros [c [ | x l ]]; [ apply (steps_ret R R_refl) | apply R_print ].
Qed.

Lemma cleanup_steps : steps_in R (cleanup w self).
Proof.
  unfold cleanup. destruct (temp_dir self) as [d | ]; [ | apply (steps_ret R R_refl) ].
  destruct (_ && _); [ | apply (steps_ret R R_refl) ].
  apply (steps_try_except R R_trans); [ | intros e; apply R_print ].
  apply (steps_bind R R_trans); [ apply (steps_call R R_refl) | intros _ ].
  apply print_if_steps.
Qed.

Lemma extract_steps : steps_in R (extract w self).
Proof.
  unfold extract. apply (steps_try_finally R R_trans); [ | apply cleanup_steps ].
  apply (steps_bind R R_trans); [ apply announce_steps | intros _ ].
  apply (steps_bind R R_trans); [ apply find_php_files_steps | intros found ].
  apply (steps_bind R R_trans); [ apply (steps_for_each R R_refl R_trans), R_unit | intros _ ].
  apply (steps_bind R R_trans); [ apply save_unique_elements_steps | intros saved ].
  apply (steps_bind R R_trans); [ | intros _; apply summary_steps ].
  destruct saved; [ apply R_print | apply (steps_ret R R_refl) ].
Qed.

End Run.

(** ** Nothing that is collected is lost *)

Lemma stats_le_refl s : stats_le s s.
Proof. unfold stats_le. repeat split; lia. Qed.

Lemma stats_le_trans a b c : stats_le a b -> stats_le b c -> stats_le a c.
Proof. unfold stats_le. intros ? ?. repeat split; lia. Qed.

Lemma grows_refl st : grows st st.
Proof. repeat split; try done; lia. Qed.

Lemma grows_trans a b c : grows a b -> grows b c -> grows a c.
Proof.
  intros (A1 & A2 & A3 & A4 & A5 & A6) (B1 & B2 & B3 & B4 & B5 & B6).
  split; [ set_solver | ].
  split; [ by etrans | ].
  split; [ intros k; etrans; [ apply A3 | apply B3 ] | ].
  split; [ by eapply stats_le_trans | ].
  split; by etrans.
Qed.

Lemma keys_groups_append_prefix c x g :
  map fst g `prefix_of` map fst (groups_append c x g).
Proof.
  induction g as [ | [c' l] g IH ]; simpl; [ apply prefix_nil | ].
  destruct (category_eqb c c'); simpl; [ done | ].
  by apply prefix_cons.
Qed.

Lemma grows_with_stats f st :
  stats_le (stats st) (f (stats st)) -> grows st (with_stats f st).
Proof. intros H. repeat split; try done; apply H. Qed.

Lemma grows_print line : steps_in grows (print line).
Proof.
  intros st. repeat split; try done; try lia. simpl. by apply prefix_app_r.
Qed.

Lemma grows_record_write path text : steps_in grows (record_write path text).
Proof.
  intros st. repeat split; try done; try lia. simpl. by apply prefix_app_r.
Qed.

Lemma grows_add_hash h st : grows st (add_hash h st).
Proof. repeat split; try done; try lia. simpl. set_solver. Qed.

Lemma grows_append_group c x st : grows st (append_group c x st).
Proof.
  repeat split; try done; try lia; simpl.
  - apply keys_groups_append_prefix.
  - intros k. rewrite group_of_groups_append.
    destruct (category_eqb k c); [ by apply prefix_app_r | done ].
Qed.

Lemma process_element_grows w e f : steps_in grows (process_element w e f).
Proof.
  apply process_element_steps;
    [ apply grows_refl | apply grows_trans | apply grows_add_hash
    | apply grows_append_group | .. ];
    intros st; apply grows_with_stats; unfold stats_le; simpl; repeat split; lia.
Qed.

Lemma execute_php_file_grows w self f : steps_in grows (execute_php_file w self f).
Proof.
  unfold execute_php_file. destruct (execute_php self); simpl;
    [ | apply (steps_ret grows grows_refl) ].
  apply (steps_try_except grows grows_trans).
  - destruct (path_exists w f); simpl.
    + apply (steps_bind grows grows_trans); [ apply (steps_call grows grows_refl) | ].
      intros r. destruct (_ =? _)%Z.
      * apply (steps_bind grows grows_trans);
          [ | intros _; apply (steps_ret grows grows_refl) ].
        intros st. apply grows_with_stats. unfold stats_le. simpl.
        repeat split; lia.
      * apply (steps_bind grows grows_trans).
        { intros st. apply grows_with_stats. unfold stats_le. simpl.
          repeat split; lia. }
        intros _. apply (steps_bind grows grows_trans);
          [ apply (print_if_steps grows grows_refl), grows_print | ].
        intros _. apply (steps_ret grows grows_refl).
    + apply (steps_bind grows grows_trans).
      { intros st. apply grows_with_stats. unfold stats_le. simpl.
        repeat split; lia. }
      intros _. apply (steps_bind grows grows_trans); [ apply grows_print | ].
      intros _. apply (steps_ret grows grows_refl).
  - intros e. apply (steps_bind grows grows_trans).
    { intros st. apply grows_with_stats. unfold stats_le. simpl.
      repeat split; lia. }
    intros _. apply (steps_bind grows grows_trans);
      [ apply (print_if_steps grows grows_refl), grows_print | ].
    intros _. apply (steps_ret grows grows_refl).
Qed.

Lemma process_file_grows w self f : steps_in grows (process_file w self f).
Proof.
  apply process_file_steps;
    [ apply grows_refl | apply grows_trans
    | intros; apply (print_if_steps grows grows_refl), grows_print
    | apply process_element_grows
    | intros; apply grows_with_stats; unfold stats_le; simpl; repeat split; lia
    | apply execute_php_file_grows ].
Qed.

Lemma extract_grows w self : steps_in grows (extract w self).
Proof.
  apply extract_steps;
    [ apply grows_refl | apply grows_trans | apply grows_print
    | apply grows_record_write | .. | apply process_file_grows ];
    intros st; apply grows_with_stats; unfold stats_le; simpl; repeat split; lia.
Qed.

(** X7.  Nothing that has been collected is lost: a unit of work and the
    whole run only add to the index of hashes, only append categories
    and elements to the groups, only append printed lines and written
    files, and lower no counter, whether or not something fails.  In
    particular the element stored at a position of a category stays
    there. *)
Theorem nothing_collected_is_lost (w : world) (self : extractor) (st : state) :
  (forall file, grows st (process_file w self file st).2) /\
  grows st (extract w self st).2 /\
  (forall file c i x,
     group_of c (element_groups st) !! i = Some x ->
     group_of c (element_groups (process_file w self file st).2) !! i = Some x).
Proof.
  split; [ intros file; apply process_file_grows | ].
  split; [ apply extract_grows | ].
  intros file c i x Hx.
  destruct (process_file_grows w self file st) as (_ & _ & Hg & _).
  by apply (prefix_lookup_Some _ _ _ _ Hx (Hg c)).
Qed.

(** ** What a unit of work prints in quiet mode *)

Lemma says_bind {A B} l1 l2 (m : M A) (c : A -> M B) :
  says l1 m -> (forall a, says l2 (c a)) -> says (l1 ++ l2) (bind m c).
Proof.
  intros Hm Hc st. destruct (Hm st) as (a & st1 & H1 & E1).
  destruct (Hc a st1) as (b & st2 & H2 & E2).
  exists b, st2. rewrite (bind_ok _ _ _ _ _ H1). split; [ exact H2 | ].
  by rewrite E2, E1, app_assoc.
Qed.

Lemma says_nothing {A} (m : M A) :
  always_returns m -> steps_in (fun a b => printed b = printed a) m -> says [] m.
Proof.
  intros Hr Hs st. destruct (Hr st) as (a & st' & H).
  exists a, st'. split; [ exact H | ].
  specialize (Hs st). rewrite H in Hs. simpl in Hs. by rewrite app_nil_r.
Qed.

Lemma says_try_except {A} l (body : M A) handler :
  says l body -> says l (try_except body handler).
Proof.
  intros Hb st. destruct (Hb st) as (a & st' & H & E).
  exists a, st'. unfold try_except. by rewrite H.
Qed.

Lemma says_ret {A} (a : A) : says [] (ret a).
Proof. intros st. exists a, st. split; [ reflexivity | by rewrite app_nil_r ]. Qed.

Lemma same_printed_trans (a b c : state) :
  printed b = printed a -> printed c = printed b -> printed c = printed a.
Proof. congruence. Qed.

Lemma process_element_same_printed w e f :
  steps_in (fun a b => printed b = printed a) (process_element w e f).
Proof.
  apply process_element_steps; [ done | apply same_printed_trans | .. ];
    intros; reflexivity.
Qed.

Section Quiet.

Variable w : world.
Variable self : extractor.
Hypothesis quiet_mode : verbose self = false.

Lemma quiet_say line :
  steps_in (fun a b => printed b = printed a) (print_if (verbose self) line).
Proof. rewrite quiet_mode. intros st. reflexivity. Qed.

Lemma quiet_scan html f : says [] (extract_elements_from_html w self html f).
Proof.
  apply says_nothing; [ apply extract_elements_from_html_returns | ].
  apply extract_elements_from_html_steps;
    [ done | apply same_printed_trans | apply quiet_say
    | apply process_element_same_printed | intros; reflexivity ].
Qed.

Lemma quiet_static f : says [] (extract_html_from_php_static w self f).
Proof.
  apply says_nothing; [ apply extract_html_from_php_static_returns | ].
  apply extract_html_from_php_static_steps;
    [ done | apply same_printed_trans | apply quiet_say ].
Qed.

Lemma quiet_report n how f : says [] (report_found w self n how f).
Proof.
  apply says_nothing; [ apply report_found_returns | ].
  apply report_found_steps; [ done | apply quiet_say ].
Qed.

Lemma quiet_execute f :
  execute_php self = true ->
  says (if path_exists w f then [] else [ "Error: PHP file not found: " +:+ f ])
       (execute_php_file w self f).
Proof.
  intros Hon st. unfold execute_php_file. rewrite Hon, quiet_mode. simpl.
  step_monad. destruct (path_exists w f); simpl.
  - destruct (subprocess_run w [php_path self; f]) as [r | x]; cbv beta iota.
    + destruct (returncode r =? 0)%Z; cbv beta iota; eexists; eexists;
        (split; [ reflexivity | simpl; by rewrite app_nil_r ]).
    + eexists; eexists; (split; [ reflexivity | simpl; by rewrite app_nil_r ]).
  - eexists; eexists; (split; [ reflexivity | reflexivity ]).
Qed.

Lemma quiet_process_file f : says (loud_lines w self f) (process_file w self f).
Proof.
  unfold process_file, loud_lines.
  destruct (Py.endswith f ".php").
  - apply says_try_except. rewrite andb_true_r.
    destruct (execute_php self) eqn:Hon; simpl.
    + replace (if negb (path_exists w f)
               then [ "Error: PHP file not found: " +:+ f ] else [])
        with ([] ++ [] ++
              ((if path_exists w f then []
                else [ "Error: PHP file not found: " +:+ f ]) ++ [] ++ []) ++ [])
        by (destruct (path_exists w f); reflexivity).
      apply says_bind; [ apply quiet_static | intros html ].
      apply says_bind; [ apply quiet_scan | intros n ].
      apply says_bind; [ | intros _; apply quiet_report ].
      apply says_bind; [ by apply quiet_execute | intros html' ].
      apply says_bind; [ apply quiet_scan | intros n' ].
      apply quiet_report.
    + change (@nil string) with (@nil string ++ [] ++ [] ++ []).
      apply says_bind; [ apply quiet_static | intros html ].
      apply says_bind; [ apply quiet_scan | intros n ].
      apply says_bind; [ apply says_ret | intros _ ].
      apply quiet_report.
  - rewrite andb_false_r. simpl. apply says_try_except.
    destruct (read_text w f) as [html | x].
    + apply says_try_except. intros st.
      exact (says_bind [] [] _ _ (quiet_scan html f)
               (fun n => quiet_report n "from " f) st).
    + intros st. unfold try_except, bind, call, raise. rewrite quiet_mode.
      exists tt, st. split; [ reflexivity | by rewrite app_nil_r ].
Qed.

End Quiet.

(** X8.  With [verbose] off, the unit of work of a file always returns
    and prints nothing, with one exception: in execution mode, for a PHP
    file that does not exist, [execute_php_file] prints its error line
    whatever [verbose] is. *)
Theorem quiet_unit_prints_one_line_at_most
    (w : world) (self : extractor) (file_path : string) (st : state) :
  verbose self = false ->
  exists st',
    process_file w self file_path st = (Ok tt, st') /\
    printed st'
    = printed st ++
      (if execute_php self && Py.endswith file_path ".php"
          && negb (path_exists w file_path)
       then [ "Error: PHP file not found: " +:+ file_path ]
       else []).
Proof.
  intros Hquiet.
  destruct (quiet_process_file w self Hquiet file_path st) as ([] & st' & H1 & H2).
  by exists st'.
Qed.

Lemma quiet_unit_prints_one_line_at_most_witness :
  exists st',
    process_file missing_world quiet_extractor "lost.php" state0 = (Ok tt, st') /\
    printed st' = [ "Error: PHP file not found: lost.php" ].
Proof.
  apply (quiet_unit_prints_one_line_at_most missing_world quiet_extractor
           "lost.php" state0).
  reflexivity.
Defined.

(** ** The run as a whole, and the program *)

Lemma save_unique_elements_cases w self st :
  save_unique_elements w self st
  = match write_text w (output_file self) (report w self st) with
    | Ok _ =>
        (Ok true,
         State (element_hashes st) (element_groups st) (stats st) (printed st)
               (written st ++ [(output_file self, report w self st)]))
    | Err e =>
        (Ok false,
         State (element_hashes st) (element_groups st) (stats st)
               (printed st ++ [ "Error saving output file: " +:+ exception_str e ])
               (written st))
    end.
Proof.
  unfold save_unique_elements. step_monad.
  destruct (write_text w (output_file self) (report w self st)) as [[] | x];
    reflexivity.
Qed.


Lemma ends_with_print line : ends_with line (print line).
Proof.
  intros st. eexists. split; [ reflexivity | ].
  split; [ repeat split | simpl; by rewrite last_snoc ].
Qed.

Lemma ends_with_bind {A} line (m : M A) (k : A -> M unit) :
  only_prints m -> (forall a, ends_with line (k a)) -> ends_with line (bind m k).
Proof.
  intros Hm Hk st. destruct (Hm st) as (a & st1 & H1 & Hq1).
  destruct (Hk a st1) as (st2 & H2 & Hq2 & Hl).
  exists st2. rewrite (bind_ok _ _ _ _ _ H1).
  split; [ exact H2 | ]. split; [ by apply (quiet_trans st st1 st2) | exact Hl ].
Qed.

Lemma summary_last_line w self : ends_with (saved_line w self) (summary w self).
Proof.
  unfold summary.
  apply ends_with_bind; [ apply only_prints_gets | intros s ].
  do 4 (apply ends_with_bind; [ apply only_prints_print | intros _ ]).
  apply ends_with_bind; [ destruct (_ <? _)%nat; solve_only_prints | intros _ ].
  apply ends_with_bind; [ apply only_prints_print | intros _ ].
  apply ends_with_bind; [ apply only_prints_gets | intros g ].
  apply ends_with_bind; [ | intros _; apply ends_with_print ].
  apply only_prints_for_each. intros [c [ | x l ]]; solve_only_prints.
Qed.

(** The states that a run goes through. *)
Lemma extract_trace w self st :
  exists st_a found st_f st2 st3 st4 st',
    announce self st = (Ok tt, st_a) /\ quiet st st_a /\
    find_php_files w self st_a = (Ok found, st_f) /\
    save_unique_elements w self (run_units w self (found.1 ++ found.2) st_f)
    = (Ok (match write_text w (output_file self)
                   (report w self (run_units w self (found.1 ++ found.2) st_f))
           with Ok _ => true | Err _ => false end), st2) /\
    (match write_text w (output_file self)
             (report w self (run_units w self (found.1 ++ found.2) st_f))
     with
     | Ok _ => print ("Successfully saved extracted components to " +:+
                      abspath w (output_file self))
     | Err _ => ret tt
     end) st2 = (Ok tt, st3) /\
    quiet st2 st3 /\
    summary w self st3 = (Ok tt, st4) /\ quiet st3 st4 /\
    last (printed st4) = Some (saved_line w self) /\
    cleanup w self st4 = (Ok tt, st') /\ quiet st4 st' /\
    extract w self st = (Ok tt, st').
Proof.
  destruct (announce_only_prints self st) as ([] & st_a & Ha & Hqa).
  destruct (find_php_files_returns w self st_a) as (found & st_f & Hf).
  exists st_a, found, st_f.
  set (st1 := run_units w self _ st_f).
  pose proof (save_unique_elements_cases w self st1) as Hs.
  set (saved := match write_text w (output_file self) (report w self st1) with
                | Ok _ => true | Err _ => false end).
  assert (exists st2, save_unique_elements w self st1 = (Ok saved, st2))
    as [st2 Hs2].
  { rewrite Hs. subst saved. destruct (write_text _ _ _); eexists; reflexivity. }
  assert (only_prints
            (if saved
             then print ("Successfully saved extracted components to " +:+
                         abspath w (output_file self))
             else ret tt)) as Hp
    by (destruct saved; solve_only_prints).
  destruct (Hp st2) as ([] & st3 & H3 & Hq3).
  destruct (summary_last_line w self st3) as (st4 & H4 & Hq4 & Hl4).
  destruct (cleanup_only_prints w self st4) as ([] & st5 & H5 & Hq5).
  exists st2, st3, st4, st5.
  do 4 (split; [ done | ]).
  split; [ subst saved; by destruct (write_text _ _ _) | ].
  repeat (split; [ done | ]).
  unfold extract, try_finally.
  rewrite (bind_ok _ _ _ _ _ Ha), (bind_ok _ _ _ _ _ Hf).
  rewrite (bind_ok _ _ _ _ _ (for_each_process_file w self _ st_f)).
  fold (run_units w self (found.1 ++ found.2) st_f). fold st1.
  rewrite (bind_ok _ _ _ _ _ Hs2), (bind_ok _ _ _ _ _ H3).
  by rewrite H4, H5.
Qed.







Lemma __init___cases w dir out exec php threads loud st :
  __init__ w dir out exec php threads loud st
  = if negb (path_exists w dir) then
      (Err (SystemExit 1),
       State (element_hashes st) (element_groups st) (stats st)
             (printed st ++ [ "Error: Project directory " +:+ dir +:+
                              " does not exist!" ])
             (written st))
    else
      let temp := if exec then Some (mkdtemp w "tailwind_extract_") else None in
      let self enabled :=
        Extractor dir out enabled php threads loud temp (utcnow w)
                  (environ_user w) in
      if exec then
        match subprocess_run w [php; "--version"] with
        | Ok _ => (Ok (self true), State ∅ [] stats0 (printed st) (written st))
        | Err e =>
            if probe_is_caught e then
              (Ok (self false),
               State ∅ [] stats0
                     (printed st ++
                      [ "Warning: PHP executable not found at '" +:+ php +:+
                        "'. PHP execution will be disabled." ])
                     (written st))
            else (Err (Exc e), State ∅ [] stats0 (printed st) (written st))
        end
      else (Ok (self false), State ∅ [] stats0 (printed st) (written st)).
Proof.
  unfold __init__. destruct (path_exists w dir); simpl; [ | reflexivity ].
  step_monad. destruct exec; [ | reflexivity ].
  destruct (subprocess_run w [php; "--version"]) as [r | e]; [ reflexivity | ].
  destruct (probe_is_caught e); reflexivity.
Qed.

(** X11.  When the project directory does not exist, the program prints
    the error and exits with status 1 before anything else is done: no
    temporary directory is made, PHP is not probed, no file is looked
    for and none is written. *)
Theorem missing_project_directory_exits
    (w : world) (a : Main.args) (st : state) :
  path_exists w (abspath w (Main.project_dir a)) = false ->
  Main.main w a st
  = (Err (SystemExit 1),
     State (element_hashes st) (element_groups st) (stats st)
           (printed st ++ [ "Error: Project directory " +:+
                            abspath w (Main.project_dir a) +:+
                            " does not exist!" ])
           (written st)).
Proof.
  intros Hdir. unfold Main.main, bind. by rewrite __init___cases, Hdir.
Qed.

Lemma missing_project_directory_exits_witness :
  (Main.main missing_world (Main.Args "/nowhere" "out.txt" true "php" 4 false)
             state0).1
  = Err (SystemExit 1).
Proof.
  rewrite missing_project_directory_exits; reflexivity.
Defined.


Lemma groups_well_formed_nil : groups_well_formed [].
Proof. split; constructor. Qed.




Lemma cleanup_cases w self st :
  cleanup w self st
  = (Ok tt,
     State (element_hashes st) (element_groups st) (stats st)
           (printed st ++ cleanup_lines w self) (written st)).
Proof.
  unfold cleanup, cleanup_lines.
  destruct (temp_dir self) as [d | ];
    [ | rewrite app_nil_r; by destruct st ].
  destruct (_ && _); [ | rewrite app_nil_r; by destruct st ].
  step_monad. destruct (rmtree w d) as [[] | x]; cbv beta iota;
    [ | reflexivity ].
  destruct (verbose self); cbv beta iota;
    [ reflexivity | rewrite app_nil_r; by destruct st ].
Qed.

(** X13.  [cleanup] never raises.  Without a temporary directory, or when
    the directory is gone, it does nothing at all.  When the directory
    cannot be removed, the failure is caught and a warning is printed,
    whatever [verbose] is; when it is removed, the line that says so is
    printed in verbose mode only.  Nothing but printed lines changes. *)
Theorem cleanup_never_fails (w : world) (self : extractor) (st : state) :
  exists st',
    cleanup w self st = (Ok tt, st') /\
    element_hashes st' = element_hashes st /\
    element_groups st' = element_groups st /\
    stats st' = stats st /\
    written st' = written st /\
    printed st'
    = printed st ++
      match temp_dir self with
      | Some d =>
          if Py.truthy d && path_exists w d then
            match rmtree w d with
            | Ok _ =>
                if verbose self
                then [ "Cleaned up temporary directory: " +:+ d ] else []
            | Err e =>
                [ "Warning: Failed to clean up temporary directory: " +:+
                  exception_str e ]
            end
          else []
      | None => []
      end.
Proof. eexists. rewrite cleanup_cases. repeat split. Qed.

(** X14.  The temporary directory is made whenever execution mode is
    asked for, also when the probe of PHP then switches execution mode
    off; and a run always ends with [cleanup]: in verbose mode, when the
    directory is there and can be removed, the last line printed by the
    run is the one that says that it has been removed. *)
Theorem temporary_directory_is_removed
    (w : world) (dir out php : string) (threads : nat)
    (self : extractor) (st st_i : state) :
  __init__ w dir out true php threads true st = (Ok self, st_i) ->
  let d := mkdtemp w "tailwind_extract_" in
  temp_dir self = Some d /\
  (d <> "" -> path_exists w d = true -> rmtree w d = Ok tt ->
   last (printed (extract w self st_i).2)
   = Some ("Cleaned up temporary directory: " +:+ d)).
Proof.
  intros Hinit d.
  assert (temp_dir self = Some d /\ verbose self = true) as [Htemp Hloud].
  { rewrite __init___cases in Hinit.
    destruct (path_exists w dir); simpl in Hinit; [ | discriminate ].
    destruct (subprocess_run w [php; "--version"]) as [r | e].
    - injection Hinit as <- _. by split.
    - destruct (probe_is_caught e); [ | discriminate ].
      injection Hinit as <- _. by split. }
  split; [ exact Htemp | ].
  intros Hd Hexists Hrm.
  destruct (extract_trace w self st_i)
    as (st_a & found & st_f & st2 & st3 & st4 & st' & _ & _ & _ & _
        & _ & _ & _ & _ & _ & H5 & _ & ->).
  simpl.
  rewrite cleanup_cases in H5. injection H5 as <-.
  unfold cleanup_lines. rewrite Htemp, Hexists, Hrm, Hloud.
  destruct d as [ | c d' ]; [ done | ]. simpl.
  by rewrite last_snoc.
Qed.

Lemma temporary_directory_is_removed_witness :
  last (printed
          (extract (one_file_world "")
             (Extractor "/site" "out.txt" false "php" 4 true
                        (Some "tailwind_extract_") "2026-01-01 00:00:00" "user")
             (State ∅ [] stats0
                    [ "Warning: PHP executable not found at 'php'. PHP execution will be disabled." ]
                    [])).2)
  = Some "Cleaned up temporary directory: tailwind_extract_".
Proof.
  apply (temporary_directory_is_removed (one_file_world "") "/site" "out.txt"
           "php" 4 _ state0 _ eq_refl).
  - discriminate.
  - reflexivity.
  - reflexivity.
Defined.

(** ** [sorted] and the order of its argument *)

Lemma leb_total_cases (x y : string) :
  String.leb x y = true \/ (String.leb x y = false /\ String.leb y x = true).
Proof.
  destruct (String.leb x y) eqn:H; [ by left | right ].
  split; [ reflexivity | ].
  destruct (String.leb_total x y) as [H' | H']; congruence.
Qed.

Lemma leb_trans (x y z : string) :
  String.leb x y = true -> String.leb y z = true -> String.leb x z = true.
Proof.
  intros H1 H2. apply Is_true_eq_true.
  change (String.le x z). transitivity y; apply Is_true_eq_left; assumption.
Qed.

Lemma leb_antisym (x y : string) :
  String.leb x y = true -> String.leb y x = true -> x = y.
Proof.
  intros H1 H2.
  apply (anti_symm String.le); apply Is_true_eq_left; assumption.
Qed.

Lemma insert_sorted_comm (x y : string) (l : list string) :
  Py.insert_sorted x (Py.insert_sorted y l)
  = Py.insert_sorted y (Py.insert_sorted x l).
Proof.
  induction l as [ | z l IH ]; simpl.
  - destruct (leb_total_cases x y) as [Hxy | [Hxy Hyx]]; rewrite Hxy.
    + destruct (String.leb y x) eqn:Hyx; [ | reflexivity ].
      by rewrite (leb_antisym x y Hxy Hyx).
    + by rewrite Hyx.
  - destruct (String.leb y z) eqn:Hyz, (String.leb x z) eqn:Hxz; simpl.
    + destruct (leb_total_cases x y) as [Hxy | [Hxy Hyx]]; rewrite Hxy.
      * destruct (String.leb y x) eqn:Hyx.
        -- by rewrite (leb_antisym x y Hxy Hyx).
        -- by rewrite Hyz.
      * by rewrite Hyx, Hxz.
    + assert (String.leb x y = false) as Hxy.
      { destruct (String.leb x y) eqn:Hxy; [ | reflexivity ].
        by rewrite (leb_trans x y z Hxy Hyz) in Hxz. }
      by rewrite Hxy, ?Hxz, ?Hyz.
    + assert (String.leb y x = false) as Hyx.
      { destruct (String.leb y x) eqn:Hyx; [ | reflexivity ].
        by rewrite (leb_trans y x z Hyx Hxz) in Hyz. }
      by rewrite Hyx, ?Hyz, ?Hxz.
    + rewrite Hxz, Hyz. by rewrite IH.
Qed.

(** [sorted] gives the same list for every order of its argument. *)
Lemma sorted_Permutation (l l' : list string) :
  l ≡ₚ l' -> Py.sorted l = Py.sorted l'.
Proof.
  unfold Py.sorted. induction 1 as [ | x l l' _ IH | x y l | l1 l2 l3 _ IH1 _ IH2 ];
    simpl.
  - reflexivity.
  - by rewrite IH.
  - apply insert_sorted_comm.
  - congruence.
Qed.

Lemma child_tag_names_Permutation name attrs cs name' attrs' cs' :
  cs ≡ₚ cs' ->
  child_tag_names (Tag name attrs cs) ≡ₚ child_tag_names (Tag name' attrs' cs').
Proof.
  intros H. unfold child_tag_names, find_all_children. simpl.
  by rewrite H.
Qed.

(** X15.  The fingerprint does not depend on the order in which the
    classes are written, nor on the order of the children of the element,
    nor on where the [class] attribute stands among the attributes. *)
Theorem fingerprint_ignores_order
    (name : string) (attrs attrs' : list (string * attr_value))
    (classes classes' : list string) (cs cs' : list node) :
  get "class" attrs = Some (AttrList classes) ->
  get "class" attrs' = Some (AttrList classes') ->
  classes ≡ₚ classes' ->
  cs ≡ₚ cs' ->
  hash_element (Tag name attrs cs) = hash_element (Tag name attrs' cs').
Proof.
  intros Hc Hc' Hp Hcs. unfold hash_element.
  destruct (negb (Py.truthy name)); [ reflexivity | ].
  f_equal. f_equal. unfold structure_of. rewrite Hc, Hc'.
  rewrite (sorted_Permutation _ _ Hp).
  destruct (Py.in_list name structural_tags); [ | reflexivity ].
  by rewrite (sorted_Permutation _ _
                (child_tag_names_Permutation name attrs cs name attrs' cs' Hcs)).
Qed.

Lemma fingerprint_ignores_order_witness :
  hash_element (Tag "div" [("class", AttrList ["p-4"; "card"]); ("id", AttrStr "a")]
                    [Tag "img" [] []; NavigableString "x"; Tag "a" [] []])
  = hash_element (Tag "div" [("id", AttrStr "b"); ("class", AttrList ["card"; "p-4"])]
                      [Tag "a" [] []; Tag "img" [] []; NavigableString "x"]).
Proof.
  apply (fingerprint_ignores_order "div" _ _ ["p-4"; "card"] ["card"; "p-4"]).
  - reflexivity.
  - reflexivity.
  - apply Permutation_swap.
  - symmetry.
    apply (Permutation_cons_append [Tag "img" [] []; NavigableString "x"]).
Defined.

(** ** What cleaning leaves in the copy *)

Lemma descendants_cons name attrs c cs :
  descendants (Tag name attrs (c :: cs))
  = c :: descendants c ++ descendants (Tag name attrs cs).
Proof. reflexivity. Qed.

Lemma all_below_descendants p n :
  all_below p n = forallb p (descendants n).
Proof.
  induction n as [name attrs cs IH | s | s] using node_rect_forall;
    [ | reflexivity | reflexivity ].
  induction IH as [ | c cs Hc _ IHcs ]; [ reflexivity | ].
  rewrite descendants_cons. cbn [all_below forallb] in *.
  rewrite forallb_app, <- Hc, <- IHcs. by rewrite andb_assoc.
Qed.

Lemma all_below_Forall p n :
  all_below p n = true -> Forall (fun d => p d = true) (descendants n).
Proof.
  rewrite all_below_descendants. intros H.
  apply Forall_forall. intros d Hd.
  rewrite forallb_forall in H. apply H. by apply list_elem_of_In.
Qed.

Lemma forallb_over_map {A B} (f : A -> B) (p : B -> bool) (l : list A) :
  forallb p (map f l) = forallb (fun x => p (f x)) l.
Proof. induction l as [ | x l IH ]; simpl; [ reflexivity | by rewrite IH ]. Qed.

Lemma forallb_weaken {A} (p q : A -> bool) (l : list A) :
  Forall (fun x => p x = true -> q x = true) l ->
  forallb p l = true -> forallb q l = true.
Proof.
  induction 1 as [ | x l Hx _ IH ]; simpl; [ done | ].
  intros H. apply andb_true_iff in H as [H1 H2].
  apply andb_true_iff. auto.
Qed.

Lemma all_below_tag p name attrs cs :
  all_below p (Tag name attrs cs) = forallb (all_in p) cs.
Proof. reflexivity. Qed.

Lemma forallb_all_in_map p (f : node -> node) cs :
  Forall (fun c => all_in p c = true -> all_in p (f c) = true) cs ->
  forallb (all_in p) cs = true -> forallb (all_in p) (map f cs) = true.
Proof. intros H. rewrite forallb_over_map. by apply forallb_weaken. Qed.

(** A pass that maps itself over the contents of every tag, and keeps
    [p] at the node it is applied to, keeps [p] in the whole tree. *)
Lemma pass_all_in (p : node -> bool) (f : node -> node) :
  (forall name attrs cs,
     f (Tag name attrs cs) = Tag name attrs [NavigableString ""] \/
     exists attrs', f (Tag name attrs cs) = Tag name attrs' (map f cs)) ->
  (forall n, is_tag n = false -> all_below p (f n) = true) ->
  (forall n, p n = true -> p (f n) = true) ->
  p (NavigableString "") = true ->
  forall n, all_in p n = true -> all_in p (f n) = true.
Proof.
  intros Htag Hleaf Hp Hempty.
  induction n as [name attrs cs IH | s | s] using node_rect_forall;
    intros H; apply andb_true_iff in H as [H1 H2]; apply andb_true_iff;
    (split; [ by apply Hp | ]); [ | by apply Hleaf | by apply Hleaf ].
  destruct (Htag name attrs cs) as [-> | [attrs' ->]].
  - rewrite all_below_tag. simpl. unfold all_in. by rewrite Hempty.
  - rewrite all_below_tag in *. by apply forallb_all_in_map.
Qed.

Lemma below_root_all_below p f root :
  (forall n, all_in p n = true -> all_in p (f n) = true) ->
  all_below p root = true -> all_below p (below_root f root) = true.
Proof.
  intros Hf. destruct root as [name attrs cs | s | s]; try done.
  simpl below_root. rewrite !all_below_tag. intros H.
  apply forallb_all_in_map; [ | exact H ].
  apply Forall_forall. intros c _. apply Hf.
Qed.

(** *** No comment is left *)

Lemma remove_comments_tag name attrs cs :
  remove_comments (Tag name attrs cs)
  = Tag name attrs (map remove_comments (filter (fun c => no_comment c) cs)).
Proof.
  cbn [remove_comments]. f_equal.
  induction cs as [ | c cs IH ]; [ reflexivity | ].
  rewrite filter_cons.
  destruct c as [n a k | t | t]; simpl; [ by rewrite IH | by rewrite IH | exact IH ].
Qed.

Lemma remove_comments_all_below n :
  all_below no_comment (remove_comments n) = true.
Proof.
  induction n as [name attrs cs IH | s | s] using node_rect_forall;
    [ | reflexivity | reflexivity ].
  rewrite remove_comments_tag, all_below_tag, forallb_over_map.
  apply forallb_forall. intros c Hc. apply list_elem_of_In in Hc.
  apply list_elem_of_filter in Hc as [Hp Hc]. apply Is_true_eq_true in Hp.
  rewrite Forall_forall in IH. unfold all_in. rewrite (IH c Hc), andb_true_r.
  destruct c; try done.
Qed.

Lemma clear_scripts_all_in p :
  (forall name attrs cs cs', p (Tag name attrs cs) = p (Tag name attrs cs')) ->
  p (NavigableString "") = true ->
  forall n, all_in p n = true -> all_in p (clear_scripts n) = true.
Proof.
  intros Hp Hempty. apply pass_all_in; try done.
  - intros name attrs cs. cbn [clear_scripts].
    destruct (_ && _); [ by left | right; by exists attrs ].
  - by intros [ | | ].
  - intros [name attrs cs | s | s]; try done. intros H. cbn [clear_scripts].
    destruct (_ && _); by rewrite (Hp name attrs _ cs).
Qed.

Lemma keep_attrs_all_in p :
  (forall name attrs cs,
     p (Tag name attrs cs) = true ->
     p (Tag name (filter (fun kv => Py.in_list kv.1 attrs_to_keep) attrs)
            (map keep_attrs cs)) = true) ->
  p (NavigableString "") = true ->
  forall n, all_in p n = true -> all_in p (keep_attrs n) = true.
Proof.
  intros Hp Hempty. apply pass_all_in; try done.
  - intros name attrs cs. right. by eexists.
  - by intros [ | | ].
  - intros [name attrs cs | s | s]; try done. apply Hp.
Qed.

Lemma shorten_texts_all_in p :
  (forall name attrs cs cs', p (Tag name attrs cs) = p (Tag name attrs cs')) ->
  (forall s, p (NavigableString s) = true) ->
  forall n up, all_in p n = true -> all_in p (shorten_texts up n) = true.
Proof.
  intros Hp Hstr.
  induction n as [name attrs cs IH | s | s] using node_rect_forall; intros up H.
  - apply andb_true_iff in H as [H1 H2]. apply andb_true_iff.
    cbn [shorten_texts]. split; [ by rewrite (Hp name attrs _ cs) | ].
    rewrite all_below_tag in *. apply forallb_all_in_map; [ | exact H2 ].
    eapply Forall_impl; [ exact IH | ]. intros c Hc. apply Hc.
  - cbn [shorten_texts]. destruct (is_long_text up s); unfold all_in;
      by rewrite Hstr.
  - cbn [shorten_texts]. destruct (is_long_text up s); [ | exact H ].
    unfold all_in. by rewrite Hstr.
Qed.

Lemma shorten_texts_all_below p up root :
  (forall name attrs cs cs', p (Tag name attrs cs) = p (Tag name attrs cs')) ->
  (forall s, p (NavigableString s) = true) ->
  all_below p root = true -> all_below p (shorten_texts up root) = true.
Proof.
  intros Hp Hstr. destruct root as [name attrs cs | s | s].
  - cbn [shorten_texts]. rewrite !all_below_tag. intros H.
    apply forallb_all_in_map; [ | exact H ].
    apply Forall_forall. intros c _. by apply shorten_texts_all_in.
  - intros _. cbn [shorten_texts]. by destruct (is_long_text up s).
  - intros _. cbn [shorten_texts]. by destruct (is_long_text up s).
Qed.

Lemma clean_copy_no_comment root : all_below no_comment (clean_copy root) = true.
Proof.
  unfold clean_copy. apply shorten_texts_all_below; try done.
  apply below_root_all_below; [ by apply keep_attrs_all_in | ].
  apply below_root_all_below; [ by apply clear_scripts_all_in | ].
  apply remove_comments_all_below.
Qed.

(** *** Only the attributes to keep are left *)

Lemma keep_attrs_only_kept n : all_in only_kept_attrs (keep_attrs n) = true.
Proof.
  induction n as [name attrs cs IH | s | s] using node_rect_forall;
    [ | reflexivity | reflexivity ].
  unfold all_in. cbn [keep_attrs]. apply andb_true_iff. split.
  - simpl. apply forallb_forall. intros kv Hkv. apply list_elem_of_In in Hkv.
    apply list_elem_of_filter in Hkv as [Hk _]. by apply Is_true_eq_true.
  - rewrite all_below_tag, forallb_over_map. apply forallb_forall.
    intros c Hc. apply list_elem_of_In in Hc.
    rewrite Forall_forall in IH. by apply IH.
Qed.

Lemma clean_copy_only_kept root : all_below only_kept_attrs (clean_copy root) = true.
Proof.
  unfold clean_copy. apply shorten_texts_all_below; try done.
  destruct (below_root clear_scripts (remove_comments root))
    as [name attrs cs | s | s]; try done.
  simpl below_root. rewrite all_below_tag, forallb_over_map.
  apply forallb_forall. intros c _. apply keep_attrs_only_kept.
Qed.

(** X16.  No comment is left in a cleaned copy, at any depth. *)
Theorem cleaned_copy_has_no_comment
    (w : world) (element cleaned : node) :
  clean_element w element = Ok cleaned ->
  Forall (fun d => is_comment d = false) (descendants cleaned).
Proof.
  unfold clean_element.
  destruct (BeautifulSoup w (node_str element)) as [copy | e]; [ | discriminate ].
  intros [= <-].
  eapply Forall_impl; [ apply all_below_Forall, clean_copy_no_comment | ].
  intros d Hd. by apply negb_true_iff.
Qed.

Lemma cleaned_copy_has_no_comment_witness :
  Forall (fun d => is_comment d = false)
         (descendants
            (clean_copy (HtmlParser.html_parser "<div><!--x-->a<p><!--y--></p></div>"))).
Proof.
  apply (cleaned_copy_has_no_comment (one_file_world "")
           (Tag "div" [] [Comment "x"; NavigableString "a";
                          Tag "p" [] [Comment "y"]])).
  vm_compute. reflexivity.
Defined.

(** X17.  In a cleaned copy every tag, at any depth, carries only
    attributes among [class], [id], [type], [placeholder], [href], [src]
    and [alt]. *)
Theorem cleaned_copy_keeps_seven_attributes
    (w : world) (element cleaned : node) :
  clean_element w element = Ok cleaned ->
  Forall (fun d =>
            match d with
            | Tag _ attrs _ =>
                Forall (fun kv => Py.in_list kv.1 attrs_to_keep = true) attrs
            | _ => True
            end)
         (descendants cleaned).
Proof.
  unfold clean_element.
  destruct (BeautifulSoup w (node_str element)) as [copy | e]; [ | discriminate ].
  intros [= <-].
  eapply Forall_impl; [ apply all_below_Forall, clean_copy_only_kept | ].
  intros [name attrs cs | s | s] Hd; [ | done | done ].
  simpl in Hd. apply Forall_forall. intros kv Hkv.
  rewrite forallb_forall in Hd. apply Hd. by apply list_elem_of_In.
Qed.

Lemma cleaned_copy_keeps_seven_attributes_witness :
  Forall (fun d =>
            match d with
            | Tag _ attrs _ =>
                Forall (fun kv => Py.in_list kv.1 attrs_to_keep = true) attrs
            | _ => True
            end)
         (descendants
            (clean_copy (HtmlParser.html_parser
                           "<a class='m-1' onclick='go()' href='/x'>x</a>"))).
Proof.
  apply (cleaned_copy_keeps_seven_attributes (one_file_world "")
           (HtmlParser.html_parser "<a class='m-1' onclick='go()' href='/x'>x</a>")).
  vm_compute. reflexivity.
Defined.

(** *** Cleaning keeps the fingerprint *)

Lemma omap_filter_none {A B} (f : A -> option B) (p : A -> bool) (l : list A) :
  (forall x, p x = false -> f x = None) ->
  omap f (filter (fun x => p x) l) = omap f l.
Proof.
  intros Hp. induction l as [ | x l IH ]; [ reflexivity | ].
  rewrite filter_cons. destruct (p x) eqn:Hx.
  - simpl. destruct (f x); [ f_equal; exact IH | exact IH ].
  - simpl. rewrite (Hp x Hx). exact IH.
Qed.

Lemma omap_name_of_tags (cs : list node) :
  omap name_of (filter (fun d => is_tag d) cs) = omap name_of cs.
Proof. apply omap_filter_none. by intros [ | | ]. Qed.

Lemma child_tag_names_contents name attrs cs :
  child_tag_names (Tag name attrs cs)
  = filter (fun n => Py.truthy n) (omap name_of cs).
Proof.
  unfold child_tag_names, find_all_children. cbn [contents_of].
  by rewrite omap_name_of_tags.
Qed.

Lemma omap_map_same {A B} (g : A -> option B) (f : A -> A) (l : list A) :
  (forall x, g (f x) = g x) -> omap g (map f l) = omap g l.
Proof.
  intros Hf. induction l as [ | x l IH ]; [ reflexivity | ].
  simpl. rewrite Hf. destruct (g x); [ f_equal; exact IH | exact IH ].
Qed.

Lemma omap_name_of_map (f : node -> node) (cs : list node) :
  (forall c, name_of (f c) = name_of c) ->
  omap name_of (map f cs) = omap name_of cs.
Proof. apply omap_map_same. Qed.

Lemma omap_name_of_no_comment (cs : list node) :
  omap name_of (filter (fun c => no_comment c) cs) = omap name_of cs.
Proof. apply omap_filter_none. by intros [ | | ]. Qed.

Lemma get_filter_kept key attrs :
  Py.in_list key attrs_to_keep = true ->
  get key (filter (fun kv => Py.in_list kv.1 attrs_to_keep) attrs) = get key attrs.
Proof.
  intros Hkey. induction attrs as [ | [k v] attrs IH ]; [ reflexivity | ].
  rewrite filter_cons. simpl.
  destruct (String.eqb k key) eqn:Hk.
  - apply String.eqb_eq in Hk as ->.
    rewrite decide_True by (by apply Is_true_eq_left).
    simpl. by rewrite String.eqb_refl.
  - destruct (decide _); [ | exact IH ]. simpl. by rewrite Hk.
Qed.

(** The fingerprint reads the name, the class and, for a container tag,
    the names of the children. *)
Lemma hash_element_reads name attrs attrs' (cs cs' : list node) :
  get "class" attrs = get "class" attrs' ->
  (Py.in_list name structural_tags = true ->
   omap name_of cs = omap name_of cs') ->
  hash_element (Tag name attrs cs) = hash_element (Tag name attrs' cs').
Proof.
  intros Hc Hk. unfold hash_element.
  destruct (negb (Py.truthy name)); [ reflexivity | ].
  f_equal. f_equal. apply structure_of_eq.
  - unfold sorted_classes. by rewrite Hc.
  - intros Hs. by rewrite !child_tag_names_contents, (Hk Hs).
Qed.

Lemma name_of_remove_comments c : name_of (remove_comments c) = name_of c.
Proof. by destruct c. Qed.

Lemma name_of_clear_scripts c : name_of (clear_scripts c) = name_of c.
Proof. destruct c; try done. cbn [clear_scripts]. by destruct (_ && _). Qed.

Lemma name_of_keep_attrs c : name_of (keep_attrs c) = name_of c.
Proof. by destruct c. Qed.

Lemma name_of_shorten_texts up c : name_of (shorten_texts up c) = name_of c.
Proof. destruct c; try done; cbn [shorten_texts]; by destruct (is_long_text _ _). Qed.

Lemma hash_element_remove_comments c :
  hash_element (remove_comments c) = hash_element c.
Proof.
  destruct c as [name attrs cs | s | s]; try done.
  rewrite remove_comments_tag. apply hash_element_reads; [ reflexivity | ].
  intros _. rewrite omap_name_of_map by apply name_of_remove_comments.
  apply omap_name_of_no_comment.
Qed.

Lemma structural_not_cdata name :
  Py.in_list name cdata_tags = true -> Py.in_list name structural_tags = false.
Proof.
  unfold Py.in_list. simpl. rewrite !orb_false_r. intros H.
  apply orb_true_iff in H as [H | H]; apply String.eqb_eq in H; by subst.
Qed.

Lemma hash_element_clear_scripts c :
  hash_element (clear_scripts c) = hash_element c.
Proof.
  destruct c as [name attrs cs | s | s]; try done. cbn [clear_scripts].
  destruct (Py.in_list name cdata_tags && _) eqn:Hc.
  - apply andb_true_iff in Hc as [Hcdata _].
    apply hash_element_reads; [ reflexivity | ].
    rewrite (structural_not_cdata _ Hcdata). discriminate.
  - apply hash_element_reads; [ reflexivity | ].
    intros _. apply omap_name_of_map, name_of_clear_scripts.
Qed.

Lemma hash_element_keep_attrs c : hash_element (keep_attrs c) = hash_element c.
Proof.
  destruct c as [name attrs cs | s | s]; try done. cbn [keep_attrs].
  apply hash_element_reads; [ by apply get_filter_kept | ].
  intros _. apply omap_name_of_map, name_of_keep_attrs.
Qed.

Lemma hash_element_shorten_texts up c :
  hash_element (shorten_texts up c) = hash_element c.
Proof.
  destruct c as [name attrs cs | s | s]; cbn [shorten_texts].
  - apply hash_element_reads; [ reflexivity | ].
    intros _. apply omap_name_of_map, name_of_shorten_texts.
  - by destruct (is_long_text up s).
  - by destruct (is_long_text up s).
Qed.

Lemma omap_hash_map (f : node -> node) (cs : list node) :
  (forall c, hash_element (f c) = hash_element c) ->
  omap hash_element (map f cs) = omap hash_element cs.
Proof. apply omap_map_same. Qed.

Lemma omap_hash_no_comment (cs : list node) :
  omap hash_element (filter (fun c => no_comment c) cs) = omap hash_element cs.
Proof. apply omap_filter_none. by intros [ | | ]. Qed.

Lemma clean_copy_fingerprints copy :
  omap hash_element (contents_of (clean_copy copy))
  = omap hash_element (contents_of copy).
Proof.
  destruct copy as [name attrs cs | s | s].
  - unfold clean_copy. rewrite remove_comments_tag. simpl.
    rewrite !omap_hash_map.
    + apply omap_hash_no_comment.
    + apply hash_element_remove_comments.
    + apply hash_element_clear_scripts.
    + apply hash_element_keep_attrs.
    + apply hash_element_shorten_texts.
  - unfold clean_copy. simpl. by destruct (is_long_text "" s).
  - unfold clean_copy. simpl. by destruct (is_long_text "" s).
Qed.

(** X18.  Cleaning changes no fingerprint: the elements at the top of the
    cleaned copy have, one by one, the fingerprints of the elements at the
    top of the copy as it was parsed. *)
Theorem cleaning_keeps_the_fingerprint
    (w : world) (element cleaned : node) :
  clean_element w element = Ok cleaned ->
  exists copy,
    BeautifulSoup w (node_str element) = Ok copy /\
    omap hash_element (contents_of cleaned)
    = omap hash_element (contents_of copy).
Proof.
  unfold clean_element.
  destruct (BeautifulSoup w (node_str element)) as [copy | e]; [ | discriminate ].
  intros [= <-]. exists copy. split; [ reflexivity | ].
  apply clean_copy_fingerprints.
Qed.

Lemma cleaning_keeps_the_fingerprint_witness :
  let e := Tag "div" [("class", AttrList ["p-4"]); ("style", AttrStr "x")]
               [Comment "c"; Tag "script" [] [NavigableString "f()"]] in
  exists copy,
    BeautifulSoup (one_file_world "") (node_str e) = Ok copy /\
    omap hash_element (contents_of (clean_copy (HtmlParser.html_parser (node_str e))))
    = omap hash_element (contents_of copy).
Proof.
  intros e.
  apply (cleaning_keeps_the_fingerprint (one_file_world "") e).
  reflexivity.
Defined.

Lemma map_fixed_point {A} (f : A -> A) (l : list A) :
  Forall (fun x => f x = x) l -> map f l = l.
Proof. induction 1 as [ | x l Hx _ IH ]; simpl; [ reflexivity | by rewrite Hx, IH ]. Qed.

Lemma filter_fixed_point {A} (p : A -> bool) (l : list A) :
  forallb p l = true -> filter (fun x => p x) l = l.
Proof.
  induction l as [ | x l IH ]; [ reflexivity | ]. simpl.
  intros H. apply andb_true_iff in H as [Hx Hl].
  rewrite filter_cons, Hx. simpl. by rewrite IH.
Qed.

Lemma forallb_all_in p cs :
  forallb (all_in p) cs = true ->
  forallb p cs = true /\ Forall (fun c => all_in p c = true) cs.
Proof.
  induction cs as [ | c cs IH ]; simpl; [ by split | ].
  intros H. apply andb_true_iff in H as [Hc Hcs].
  destruct (IH Hcs) as [H1 H2]. split.
  - apply andb_true_iff. split; [ | exact H1 ].
    unfold all_in in Hc. by apply andb_true_iff in Hc as [Hc _].
  - by constructor.
Qed.

Lemma remove_comments_fixed n :
  all_below no_comment n = true -> remove_comments n = n.
Proof.
  induction n as [name attrs cs IH | s | s] using node_rect_forall;
    [ | reflexivity | reflexivity ].
  rewrite all_below_tag, remove_comments_tag. intros H.
  destruct (forallb_all_in _ _ H) as [H1 H2].
  rewrite (filter_fixed_point no_comment cs H1). f_equal.
  apply map_fixed_point. rewrite Forall_forall in *.
  intros c Hc. apply (IH c Hc).
  specialize (H2 c Hc). unfold all_in in H2.
  by apply andb_true_iff in H2 as [_ H2].
Qed.

Lemma clear_scripts_fixed n :
  all_in is_settled n = true -> clear_scripts n = n.
Proof.
  induction n as [name attrs cs IH | s | s] using node_rect_forall;
    [ | reflexivity | reflexivity ].
  intros H. apply andb_true_iff in H as [H1 H2].
  cbn [clear_scripts]. unfold is_settled, has_string in H1.
  apply negb_true_iff in H1. rewrite H1. f_equal.
  rewrite all_below_tag in H2. destruct (forallb_all_in _ _ H2) as [_ H3].
  apply map_fixed_point. rewrite Forall_forall in *. intros c Hc. by apply IH, H3.
Qed.

Lemma clear_scripts_is_tag n : is_tag (clear_scripts n) = is_tag n.
Proof. destruct n; try done. cbn [clear_scripts]. by destruct (_ && _). Qed.

Lemma string_of_single name attrs c :
  string_of (Tag name attrs [c])
  = match c with
    | Tag _ _ _ => string_of c
    | NavigableString s | Comment s => Some s
    end.
Proof. reflexivity. Qed.

(** The second loop gives no tag a string that it did not have. *)
Lemma has_string_clear_scripts n :
  has_string (clear_scripts n) = true -> has_string n = true.
Proof.
  induction n as [name attrs cs IH | s | s] using node_rect_forall;
    [ | done | done ].
  cbn [clear_scripts]. destruct (_ && _) eqn:Hc; [ discriminate | ].
  destruct cs as [ | c [ | c' cs ] ]; [ done | | done ].
  apply Forall_cons in IH as [IHc _]. unfold has_string in *.
  cbn [map]. rewrite !string_of_single.
  destruct c as [n a k | s | s]; [ | done | done ].
  cbn [clear_scripts] in *. destruct (_ && _); [ discriminate | exact IHc ].
Qed.

Lemma clear_scripts_tag name attrs cs :
  clear_scripts (Tag name attrs cs)
  = if Py.in_list name cdata_tags && has_string (Tag name attrs cs)
    then Tag name attrs [NavigableString ""]
    else Tag name attrs (map clear_scripts cs).
Proof. reflexivity. Qed.

Lemma clear_scripts_settles n : all_in is_settled (clear_scripts n) = true.
Proof.
  induction n as [name attrs cs IH | s | s] using node_rect_forall;
    [ | reflexivity | reflexivity ].
  pose proof (has_string_clear_scripts (Tag name attrs cs)) as Hs.
  rewrite clear_scripts_tag in *.
  destruct (Py.in_list name cdata_tags && has_string (Tag name attrs cs)) eqn:Hc.
  - unfold all_in, is_settled, has_string.
    cbn [string_of Py.truthy all_below forallb]. by rewrite andb_false_r.
  - unfold all_in. apply andb_true_iff. split.
    + unfold is_settled. apply negb_true_iff.
      destruct (has_string (Tag name attrs (map clear_scripts cs)));
        [ | by rewrite andb_false_r ].
      by rewrite (Hs eq_refl) in Hc.
    + rewrite all_below_tag, forallb_over_map. apply forallb_forall.
      intros c Hc'. apply list_elem_of_In in Hc'.
      rewrite Forall_forall in IH. by apply IH.
Qed.

Lemma string_of_keep_attrs n : string_of (keep_attrs n) = string_of n.
Proof.
  induction n as [name attrs cs IH | s | s] using node_rect_forall;
    [ | done | done ].
  cbn [keep_attrs]. destruct cs as [ | c [ | c' cs ] ]; [ done | | done ].
  apply Forall_cons in IH as [IHc _]. cbn [map]. rewrite !string_of_single.
  by destruct c.
Qed.

Lemma keep_attrs_settled n :
  all_in is_settled n = true -> all_in is_settled (keep_attrs n) = true.
Proof.
  induction n as [name attrs cs IH | s | s] using node_rect_forall;
    [ | done | done ].
  intros H. apply andb_true_iff in H as [H1 H2]. apply andb_true_iff. split.
  - unfold is_settled, has_string in *.
    pose proof (string_of_keep_attrs (Tag name attrs cs)) as Hs.
    cbn [keep_attrs] in *. by rewrite Hs.
  - cbn [keep_attrs]. rewrite all_below_tag in *.
    apply forallb_all_in_map; [ | exact H2 ]. exact IH.
Qed.

Lemma is_long_text_truthy up s : is_long_text up s = true -> Py.truthy s = true.
Proof.
  unfold is_long_text. intros H. apply andb_true_iff in H as [_ H].
  apply Nat.ltb_lt in H. destruct s; [ simpl in H; lia | reflexivity ].
Qed.

Lemma shortened_truthy s : Py.truthy (shortened s) = true.
Proof. unfold shortened. by destruct (Py.take 100 s). Qed.

Lemma has_string_shorten_texts up n :
  is_tag n = true -> has_string (shorten_texts up n) = has_string n.
Proof.
  revert up.
  induction n as [name attrs cs IH | s | s] using node_rect_forall;
    [ | done | done ].
  intros up _. cbn [shorten_texts].
  destruct cs as [ | c [ | c' cs ] ]; [ done | | done ].
  apply Forall_cons in IH as [IHc _]. unfold has_string in *.
  cbn [map]. rewrite !string_of_single.
  destruct c as [n a k | s | s].
  - cbn [shorten_texts]. apply (IHc name eq_refl).
  - cbn [shorten_texts]. destruct (is_long_text name s) eqn:Hl; [ | done ].
    by rewrite shortened_truthy, (is_long_text_truthy _ _ Hl).
  - cbn [shorten_texts]. destruct (is_long_text name s) eqn:Hl; [ | done ].
    by rewrite shortened_truthy, (is_long_text_truthy _ _ Hl).
Qed.

Lemma shorten_texts_settled n up :
  all_in is_settled n = true -> all_in is_settled (shorten_texts up n) = true.
Proof.
  revert up.
  induction n as [name attrs cs IH | s | s] using node_rect_forall; intros up H.
  - apply andb_true_iff in H as [H1 H2]. apply andb_true_iff. split.
    + unfold is_settled in *.
      pose proof (has_string_shorten_texts up (Tag name attrs cs) eq_refl) as Hs.
      cbn [shorten_texts] in *. by rewrite Hs.
    + cbn [shorten_texts]. rewrite all_below_tag in *.
      apply forallb_all_in_map; [ | exact H2 ].
      eapply Forall_impl; [ exact IH | ]. intros c Hc. apply Hc.
  - cbn [shorten_texts]. by destruct (is_long_text up s).
  - cbn [shorten_texts]. by destruct (is_long_text up s).
Qed.

Lemma keep_attrs_fixed n :
  all_in only_kept_attrs n = true -> keep_attrs n = n.
Proof.
  induction n as [name attrs cs IH | s | s] using node_rect_forall;
    [ | reflexivity | reflexivity ].
  intros H. apply andb_true_iff in H as [H1 H2]. cbn [keep_attrs].
  simpl in H1.
  rewrite (filter_fixed_point (fun kv => Py.in_list kv.1 attrs_to_keep) attrs H1).
  f_equal. rewrite all_below_tag in H2.
  destruct (forallb_all_in _ _ H2) as [_ H3].
  apply map_fixed_point. rewrite Forall_forall in *. intros c Hc. by apply IH, H3.
Qed.

Lemma string_length_take k s : k <= String.length s -> String.length (Py.take k s) = k.
Proof.
  revert s. induction k as [ | k IH ]; intros s H; [ reflexivity | ].
  destruct s as [ | c s ]; simpl in *; [ lia | ]. rewrite IH; lia.
Qed.

Lemma take_append_exact (a b : string) : Py.take (String.length a) (a +:+ b) = a.
Proof. induction a as [ | c a IH ]; simpl; [ by destruct b | by rewrite IH ]. Qed.

Lemma shortened_shortened s :
  100 <= String.length s -> shortened (shortened s) = shortened s.
Proof.
  intros H. unfold shortened.
  pose proof (take_append_exact (Py.take 100 s) "...") as Ht.
  rewrite (string_length_take 100 s H) in Ht. by rewrite Ht.
Qed.

Lemma shorten_texts_shortened up s :
  is_long_text up s = true ->
  (if is_long_text up (shortened s)
   then NavigableString (shortened (shortened s))
   else NavigableString (shortened s)) = NavigableString (shortened s).
Proof.
  intros Hl. destruct (is_long_text up (shortened s)); [ | reflexivity ].
  rewrite shortened_shortened; [ reflexivity | ].
  unfold is_long_text in Hl. apply andb_true_iff in Hl as [_ Hl].
  apply Nat.ltb_lt in Hl. pose proof (strip_length s). lia.
Qed.

Lemma shorten_texts_twice n up :
  shorten_texts up (shorten_texts up n) = shorten_texts up n.
Proof.
  revert up.
  induction n as [name attrs cs IH | s | s] using node_rect_forall; intros up.
  - cbn [shorten_texts]. f_equal. rewrite map_map.
    apply map_ext_Forall. eapply Forall_impl; [ exact IH | ].
    intros c Hc. apply Hc.
  - cbn [shorten_texts]. destruct (is_long_text up s) eqn:Hl.
    + cbn [shorten_texts]. by apply shorten_texts_shortened.
    + cbn [shorten_texts]. by rewrite Hl.
  - cbn [shorten_texts]. destruct (is_long_text up s) eqn:Hl.
    + cbn [shorten_texts]. by apply shorten_texts_shortened.
    + cbn [shorten_texts]. by rewrite Hl.
Qed.

Lemma below_root_fixed f root :
  Forall (fun c => f c = c) (contents_of root) -> below_root f root = root.
Proof.
  destruct root as [name attrs cs | s | s]; try done. simpl.
  intros H. by rewrite (map_fixed_point f cs H).
Qed.

Lemma all_below_contents p root :
  all_below p root = true -> Forall (fun c => all_in p c = true) (contents_of root).
Proof.
  destruct root as [name attrs cs | s | s]; [ | by constructor | by constructor ].
  rewrite all_below_tag. intros H. by destruct (forallb_all_in _ _ H).
Qed.

Lemma clean_copy_settled root : all_below is_settled (clean_copy root) = true.
Proof.
  unfold clean_copy.
  set (x := remove_comments root).
  assert (all_below is_settled (below_root clear_scripts x) = true) as H1.
  { destruct x as [name attrs cs | s | s]; try done.
    simpl below_root. rewrite all_below_tag, forallb_over_map.
    apply forallb_forall. intros c _. apply clear_scripts_settles. }
  assert (all_below is_settled
            (below_root keep_attrs (below_root clear_scripts x)) = true) as H2.
  { apply below_root_all_below; [ apply keep_attrs_settled | exact H1 ]. }
  destruct (below_root keep_attrs (below_root clear_scripts x))
    as [name attrs cs | s | s].
  - cbn [shorten_texts]. rewrite all_below_tag in *.
    apply forallb_all_in_map; [ | exact H2 ].
    apply Forall_forall. intros c _. apply shorten_texts_settled.
  - cbn [shorten_texts]. by destruct (is_long_text "" s).
  - cbn [shorten_texts]. by destruct (is_long_text "" s).
Qed.

Lemma clean_copy_twice root : clean_copy (clean_copy root) = clean_copy root.
Proof.
  set (x := clean_copy root).
  assert (remove_comments x = x) as H1
    by apply remove_comments_fixed, clean_copy_no_comment.
  assert (below_root clear_scripts x = x) as H2.
  { apply below_root_fixed.
    eapply Forall_impl; [ apply all_below_contents, clean_copy_settled | ].
    intros c. apply clear_scripts_fixed. }
  assert (below_root keep_attrs x = x) as H3.
  { apply below_root_fixed.
    eapply Forall_impl; [ apply all_below_contents, clean_copy_only_kept | ].
    intros c. apply keep_attrs_fixed. }
  unfold clean_copy at 1. rewrite H1, H2, H3.
  subst x. unfold clean_copy. apply shorten_texts_twice.
Qed.

(** X19.  Cleaning is idempotent: the four loops of [clean_element], run
    once more over a cleaned copy, change nothing. *)
Theorem cleaning_twice_changes_nothing
    (w : world) (element cleaned : node) :
  clean_element w element = Ok cleaned ->
  clean_copy cleaned = cleaned.
Proof.
  unfold clean_element.
  destruct (BeautifulSoup w (node_str element)) as [copy | e]; [ | discriminate ].
  intros [= <-]. apply clean_copy_twice.
Qed.

Lemma cleaning_twice_changes_nothing_witness :
  let e := Tag "div" [("class", AttrList ["p-4"]); ("style", AttrStr "x")]
               [Comment "c"; Tag "script" [] [NavigableString "f()"]] in
  let cleaned := clean_copy (HtmlParser.html_parser (node_str e)) in
  clean_copy cleaned = cleaned.
Proof.
  intros e cleaned.
  apply (cleaning_twice_changes_nothing (one_file_world "") e).
  reflexivity.
Defined.

(** ** The pattern of the first pass, on the tokens of a class list *)

Lemma prefix_before_space (p token rest : string) :
  no_space p = true -> no_space token = true ->
  String.prefix p (token +:+ String " " rest) = String.prefix p token.
Proof.
  revert token. induction p as [ | a p IH ]; intros token Hp Ht.
  - by destruct token.
  - simpl in Hp. apply andb_true_iff in Hp as [Ha Hp].
    destruct token as [ | b token ]; simpl.
    + destruct (ascii_dec a " ") as [-> | Hne]; [ discriminate | reflexivity ].
    + simpl in Ht. apply andb_true_iff in Ht as [_ Ht].
      destruct (ascii_dec a b); [ by apply IH | reflexivity ].
Qed.

Lemma starts_with_marker_before_space token rest :
  no_space token = true ->
  starts_with_marker (token +:+ String " " rest) = starts_with_marker token.
Proof.
  intros Ht. unfold starts_with_marker, tailwind_markers.
  cbn [existsb]. by rewrite !prefix_before_space.
Qed.

Lemma marker_after_space_token token rest :
  no_space token = true ->
  marker_after_space (token +:+ String " " rest)
  = starts_with_marker rest || marker_after_space rest.
Proof.
  induction token as [ | c token IH ]; intros Ht.
  - reflexivity.
  - simpl in Ht. apply andb_true_iff in Ht as [Hc Ht].
    apply negb_true_iff in Hc.
    change (marker_after_space (String c (token +:+ String " " rest))
            = starts_with_marker rest || marker_after_space rest).
    cbn [marker_after_space]. rewrite Hc. simpl. by apply IH.
Qed.

Lemma marker_after_space_none token :
  no_space token = true -> marker_after_space token = false.
Proof.
  induction token as [ | c token IH ]; intros Ht; [ reflexivity | ].
  simpl in Ht. apply andb_true_iff in Ht as [Hc Ht].
  apply negb_true_iff in Hc. cbn [marker_after_space]. rewrite Hc. simpl.
  by apply IH.
Qed.

Lemma join_two (sep x y : string) (l : list string) :
  Py.join sep (x :: y :: l) = x +:+ sep +:+ Py.join sep (y :: l).
Proof. reflexivity. Qed.

Lemma tailwind_search_tokens (classes : list string) :
  Forall (fun c => no_space c = true) classes ->
  tailwind_search (Py.join " " classes) = existsb starts_with_marker classes.
Proof.
  induction 1 as [ | c classes Hc Hcs IH ]; [ reflexivity | ].
  destruct classes as [ | c' classes ].
  - unfold tailwind_search. simpl Py.join. cbn [existsb].
    by rewrite (marker_after_space_none c Hc).
  - rewrite join_two. unfold tailwind_search in *.
    change (c +:+ " " +:+ Py.join " " (c' :: classes))
      with (c +:+ String " " (Py.join " " (c' :: classes))).
    rewrite starts_with_marker_before_space, marker_after_space_token by done.
    rewrite IH. reflexivity.
Qed.

(** X20.  On a class list made of tokens without white space, as the
    parser makes them, the pattern of the first pass finds a match in the
    joined class string exactly when one of the classes starts with one
    of the eleven markers: [flex-col] and [bg-red-500] match, [inline-flex]
    and [my-2] do not. *)
Theorem pattern_reads_class_tokens (classes : list string) :
  Forall (fun c => no_space c = true) classes ->
  tailwind_search (Py.join " " classes)
  = existsb (fun c => existsb (fun marker => Py.startswith c marker)
                              tailwind_markers)
            classes.
Proof. apply tailwind_search_tokens. Qed.

Lemma pattern_reads_class_tokens_witness :
  tailwind_search (Py.join " " ["inline-flex"; "my-2"]) = false /\
  tailwind_search (Py.join " " ["card"; "flex-col"]) = true.
Proof.
  split.
  - rewrite (pattern_reads_class_tokens ["inline-flex"; "my-2"]);
      [ reflexivity | by repeat constructor ].
  - rewrite (pattern_reads_class_tokens ["card"; "flex-col"]);
      [ reflexivity | by repeat constructor ].
Defined.

(** ** The first pass of the selection *)

Lemma first_pass_fold (l : list node) (acc : selection) :
  foldl first_pass_step acc l
  = (acc.1 ++ filter (fun tag => tailwind_search (class_str_of tag)) l,
     acc.2 + length (filter (fun tag => tailwind_search (class_str_of tag)) l)).
Proof.
  revert acc. induction l as [ | tag l IH ]; intros acc; simpl.
  - rewrite app_nil_r, Nat.add_0_r. by destruct acc.
  - rewrite IH, filter_cons. unfold first_pass_step.
    destruct (tailwind_search (class_str_of tag)); simpl.
    + rewrite <- app_assoc. simpl. f_equal. lia.
    + reflexivity.
Qed.

Lemma first_pass_filter soup :
  (first_pass soup).1
  = filter (fun tag => tailwind_search (class_str_of tag)) (find_all_with_class soup).
Proof. unfold first_pass. by rewrite first_pass_fold. Qed.

Lemma second_pass_step_prefix ct acc tag :
  acc.1 `prefix_of` (second_pass_step ct acc tag).1.
Proof.
  destruct (second_pass_step_cases ct acc tag) as [-> | [-> _]];
    [ done | by apply prefix_app_r ].
Qed.

Lemma second_pass_prefix soup acc : acc.1 `prefix_of` (second_pass soup acc).1.
Proof.
  unfold second_pass.
  apply (foldl_invariant (fun a => acc.1 `prefix_of` a.1)); [ done | ].
  intros a ct _ Ha.
  apply (foldl_invariant (fun a' => acc.1 `prefix_of` a'.1)); [ exact Ha | ].
  intros a' tag _ Ha'. etrans; [ exact Ha' | apply second_pass_step_prefix ].
Qed.

Lemma existsb_markers (c : string) :
  starts_with_marker c = true <->
  exists marker, marker ∈ tailwind_markers /\ Py.startswith c marker = true.
Proof.
  unfold starts_with_marker. rewrite existsb_exists. split.
  - intros (m & Hm & H). exists m. split; [ by apply list_elem_of_In | exact H ].
  - intros (m & Hm & H). exists m. split; [ by apply list_elem_of_In | exact H ].
Qed.

(** X21.  The first pass selects, in the order of the document and as
    often as they occur, the tags that carry a class whose string matches
    the pattern; the second pass only appends to this selection.  For a
    class list made of tokens without white space, as the parser makes
    them, the tag is selected by the first pass exactly when one of its
    classes starts with one of the eleven markers. *)
Theorem first_pass_selects_by_token (soup : node) :
  (first_pass soup).1
  = filter (fun tag => tailwind_search (class_str_of tag))
           (filter (fun tag => has_class tag) (find_all_tags soup)) /\
  (first_pass soup).2 = length (first_pass soup).1 /\
  (first_pass soup).1 `prefix_of` (select_elements soup).1 /\
  (forall name attrs cs classes,
     Tag name attrs cs ∈ descendants soup ->
     get "class" attrs = Some (AttrList classes) ->
     Forall (fun c => no_space c = true) classes ->
     (Tag name attrs cs ∈ (first_pass soup).1 <->
      exists c marker, c ∈ classes /\ marker ∈ tailwind_markers /\
                       Py.startswith c marker = true)).
Proof.
  split; [ apply first_pass_filter | ].
  split; [ unfold first_pass; by rewrite first_pass_fold | ].
  split; [ apply second_pass_prefix | ].
  intros name attrs cs classes Hd Hc Hs.
  rewrite first_pass_filter, list_elem_of_filter.
  unfold find_all_with_class, find_all_tags. rewrite !list_elem_of_filter.
  cbn [class_str_of has_class is_tag]. rewrite Hc.
  rewrite (tailwind_search_tokens classes Hs).
  split.
  - intros [H _]. apply Is_true_eq_true in H.
    apply existsb_exists in H as (c & Hin & Hm).
    apply existsb_markers in Hm as (m & Hm & Hp).
    exists c, m. split; [ by apply list_elem_of_In | done ].
  - intros (c & m & Hin & Hm & Hp). split; [ | done ].
    apply Is_true_eq_left, existsb_exists. exists c.
    split; [ by apply list_elem_of_In | ].
    apply existsb_markers. by exists m.
Qed.

(** ** A failure in the middle of a scan *)

Lemma hash_element_truthy e h : hash_element e = Some h -> Py.truthy h = true.
Proof.
  destruct e as [name attrs cs | s | s]; try done. unfold hash_element.
  destruct (negb (Py.truthy name)); [ done | ].
  intros [= <-]. apply hexdigest_truthy.
Qed.

(** X22.  When the cleaning of an accepted element raises, its hash is
    already in the index: the element is neither stored nor counted, and
    every later element with the same fingerprint is counted as a
    duplicate of it. *)
Theorem failed_cleaning_blocks_the_fingerprint
    (w : world) (element : node) (source_file : string) (st : state)
    (h : string) (x : exception) :
  hash_element element = Some h ->
  h ∉ element_hashes st ->
  clean_element w element = Err x ->
  process_element w element source_file st = (Err (Exc x), add_hash h st) /\
  element_groups (add_hash h st) = element_groups st /\
  stats (add_hash h st) = stats st /\
  (forall other f,
     hash_element other = Some h ->
     process_element w other f (add_hash h st)
     = (Ok tt, with_stats incr_duplicate_elements (add_hash h st))).
Proof.
  intros He Hin Hclean.
  pose proof (hash_element_truthy _ _ He) as Ht.
  split; [ | split; [ reflexivity | split; [ reflexivity | ] ] ].
  - destruct (process_element_accepted w element source_file st)
      as (h' & He' & ->).
    + unfold dedup_verdict. rewrite He, Ht. by rewrite bool_decide_eq_false_2.
    + rewrite Hclean. congruence.
  - intros other f Ho. apply process_element_duplicate.
    unfold dedup_verdict. rewrite Ho, Ht.
    rewrite bool_decide_eq_true_2; [ reflexivity | ]. simpl. set_solver.
Qed.

Lemma failed_cleaning_blocks_the_fingerprint_witness :
  let e := Tag "div" [("class", AttrList ["p-4"])] [] in
  process_element failing_world e "a.html" state0
  = (Err (Exc (ParserRejectedMarkup "rejected")),
     add_hash (MD5.hexdigest "div:p-4:") state0).
Proof.
  intros e.
  apply (failed_cleaning_blocks_the_fingerprint failing_world e "a.html" state0
           (MD5.hexdigest "div:p-4:") (ParserRejectedMarkup "rejected")).
  - reflexivity.
  - apply not_elem_of_empty.
  - reflexivity.
Defined.

Lemma process_element_same_found w e f :
  steps_in (fun a b => elements_found (stats b) = elements_found (stats a))
           (process_element w e f).
Proof.
  apply process_element_steps; [ done | intros a b c; congruence | .. ];
    intros; reflexivity.
Qed.

(** X23.  A scan that is interrupted by an exception reports no element:
    [extract_elements_from_html] returns 0 and [elements_found] stays as
    it was, although the candidates before the failure have been stored
    and counted as unique or duplicate, and stay so. *)
Theorem interrupted_scan_reports_nothing
    (w : world) (self : extractor) (html_content source_file : string)
    (st st1 : state) (x : exception) :
  scan_document w html_content source_file st = (Err (Exc x), st1) ->
  Py.strip html_content <> "" ->
  exists st2,
    extract_elements_from_html w self html_content source_file st = (Ok 0, st2) /\
    same_data st1 st2 /\
    elements_found (stats st2) = elements_found (stats st) /\
    grows st st2.
Proof.
  intros Hscan Hblank. unfold extract_elements_from_html.
  assert (negb (Py.truthy html_content) || String.eqb (Py.strip html_content) ""
          = false) as ->.
  { apply orb_false_iff. split.
    - destruct html_content; [ done | reflexivity ].
    - by apply String.eqb_neq. }
  unfold try_except. rewrite Hscan.
  destruct (only_prints_bind
              (print_if (verbose self)
                 ("Error extracting elements from " +:+ source_file +:+ ": "
                  +:+ exception_str x))
              (fun _ => ret 0)
              (only_prints_print_if _ _) (fun _ => only_prints_ret 0) st1)
    as (n & st2 & H2 & Hq).
  assert (n = 0) as ->.
  { unfold bind in H2. destruct (print_if _ _ st1) as [[[] | ?] ?];
      [ by injection H2 as <- _ | discriminate ]. }
  exists st2. split; [ exact H2 | ].
  destruct Hq as (Q1 & Q2 & Q3 & Q4).
  split; [ repeat split; congruence | ].
  assert (elements_found (stats st1) = elements_found (stats st)
          /\ grows st st1) as [Hf Hg].
  { unfold scan_document in Hscan. unfold bind at 1 in Hscan.
    unfold call in Hscan.
    destruct (BeautifulSoup w html_content) as [soup | e]; simpl in Hscan;
      [ | injection Hscan as _ <-; split; [ reflexivity | apply grows_refl ] ].
    destruct (select_elements soup) as [significant total].
    unfold bind at 1 in Hscan.
    pose proof (steps_for_each _ (fun st => eq_refl)
                  (fun a b c (H1 : elements_found (stats b) = elements_found (stats a))
                       (H2 : elements_found (stats c) = elements_found (stats b)) =>
                     eq_trans H2 H1)
                  significant _
                  (fun e => process_element_same_found w e source_file) st) as Hf.
    pose proof (steps_for_each grows grows_refl grows_trans significant _
                  (fun e => process_element_grows w e source_file) st) as Hg.
    destruct (for_each significant _ st) as [[[] | r] st'];
      [ discriminate | ].
    injection Hscan as _ <-. by split. }
  split; [ by rewrite <- Q3 | ].
  eapply grows_trans; [ exact Hg | ].
  destruct (print_if_returns (verbose self)
              ("Error extracting elements from " +:+ source_file +:+ ": "
               +:+ exception_str x) st1) as ([] & st2' & Hp).
  pose proof (print_if_steps grows grows_refl grows_print (verbose self)
                ("Error extracting elements from " +:+ source_file +:+ ": "
                 +:+ exception_str x) st1) as Hgp.
  unfold bind in H2. rewrite Hp in H2, Hgp. injection H2 as <-. exact Hgp.
Qed.

Lemma interrupted_scan_reports_nothing_witness :
  exists st2,
    extract_elements_from_html unclean_world static_extractor
      "<p class='p-1'></p>" "a.html" state0 = (Ok 0, st2) /\
    elements_found (stats st2) = 0.
Proof.
  destruct (interrupted_scan_reports_nothing unclean_world static_extractor
              "<p class='p-1'></p>" "a.html" state0
              (add_hash (MD5.hexdigest "p:p-1") state0)
              (ParserRejectedMarkup "rejected"))
    as (st2 & H1 & _ & H2 & _).
  - vm_compute. reflexivity.
  - discriminate.
  - exists st2. split; [ exact H1 | exact H2 ].
Defined.

(** ** What the static analysis strips *)

Lemma str_in_tail needle c t :
  Py.str_in needle (String c t) = false -> Py.str_in needle t = false.
Proof.
  cbn [Py.str_in]. intros H. by apply orb_false_iff in H as [_ H].
Qed.

Lemma str_in_drop needle k s :
  Py.str_in needle s = false -> Py.str_in needle (Py.drop k s) = false.
Proof.
  revert s. induction k as [ | k IH ]; intros s H; [ exact H | ].
  destruct s as [ | c t ]; [ exact H | ].
  simpl. apply IH. by apply (str_in_tail needle c t).
Qed.

Lemma str_in_head needle s :
  Py.str_in needle s = false -> String.prefix needle s = false.
Proof.
  destruct s as [ | c t ]; cbn [Py.str_in]; intros H;
    by apply orb_false_iff in H as [H _].
Qed.

Lemma string_prefix_longer (p q s : string) :
  String.prefix p s = false -> String.prefix (p +:+ q) s = false.
Proof.
  revert s. induction p as [ | a p IH ]; intros s H.
  - by destruct s.
  - destruct s as [ | b s ]; [ reflexivity | ]. simpl in *.
    destruct (ascii_dec a b); [ by apply IH | reflexivity ].
Qed.

(** Without a closing marker nothing is a PHP block. *)
Lemma php_html_sub_unclosed content :
  Py.str_in "?>" content = false -> php_html_sub content = content.
Proof.
  unfold php_html_sub. induction content as [ | c t IH ]; [ reflexivity | ].
  intros H. cbn [php_html_sub_from].
  rewrite (str_in_drop "?>" 5 _ H), (str_in_drop "?>" 3 _ H), !andb_false_r.
  f_equal. apply IH. by apply (str_in_tail "?>" c t).
Qed.

(** Without an opening marker nothing is a PHP block. *)
Lemma php_html_sub_unopened content :
  Py.str_in "<?" content = false -> php_html_sub content = content.
Proof.
  unfold php_html_sub. induction content as [ | c t IH ]; [ reflexivity | ].
  intros H. cbn [php_html_sub_from].
  pose proof (str_in_head "<?" _ H) as Hp.
  assert (String.prefix "<?php" (String c t) = false) as ->
    by apply (string_prefix_longer "<?" "php" _ Hp).
  assert (String.prefix "<?=" (String c t) = false) as ->
    by apply (string_prefix_longer "<?" "=" _ Hp).
  cbn [andb]. f_equal. apply IH. by apply (str_in_tail "<?" c t).
Qed.

(** X24.  A PHP block is stripped only when it is closed: in a text with
    no closing marker [?>] (a PHP file that never closes its block), or
    with no opening marker, the static analysis strips nothing, and the
    whole text, PHP code included, is handed to the scanner, followed by
    the literals of its [echo] statements. *)
Theorem unclosed_php_is_not_stripped
    (w : world) (self : extractor) (file content : string) (st : state) :
  Py.str_in "?>" content = false \/ Py.str_in "<?" content = false ->
  read_text w file = Ok content ->
  php_html_sub content = content /\
  extract_html_from_php_static w self file st
  = (Ok (content +:+ " " +:+ Py.join " " (php_echo_findall content)), st).
Proof.
  intros Hno Hread.
  assert (php_html_sub content = content) as Hsub
    by (destruct Hno; [ by apply php_html_sub_unclosed
                      | by apply php_html_sub_unopened ]).
  split; [ exact Hsub | ].
  rewrite (static_read_succeeds w self file content st Hread).
  unfold combined_html. by rewrite Hsub.
Qed.

Lemma unclosed_php_is_not_stripped_witness :
  php_html_sub "<?php echo 1;" = "<?php echo 1;".
Proof.
  apply (unclosed_php_is_not_stripped (one_file_world "<?php echo 1;")
           static_extractor "a.php" "<?php echo 1;" state0).
  - left. reflexivity.
  - reflexivity.
Defined.

Lemma string_prefix_append (p s : string) : String.prefix p (p +:+ s) = true.
Proof.
  induction p as [ | a p IH ]; [ by destruct s | ]. simpl.
  destruct (ascii_dec a a); [ exact IH | done ].
Qed.

Lemma str_in_append (needle a b : string) :
  Py.str_in needle (a +:+ needle +:+ b) = true.
Proof.
  induction a as [ | x a IH ].
  - change (Py.str_in needle (needle +:+ b) = true).
    destruct (needle +:+ b) eqn:E; cbn [Py.str_in]; rewrite <- E;
      by rewrite string_prefix_append.
  - change (Py.str_in needle (String x (a +:+ needle +:+ b)) = true).
    cbn [Py.str_in]. rewrite IH. apply orb_true_r.
Qed.

(** A two-character marker does not start in a text without it, even when
    the text is followed by the first character of the marker. *)
Lemma no_marker_before (m1 m2 : ascii) (a rest : string) :
  m1 <> m2 ->
  Py.str_in (String m1 (String m2 "")) (String m1 a) = false ->
  String.prefix (String m1 (String m2 "")) (String m1 (a +:+ String m1 rest))
  = false.
Proof.
  intros Hne H. apply str_in_head in H. simpl in *.
  destruct (ascii_dec m1 m1); [ | done ].
  destruct a as [ | y a ]; simpl in *.
  - destruct (ascii_dec m2 m1); [ congruence | reflexivity ].
  - destruct (ascii_dec m2 y); [ | reflexivity ].
    destruct a; simpl in *; discriminate.
Qed.

Lemma copying_before (before rest : string) :
  Py.str_in "<?" before = false ->
  php_html_sub_from Copying (before +:+ String "<" rest)
  = before +:+ php_html_sub_from Copying (String "<" rest).
Proof.
  induction before as [ | x a IH ]; intros H; [ reflexivity | ].
  change (php_html_sub_from Copying (String x (a +:+ String "<" rest))
          = String x (a +:+ php_html_sub_from Copying (String "<" rest))).
  cbn [php_html_sub_from].
  assert (String.prefix "<?" (String x (a +:+ String "<" rest)) = false) as Hp.
  { destruct (ascii_dec x "<") as [-> | Hx].
    - apply (no_marker_before "<" "?"); [ discriminate | exact H ].
    - cbn [String.prefix]. destruct (ascii_dec "<" x); [ congruence | reflexivity ]. }
  assert (String.prefix "<?php" (String x (a +:+ String "<" rest)) = false) as ->
    by apply (string_prefix_longer "<?" "php" _ Hp).
  assert (String.prefix "<?=" (String x (a +:+ String "<" rest)) = false) as ->
    by apply (string_prefix_longer "<?" "=" _ Hp).
  cbn [andb]. f_equal. apply IH. by apply (str_in_tail "<?" x a).
Qed.

Lemma opening_through (code after : string) :
  Py.str_in "?>" code = false ->
  php_html_sub_from (Opening 0) (code +:+ "?>" +:+ after)
  = php_html_sub_from Copying after.
Proof.
  induction code as [ | x b IH ]; intros H.
  - change (php_html_sub_from (Opening 0) (String "?" (String ">" after))
            = php_html_sub_from Copying after).
    cbn [php_html_sub_from]. simpl String.prefix. by destruct after.
  - change (php_html_sub_from (Opening 0) (String x (b +:+ "?>" +:+ after))
            = php_html_sub_from Copying after).
    cbn [php_html_sub_from].
    assert (String.prefix "?>" (String x (b +:+ String "?" (String ">" after)))
            = false) as Hp.
    { destruct (ascii_dec x "?") as [-> | Hx].
      - apply (no_marker_before "?" ">"); [ discriminate | exact H ].
      - cbn [String.prefix].
        destruct (ascii_dec "?" x); [ congruence | reflexivity ]. }
    change (b +:+ "?>" +:+ after) with (b +:+ String "?" (String ">" after)).
    rewrite Hp. apply IH. by apply (str_in_tail "?>" x b).
Qed.

Lemma php_html_sub_block (before code after : string) :
  Py.str_in "<?" before = false ->
  Py.str_in "?>" code = false ->
  php_html_sub (before +:+ "<?php" +:+ code +:+ "?>" +:+ after)
  = before +:+ php_html_sub after /\
  php_html_sub (before +:+ "<?=" +:+ code +:+ "?>" +:+ after)
  = before +:+ php_html_sub after.
Proof.
  intros Hb Hc. unfold php_html_sub. split.
  - change (before +:+ "<?php" +:+ code +:+ "?>" +:+ after)
      with (before +:+ String "<" ("?php" +:+ code +:+ "?>" +:+ after)).
    rewrite (copying_before _ _ Hb). f_equal.
    cbn [php_html_sub_from].
    change (String.prefix "<?php" (String "<" ("?php" +:+ code +:+ "?>" +:+ after)))
      with (String.prefix "<?php" ("<?php" +:+ (code +:+ "?>" +:+ after))).
    rewrite string_prefix_append.
    change (Py.drop 5 (String "<" ("?php" +:+ code +:+ "?>" +:+ after)))
      with (code +:+ "?>" +:+ after).
    rewrite str_in_append. cbn [andb].
    change ("?php" +:+ code +:+ "?>" +:+ after)
      with (String "?" (String "p" (String "h" (String "p"
              (code +:+ "?>" +:+ after))))).
    cbn [php_html_sub_from]. by apply opening_through.
  - change (before +:+ "<?=" +:+ code +:+ "?>" +:+ after)
      with (before +:+ String "<" ("?=" +:+ code +:+ "?>" +:+ after)).
    rewrite (copying_before _ _ Hb). f_equal.
    cbn [php_html_sub_from].
    assert (String.prefix "<?php" (String "<" ("?=" +:+ code +:+ "?>" +:+ after))
            = false) as -> by reflexivity.
    cbn [andb].
    change (String.prefix "<?=" (String "<" ("?=" +:+ code +:+ "?>" +:+ after)))
      with (String.prefix "<?=" ("<?=" +:+ (code +:+ "?>" +:+ after))).
    rewrite string_prefix_append.
    change (Py.drop 3 (String "<" ("?=" +:+ code +:+ "?>" +:+ after)))
      with (code +:+ "?>" +:+ after).
    rewrite str_in_append. cbn [andb].
    change ("?=" +:+ code +:+ "?>" +:+ after)
      with (String "?" (String "=" (code +:+ "?>" +:+ after))).
    cbn [php_html_sub_from]. by apply opening_through.
Qed.

(** X25.  A closed PHP block is stripped whole: when the text before the
    block holds no opening marker and the code of the block no closing
    marker, what is left is the text before the block and the rest of the
    file, stripped in the same way; this for [<?php ... ?>] and for
    [<?= ... ?>]. *)
Theorem closed_php_block_is_stripped (before code after : string) :
  Py.str_in "<?" before = false ->
  Py.str_in "?>" code = false ->
  php_html_sub (before +:+ "<?php" +:+ code +:+ "?>" +:+ after)
  = before +:+ php_html_sub after /\
  php_html_sub (before +:+ "<?=" +:+ code +:+ "?>" +:+ after)
  = before +:+ php_html_sub after.
Proof. apply php_html_sub_block. Qed.

Lemma closed_php_block_is_stripped_witness :
  php_html_sub "<p><?php echo $x; ?></p>" = "<p></p>".
Proof.
  apply (proj1 (closed_php_block_is_stripped "<p>" " echo $x; " "</p>"
                  eq_refl eq_refl)).
Defined.

(** X26.  A file with nothing but white space to scan leaves no trace: in
    static mode, when the text of a markup file, or the text that the
    static analysis makes of a PHP file, is empty or blank, the unit of
    work returns with the state as it was.  The parser is not asked, no
    line is printed and no counter moves. *)
Theorem blank_file_leaves_no_trace
    (w : world) (self : extractor) (file content : string) (st : state) :
  execute_php self = false ->
  read_text w file = Ok content ->
  Py.strip (if Py.endswith file ".php" then combined_html content else content)
  = "" ->
  process_file w self file st = (Ok tt, st).
Proof.
  intros Hoff Hread Hblank. unfold process_file. rewrite Hoff.
  assert (forall html, Py.strip html = "" ->
            extract_elements_from_html w self html file st = (Ok 0, st)) as Hscan.
  { intros html H. unfold extract_elements_from_html.
    rewrite H. simpl. by rewrite orb_true_r. }
  destruct (Py.endswith file ".php").
  - unfold try_except.
    rewrite (bind_ok _ _ _ _ _ (static_read_succeeds w self file content st Hread)).
    by rewrite (bind_ok _ _ _ _ _ (Hscan _ Hblank)).
  - unfold try_except. rewrite Hread. unfold bind at 1. simpl.
    by rewrite (bind_ok _ _ _ _ _ (Hscan _ Hblank)).
Qed.

Lemma blank_file_leaves_no_trace_witness :
  process_file (one_file_world "<?php $x = 1; ?>") static_extractor "a.php" state0
  = (Ok tt, state0).
Proof.
  apply (blank_file_leaves_no_trace (one_file_world "<?php $x = 1; ?>")
           static_extractor "a.php" "<?php $x = 1; ?>" state0);
    reflexivity.
Defined.

(** ** What the report shows *)

Lemma string_prefix_refl (s : string) : String.prefix s s = true.
Proof.
  induction s as [ | a s IH ]; [ reflexivity | ]. simpl.
  destruct (ascii_dec a a); [ exact IH | done ].
Qed.

Lemma str_in_refl (s : string) : Py.str_in s s = true.
Proof. destruct s; cbn [Py.str_in]; by rewrite string_prefix_refl. Qed.

Lemma string_prefix_app_l (p a b : string) :
  String.prefix p a = true -> String.prefix p (a +:+ b) = true.
Proof.
  revert a. induction p as [ | x p IH ]; intros a H.
  - by destruct (a +:+ b).
  - destruct a as [ | y a ]; [ discriminate | ]. simpl in *.
    destruct (ascii_dec x y); [ by apply IH | discriminate ].
Qed.

Lemma str_in_app_l (n a b : string) :
  Py.str_in n a = true -> Py.str_in n (a +:+ b) = true.
Proof.
  induction a as [ | x a IH ]; intros H.
  - cbn [Py.str_in] in H. rewrite orb_false_r in H.
    destruct n; [ | discriminate ]. by destruct ("" +:+ b).
  - change (Py.str_in n (String x (a +:+ b)) = true).
    cbn [Py.str_in] in *. apply orb_true_iff in H as [H | H].
    + apply (string_prefix_app_l n (String x a) b) in H.
      change (String.prefix n (String x (a +:+ b)) = true) in H.
      by rewrite H.
    + rewrite (IH H). apply orb_true_r.
Qed.

Lemma str_in_app_r (n a b : string) :
  Py.str_in n b = true -> Py.str_in n (a +:+ b) = true.
Proof.
  intros H. induction a as [ | x a IH ]; [ exact H | ].
  change (Py.str_in n (String x (a +:+ b)) = true).
  cbn [Py.str_in]. rewrite IH. apply orb_true_r.
Qed.

Lemma string_append_nil_r (s : string) : s +:+ "" = s.
Proof.
  induction s as [ | c s IH ]; [ reflexivity | ].
  change (String c (s +:+ "") = String c s). by rewrite IH.
Qed.

Lemma string_concat_cons (x : string) (l : list string) :
  String.concat "" (x :: l) = x +:+ String.concat "" l.
Proof.
  destruct l as [ | y l ]; [ | reflexivity ].
  cbn [String.concat]. by rewrite string_append_nil_r.
Qed.

Lemma str_in_concat (n x : string) (l : list string) :
  x ∈ l -> Py.str_in n x = true -> Py.str_in n (String.concat "" l) = true.
Proof.
  intros Hin Hx. induction Hin as [ x l | x y l _ IH ]; rewrite string_concat_cons.
  - by apply str_in_app_l.
  - by apply str_in_app_r, IH.
Qed.

Lemma element_block_in_category w self c l i entry :
  l !! i = Some entry ->
  Py.str_in (element_block w self i entry) (category_block w self (c, l)) = true.
Proof.
  intros Hi. unfold category_block. cbn [snd fst].
  destruct l as [ | e l ]; [ done | ].
  apply str_in_app_r. apply (str_in_concat _ (element_block w self i entry)).
  - apply (list_elem_of_lookup_2 _ i). by rewrite list_lookup_imap, Hi.
  - apply str_in_refl.
Qed.

Lemma element_block_in_report w self st c l i entry :
  (c, l) ∈ element_groups st -> l !! i = Some entry ->
  Py.str_in (element_block w self i entry) (report w self st) = true.
Proof.
  intros Hg Hi. unfold report. apply str_in_app_r, str_in_app_r.
  apply (str_in_concat _ (category_block w self (c, l))).
  - apply list_elem_of_fmap. by exists (c, l).
  - by apply element_block_in_category.
Qed.

Lemma heading_in_report w self st c l :
  (c, l) ∈ element_groups st -> l <> [] ->
  Py.str_in (Py.upper (display_name c) +:+ " (" +:+ pretty (length l) +:+
             " elements)")
            (report w self st) = true.
Proof.
  intros Hg Hl. unfold report. apply str_in_app_r, str_in_app_r.
  apply (str_in_concat _ (category_block w self (c, l)));
    [ apply list_elem_of_fmap; by exists (c, l) | ].
  unfold category_block. cbn [fst snd]. destruct l as [ | e l ]; [ done | ].
  apply str_in_app_l. unfold lines. cbn [map].
  rewrite !string_concat_cons. apply str_in_app_r, str_in_app_l, str_in_app_l.
  apply str_in_refl.
Qed.

(** X27.  The report shows everything that is stored: for every category
    of the groups that holds an element, the text of the report holds the
    heading of the category, in capitals and with the number of its
    elements; and for every element stored in it, the block of that
    element: its number in the category, counted from 1, the relative
    path of its source file, and its markup between the fences. *)
Theorem report_shows_every_stored_element
    (w : world) (self : extractor) (st : state)
    (c : category) (l : list (node * string)) (i : nat) (entry : node * string) :
  (c, l) ∈ element_groups st ->
  l !! i = Some entry ->
  Py.str_in (Py.upper (display_name c) +:+ " (" +:+ pretty (length l) +:+
             " elements)")
            (report w self st) = true /\
  Py.str_in
    (lines [ "Element #" +:+ pretty (S i) +:+ " from " +:+
               relpath w entry.2 (project_dir self);
             "```html"; node_str entry.1; "```"; "" ])
    (report w self st) = true.
Proof.
  intros Hg Hi. split.
  - apply heading_in_report; [ exact Hg | ]. by destruct l.
  - by apply (element_block_in_report w self st c l).
Qed.

Lemma report_shows_every_stored_element_witness :
  let entry := (Tag "p" [] [NavigableString "x"], "/site/a.html") in
  let st := State ∅ [(other, [entry])] stats0 [] [] in
  Py.str_in ("OTHER (1 elements)") (report failing_world static_extractor st)
  = true /\
  Py.str_in
    (lines [ "Element #1 from /site/a.html"; "```html"; "<p>x</p>"; "```"; "" ])
    (report failing_world static_extractor st) = true.
Proof.
  intros entry st.
  apply (report_shows_every_stored_element failing_world static_extractor st
           other [entry] 0 entry).
  - apply list_elem_of_here.
  - reflexivity.
Defined.

Lemma echo_group_step acc x y t :
  echo_group acc (String x (String y t))
  = if negb (Nat.eqb (length acc) 0) && is_quote x && Ascii.eqb y ";"
    then Some (String.string_of_list_ascii (rev acc))
    else echo_group (x :: acc) (String y t).
Proof. reflexivity. Qed.

Lemma string_of_snoc (l : list ascii) (x : ascii) (g : string) :
  String.string_of_list_ascii (l ++ [x]) +:+ g
  = String.string_of_list_ascii l +:+ String x g.
Proof.
  induction l as [ | a l IH ]; [ reflexivity | ].
  change (String a (String.string_of_list_ascii (l ++ [x]) +:+ g)
          = String a (String.string_of_list_ascii l +:+ String x g)).
  by rewrite IH.
Qed.

Lemma echo_group_finds (g : string) (q : ascii) (rest : string) :
  forall acc,
    no_quote_semicolon g = true -> is_quote q = true ->
    (acc <> [] \/ g <> "") ->
    echo_group acc (g +:+ String q (String ";" rest))
    = Some (String.string_of_list_ascii (rev acc) +:+ g).
Proof.
  induction g as [ | x g IH ]; intros acc Hg Hq Hne.
  - change (echo_group acc (String q (String ";" rest))
            = Some (String.string_of_list_ascii (rev acc) +:+ "")).
    rewrite echo_group_step, Hq.
    destruct acc as [ | a acc ]; [ by destruct Hne | ].
    cbn [length Nat.eqb negb andb]. rewrite string_append_nil_r.
    by rewrite Ascii.eqb_refl.
  - assert (exists y t, g +:+ String q (String ";" rest) = String y t /\
              (is_quote x && Ascii.eqb y ";" = false)) as (y & t & Heq & Hxy).
    { destruct g as [ | y g ].
      - exists q, (String ";" rest). split; [ reflexivity | ].
        destruct (is_quote x); [ | reflexivity ].
        destruct q as [[] [] [] [] [] [] [] []]; try reflexivity; discriminate.
      - exists y, (g +:+ String q (String ";" rest)). split; [ reflexivity | ].
        cbn [no_quote_semicolon] in Hg.
        apply andb_true_iff in Hg as [Hg _]. by apply negb_true_iff. }
    change (echo_group acc (String x (g +:+ String q (String ";" rest)))
            = Some (String.string_of_list_ascii (rev acc) +:+ String x g)).
    rewrite Heq, echo_group_step.
    rewrite <- andb_assoc, Hxy, andb_false_r. rewrite <- Heq.
    rewrite IH.
    + f_equal. cbn [rev]. apply string_of_snoc.
    + destruct g as [ | y' g' ]; [ reflexivity | ].
      cbn [no_quote_semicolon] in Hg.
      by apply andb_true_iff in Hg as [_ Hg].
    + exact Hq.
    + left. discriminate.
Qed.

Lemma is_quote_not_space q : is_quote q = true -> Py.is_space q = false.
Proof.
  unfold is_quote. intros H.
  apply orb_true_iff in H as [H | H]; apply Ascii.eqb_eq in H; by subst.
Qed.

Lemma lstrip_all_space ws q rest :
  all_space ws = true -> Py.is_space q = false ->
  Py.lstrip (ws +:+ String q rest) = String q rest.
Proof.
  intros Hws Hq. induction ws as [ | c ws IH ].
  - change (Py.lstrip (String q rest) = String q rest).
    cbn [Py.lstrip]. by rewrite Hq.
  - simpl in Hws. apply andb_true_iff in Hws as [Hc Hws].
    change (Py.lstrip (String c (ws +:+ String q rest)) = String q rest).
    cbn [Py.lstrip]. rewrite Hc. by apply IH.
Qed.

Lemma php_echo_findall_skip (x after : string) :
  php_echo_findall_from (String.length x) (x +:+ after)
  = php_echo_findall_from 0 after.
Proof.
  induction x as [ | c x IH ]; [ reflexivity | ].
  change (php_echo_findall_from (S (String.length x)) (String c (x +:+ after))
          = php_echo_findall_from 0 after).
  cbn [php_echo_findall_from]. exact IH.
Qed.

(** X28.  An [echo] statement at the head of a text yields its literal,
    and the search goes on behind the statement: the statement is [echo],
    white space, a quote, a literal that is not empty and in which no
    quote is followed by a semicolon, a quote and a semicolon.  The two
    quotes need not be of the same kind. *)
Theorem echo_literal_is_found
    (ws literal after : string) (q1 q2 : ascii) :
  ws <> "" -> all_space ws = true ->
  is_quote q1 = true -> is_quote q2 = true ->
  literal <> "" -> no_quote_semicolon literal = true ->
  php_echo_findall
    ("echo" +:+ ws +:+ String q1 (literal +:+ String q2 (String ";" after)))
  = literal :: php_echo_findall after.
Proof.
  intros Hws Hspace Hq1 Hq2 Hne Hlit.
  set (body := literal +:+ String q2 (String ";" after)).
  set (s := "echo" +:+ ws +:+ String q1 body).
  set (matched := "cho" +:+ ws +:+ String q1 (literal +:+ String q2 (String ";" ""))).
  assert (echo_match s = Some literal) as Hmatch.
  { unfold echo_match.
    change (String.prefix "echo" s)
      with (String.prefix "echo" ("echo" +:+ (ws +:+ String q1 body))).
    rewrite string_prefix_append.
    change (Py.drop 4 s) with (ws +:+ String q1 body).
    rewrite (lstrip_all_space ws q1 body Hspace (is_quote_not_space q1 Hq1)).
    assert ((String.length (String q1 body)
             <? String.length (ws +:+ String q1 body))%nat = true) as ->.
    { apply Nat.ltb_lt. rewrite string_length_append.
      destruct ws; [ done | simpl; lia ]. }
    rewrite Hq1. unfold body.
    rewrite (echo_group_finds literal q2 after [] Hlit Hq2 (or_intror Hne)).
    reflexivity. }
  assert (echo_match_length s literal - 1 = String.length matched) as Hlen.
  { unfold echo_match_length.
    change (Py.drop 4 s) with (ws +:+ String q1 body).
    rewrite (lstrip_all_space ws q1 body Hspace (is_quote_not_space q1 Hq1)).
    unfold matched, body.
    change ("cho" +:+ ws +:+ String q1 (literal +:+ String q2 (String ";" "")))
      with (String "c" (String "h" (String "o"
              (ws +:+ String q1 (literal +:+ String q2 (String ";" "")))))).
    cbn [String.length]. rewrite !string_length_append. cbn [String.length].
    rewrite !string_length_append. cbn [String.length]. lia. }
  assert (s = String "e" (matched +:+ after)) as Hs.
  { unfold s, matched, body.
    change ("echo" +:+ ws +:+ String q1 (literal +:+ String q2 (String ";" after)))
      with (String "e" ("cho" +:+ (ws +:+ String q1 (literal +:+ String q2 (String ";" after))))).
    f_equal. rewrite !string_append_assoc. f_equal. f_equal.
    change (String q1 (literal +:+ String q2 (String ";" "")) +:+ after)
      with (String q1 ((literal +:+ String q2 (String ";" "")) +:+ after)).
    f_equal. by rewrite string_append_assoc. }
  unfold php_echo_findall. rewrite Hs at 1. cbn [php_echo_findall_from].
  rewrite <- Hs, Hmatch, Hlen. f_equal. apply php_echo_findall_skip.
Qed.

Lemma echo_literal_is_found_witness :
  php_echo_findall ("echo  " +:+ dquote +:+ "<b>x</b>';<i>y</i>")
  = "<b>x</b>" :: php_echo_findall "<i>y</i>".
Proof.
  apply (echo_literal_is_found "  " "<b>x</b>" "<i>y</i>" (ascii_of_nat 34) "'");
    solve [ reflexivity | discriminate ].
Defined.
